(** * ariba.report_filter: a shallow embedding of [ReportFilter] and its
    specification.

    The Python module [src/ariba/report_filter.py] loads a tab-separated
    report into a two-level dictionary (reference name -> contig name ->
    list of row dictionaries), filters every list of rows, prunes what
    became empty and writes the rows back.

    Conventions of the embedding.
    - A Python [str] is a [string] whose characters are the code points
      below 256; a row dictionary is a [gmap string value]; the report
      ([self.report]) is a [gmap string (gmap string (list (gmap string
      value)))].  Equality of [gmap]s is extensional, as [==] on Python
      dictionaries is.
    - Python is dynamically typed: a cell of a row is a [value], and the
      operations that can raise do so in the [result] monad.
    - Every row dictionary is created by the loader, one per line, and is
      referenced from exactly one list; the in-place update of the fallback
      rule ([new_d[key] = '.']) is therefore visible only through the list
      that [_filter_list_of_dicts] returns, and rows are modelled by value.
      [_filter_list_of_dicts_refs] is the same function on a store of
      objects: it returns the rows of the function by value and changes
      the one object of the fallback rule where it is.
    - A file handle is the list of the lines that iterating over it yields
      (reading), respectively that [print] appends to it (writing); [run]
      writes into a file system, a map from paths to what they hold.
    - Of [openpyxl] the module calls [worksheet.append], which can refuse
      a row; the call is a parameter of the development
      ([openpyxl_module]), and [check_string] is what the library does
      with a row of [str]. *)

From Stdlib Require Import ZArith String Ascii List Bool Lia.
From Stdlib Require Import SpecFloat Decimal DecimalString DecimalPos.
From stdpp Require Import base option gmap strings list fin_maps sorting.

Local Open Scope string_scope.
Local Open Scope Z_scope.
Local Open Scope list_scope.

(** ** Exceptions and the [result] monad *)

Inductive exn : Type :=
  | Error (msg : string)      (* [class Error (Exception)] of the module *)
  | AssertionError
  | ValueError
  | TypeError
  | OverflowError
  | AttributeError
  | KeyError (key : string)
  | NameError (name : string)
  | IllegalCharacterError     (* [openpyxl.utils.exceptions] *)
  | NonStrKey.                (* not a Python exception, see [dict_key] *)

Inductive result (A : Type) : Type :=
  | Ok (a : A)
  | Raise (e : exn).
Arguments Ok {A} a.
Arguments Raise {A} e.

#[global] Instance result_ret : MRet result := @Ok.
#[global] Instance result_bind : MBind result :=
  fun A B f m => match m with Ok a => f a | Raise e => Raise e end.

#[global] Instance exn_eq_dec : EqDecision exn.
Proof. solve_decision. Defined.
#[global] Instance result_eq_dec {A} `{EqDecision A} : EqDecision (result A).
Proof. solve_decision. Defined.

Definition of_option {A} (e : exn) (o : option A) : result A :=
  match o with Some a => Ok a | None => Raise e end.

(** ** Values *)

(** Modelled from the spec: the class [flag.Flag] is not under src/.  The
    spec (3, 4.1) describes it as an integer bitmask with named bits, built
    from its integer encoding and consulted through [has(name)]; its string
    form is the integer again, serialization being the inverse of parsing.
    The table of bit names is a parameter ([flags_in_order] below). *)
Record Flag : Type := mkFlag { to_number : Z }.

(** Modelled from the spec: the position of a bit name in the table. *)
Fixpoint flag_index (names : list string) (name : string) : option nat :=
  match names with
  | [] => None
  | n :: names' =>
      if String.eqb name n then Some O
      else option_map S (flag_index names' name)
  end.

(** Modelled from the spec: [Flag.has(name)], the bit of that name; a name
    that the table does not list is no member. *)
Definition Flag_has (names : list string) (f : Flag) (name : string) : bool :=
  match flag_index names name with
  | Some i => Z.testbit (to_number f) (Z.of_nat i)
  | None => false
  end.

(** A Python float is an IEEE 754 binary64 number. *)
Abbreviation pyfloat := spec_float.

Inductive value : Type :=
  | VStr (s : string)
  | VInt (n : Z)
  | VFloat (x : pyfloat)
  | VFlag (f : Flag).

#[global] Instance spec_float_eq_dec : EqDecision spec_float.
Proof. solve_decision. Defined.
#[global] Instance Flag_eq_dec : EqDecision Flag.
Proof. solve_decision. Defined.
#[global] Instance value_eq_dec : EqDecision value.
Proof. solve_decision. Defined.

(** A row of the report, the groups of one reference, the report. *)
Abbreviation dict := (gmap string value).
Abbreviation contigs := (gmap string (list (gmap string value))).
Abbreviation Collection :=
  (gmap string (gmap string (list (gmap string value)))).

(** [d[key]] *)
Definition getitem {A} (d : gmap string A) (key : string) : result A :=
  of_option (KeyError key) (d !! key).

(** ** Python built-ins on strings *)

Definition tab : ascii := "009"%char.
Definition newline : string := String "010"%char "".

(** [str.isspace] on the code points below 256. *)
Definition is_space (c : ascii) : bool :=
  let n := nat_of_ascii c in
  ((9 <=? n) && (n <=? 13) || (28 <=? n) && (n <=? 32)
   || (n =? 133) || (n =? 160))%nat.

Definition is_empty (s : string) : bool :=
  match s with EmptyString => true | _ => false end.

(** [s.rstrip()] *)
Fixpoint rstrip (s : string) : string :=
  match s with
  | EmptyString => EmptyString
  | String c s' =>
      let r := rstrip s' in
      if is_space c && is_empty r then EmptyString else String c r
  end.

(** The white space that [int] skips before and after its literal: the
    ASCII white space, and the white space above 127, which [int] replaces
    by a blank before it reads the literal.  The separators 28 to 31 are
    white space for [str.isspace] and [str.rstrip], not for [int]. *)
Definition is_int_space (c : ascii) : bool :=
  let n := nat_of_ascii c in
  ((9 <=? n) && (n <=? 13) || (n =? 32) || (n =? 133) || (n =? 160))%nat.

Fixpoint int_rstrip (s : string) : string :=
  match s with
  | EmptyString => EmptyString
  | String c s' =>
      let r := int_rstrip s' in
      if is_int_space c && is_empty r then EmptyString else String c r
  end.

Fixpoint int_lstrip (s : string) : string :=
  match s with
  | EmptyString => EmptyString
  | String c s' => if is_int_space c then int_lstrip s' else s
  end.

(** [s.split(sep)] for a one-character separator: never the empty list. *)
Fixpoint split (sep : ascii) (s : string) : list string :=
  match s with
  | EmptyString => [EmptyString]
  | String c s' =>
      if Ascii.eqb c sep then EmptyString :: split sep s'
      else match split sep s' with
           | x :: xs => String c x :: xs
           | [] => [String c EmptyString]
           end
  end.

(** [sep.join(l)] *)
Fixpoint join (sep : ascii) (l : list string) : string :=
  match l with
  | [] => EmptyString
  | [x] => x
  | x :: l' => x +:+ String sep (join sep l')
  end.

(** ** Properties of cells, used to state the round trip *)

(** The character [c] does not occur in [s]. *)
Fixpoint no_char (c : ascii) (s : string) : bool :=
  match s with
  | EmptyString => true
  | String c' s' => negb (Ascii.eqb c' c) && no_char c s'
  end.

(** No white space occurs in [s]. *)
Fixpoint no_space (s : string) : bool :=
  match s with
  | EmptyString => true
  | String c s' => negb (is_space c) && no_space s'
  end.

(** [s] can end a line: it is not empty and [rstrip] leaves it alone. *)
Definition tail_ok (s : string) : Prop := rstrip s = s /\ s <> EmptyString.

#[global] Instance tail_ok_dec s : Decision (tail_ok s).
Proof. unfold tail_ok. apply _. Defined.

(** ** Python built-ins on numbers *)

Definition is_digit (c : ascii) : bool :=
  let n := nat_of_ascii c in ((48 <=? n) && (n <=? 57))%nat.

(** The digit part of an integer literal: digits, single underscores
    allowed between two digits. *)
Fixpoint digits_ok (after_digit : bool) (s : string) : bool :=
  match s with
  | EmptyString => after_digit
  | String c s' =>
      if is_digit c then digits_ok true s'
      else if Ascii.eqb c "_" then after_digit && digits_ok false s'
      else false
  end.

Fixpoint drop_underscores (s : string) : string :=
  match s with
  | EmptyString => EmptyString
  | String c s' =>
      if Ascii.eqb c "_" then drop_underscores s'
      else String c (drop_underscores s')
  end.

Definition nat_literal (s : string) : option Z :=
  if digits_ok false s
  then option_map Z.of_uint (NilEmpty.uint_of_string (drop_underscores s))
  else None.

(** [int(s)] for a [str]: the white space of [is_int_space] on both sides,
    an optional sign, then the digits; [None] stands for [ValueError].
    (The limit on the number of digits that an interpreter may set,
    [sys.set_int_max_str_digits], is not part of the embedding.) *)
Definition int_of_str (s : string) : option Z :=
  match int_lstrip (int_rstrip s) with
  | String "-" s' => option_map Z.opp (nat_literal s')
  | String "+" s' => nat_literal s'
  | s' => nat_literal s'
  end.

(** [str(n)] for an [int] *)
Definition str_of_int (n : Z) : string :=
  match n with
  | Z0 => "0"
  | Zpos p => NilEmpty.string_of_uint (Pos.to_uint p)
  | Zneg p => String "-" (NilEmpty.string_of_uint (Pos.to_uint p))
  end.

Definition prec64 : Z := 53.
Definition emax64 : Z := 1024.

(** [float(n)] for an [int]: round to nearest even, [OverflowError] when
    the result is not finite. *)
Definition float_of_int (n : Z) : result pyfloat :=
  match binary_normalize prec64 emax64 n 0 false with
  | S754_infinity _ => Raise OverflowError
  | x => Ok x
  end.

(** [int(x)] for a [float]: truncation towards zero. *)
Definition int_of_float (x : pyfloat) : result Z :=
  match x with
  | S754_zero _ => Ok 0
  | S754_infinity _ => Raise OverflowError
  | S754_nan => Raise ValueError
  | S754_finite s m e =>
      let a := if 0 <=? e then Z.pos m * 2 ^ e else Z.pos m / 2 ^ (- e) in
      Ok (if s then - a else a)
  end.

(** The exact comparison of a float with an integer; [None] for a NaN. *)
Definition float_compare_int (x : pyfloat) (n : Z) : option comparison :=
  match x with
  | S754_nan => None
  | S754_infinity s => Some (if s then Lt else Gt)
  | S754_zero _ => Some (0 ?= n)
  | S754_finite s m e =>
      let v := if s then Z.neg m else Z.pos m in
      Some (if 0 <=? e then (v * 2 ^ e ?= n) else (v ?= n * 2 ^ (- e)))
  end.

(** [a >= b] *)
Definition py_ge (a b : value) : result bool :=
  match a, b with
  | VInt x, VInt y => Ok (y <=? x)
  | VFloat x, VFloat y => Ok (SFleb y x)
  | VFloat x, VInt y =>
      Ok (match float_compare_int x y with Some (Gt | Eq) => true | _ => false end)
  | VInt x, VFloat y =>
      Ok (match float_compare_int y x with Some (Lt | Eq) => true | _ => false end)
  | VStr x, VStr y => Ok (String.leb y x)
  | _, _ => Raise TypeError
  end.

(** [v == s] for a [str] constant [s] *)
Definition py_eq_str (v : value) (s : string) : bool :=
  match v with VStr x => String.eqb x s | _ => false end.

(** The columns that the essential predicate reads. *)
Definition essential_columns : list string :=
  ["flag"; "pc_ident"; "ref_base_assembled"].


(** ** Monadic loops, dictionaries, sorting *)

(** [for x in l: a = f(a, x)] where the body can raise *)
Fixpoint foldM {A B} (f : A -> B -> result A) (a : A) (l : list B) : result A :=
  match l with
  | [] => Ok a
  | x :: l' => a' ← f a x; foldM f a' l'
  end.

(** [[f(x) for x in l]] where [f] can raise *)
Fixpoint result_map {A B} (f : A -> result B) (l : list A) : result (list B) :=
  match l with
  | [] => Ok []
  | x :: l' => y ← f x; ys ← result_map f l'; Ok (y :: ys)
  end.

(** [dict(zip(keys, data))]: a later pair overrides an earlier one. *)
Definition dict_zip (keys data : list string) : dict :=
  foldl (fun d kv => <[kv.1 := VStr kv.2]> d) ∅ (zip keys data).

(** [del d[key]] *)
Definition delitem {A} (d : gmap string A) (key : string)
  : result (gmap string A) :=
  match d !! key with
  | Some _ => Ok (delete key d)
  | None => Raise (KeyError key)
  end.

(** [if key not in d: d[key] = a] *)
Definition setdefault {A} (d : gmap string A) (key : string) (a : A)
  : gmap string A :=
  match d !! key with
  | Some _ => d
  | None => <[key := a]> d
  end.

(** The order of [str]: lexicographic on the characters. *)
Definition str_le (a b : string) : Prop := String.leb a b = true.
#[global] Instance str_le_dec a b : Decision (str_le a b).
Proof. unfold str_le. apply _. Defined.

Definition key_le {A} (x y : string * A) : Prop := str_le x.1 y.1.
#[global] Instance key_le_dec {A} (x y : string * A) : Decision (key_le x y).
Proof. unfold key_le. apply _. Defined.

(** [sorted(d)]: the keys of a dictionary in order *)
Definition sorted_keys {A} (d : gmap string A) : list string :=
  merge_sort str_le (map_to_list d).*1.

(** [sorted(d.items())]: the keys are distinct, so that the comparison of
    two items is decided by their keys. *)
Definition sorted_items {A} (d : gmap string A) : list (string * A) :=
  merge_sort key_le (map_to_list d).

(** The keys of a report must be [str] in this embedding (spec 3: a
    reference name and a contig name are strings).  Python would accept
    any hashable cell as a key; a row whose ['ref_name'] or ['ctg'] cell is
    not a [str], possible only when [report] lists that column as numeric,
    leaves the embedding with [NonStrKey]. *)
Definition dict_key (v : value) : result string :=
  match v with
  | VStr s => Ok s
  | _ => Raise NonStrKey
  end.

(** [report_dict[ref_name][ctg_name].append(line_dict)], after the two
    [if ... not in ...] initialisations. *)
Definition add_line_dict
    (report_dict : Collection)
    (ref_name ctg_name : string) (line_dict : dict)
  : Collection :=
  let report_dict := setdefault report_dict ref_name ∅ in
  let report_dict :=
    alter (fun ctgs => setdefault ctgs ctg_name []) ref_name report_dict in
  alter (alter (fun l => l ++ [line_dict]) ctg_name) ref_name report_dict.

(** [self.report[ref_name][ctg_name]] as an option *)
Definition group
    (self_report : Collection)
    (ref_name ctg_name : string) : option (list dict) :=
  ctgs ← self_report !! ref_name; ctgs !! ctg_name.

(** The pairs that the two nested [for] loops of [_filter_dicts] visit. *)
Definition group_keys
    (self_report : Collection)
  : list (string * string) :=
  r ← map_to_list self_report; (fun c => (r.1, c)) <$> (map_to_list r.2).*1.

(** ** The module, relative to what it imports *)

(** The tables of the module [ariba.report], which is not under src/. *)
Record report_module : Type := {
  columns : list string;
  int_columns : list string;
  float_columns : list string;
  var_columns : list string;
}.

(** What the module uses of [openpyxl], which is no code of the
    repository: [worksheet.append(row)] for a row of [str], as the cells
    that the sheet stores for the row or the exception that the call
    raises; a cell that holds a control character is refused with
    [IllegalCharacterError]. *)
Record openpyxl_module : Type := {
  worksheet_append : list string -> result (list string);
}.

(** The constructor arguments of [ReportFilter] other than [infile];
    [self.report] is threaded separately. *)
Record ReportFilter : Type := {
  min_pc_ident : value;
  min_ref_base_assembled : value;
  ignore_not_has_known_variant : bool;
  exclude_flags : list string;
}.

(** The three lists that the loop of [_filter_list_of_dicts] fills. *)
Record buckets : Type := {
  pass_dicts : list dict;
  essential_dicts : list dict;
  fail_dicts : list dict;
}.

(** ** What the writers write

    The workbook is [openpyxl]'s; what [_write_report_xls] makes of it is
    the title of its first sheet and the rows that the sheet stores, each a
    list of cell values.  A file system maps a path to what it holds. *)
Record worksheet : Type := {
  title : string;
  sheet_rows : list (list string);
}.

Inductive file : Type :=
  | TextFile (lines : list string)
  | Workbook (sheet : worksheet).

#[global] Instance worksheet_eq_dec : EqDecision worksheet.
Proof. solve_decision. Defined.
#[global] Instance file_eq_dec : EqDecision file.
Proof. solve_decision. Defined.
#[global] Instance ReportFilter_eq_dec : EqDecision ReportFilter.
Proof. solve_decision. Defined.

(** The first [n] characters of a string, [value[:n]]. *)
Fixpoint string_take (n : N) (value : string) : string :=
  match value with
  | EmptyString => EmptyString
  | String c value' =>
      if (n =? 0)%N then EmptyString
      else String c (string_take (N.pred n) value')
  end.

(** The control characters that a cell of a sheet cannot hold:
    [ILLEGAL_CHARACTERS_RE] of [openpyxl], the characters 0 to 8, 11, 12
    and 14 to 31. *)
Definition is_illegal_character (c : ascii) : bool :=
  let n := nat_of_ascii c in
  ((n <=? 8) || (11 <=? n) && (n <=? 12) || (14 <=? n) && (n <=? 31))%nat.

Fixpoint has_illegal_character (value : string) : bool :=
  match value with
  | EmptyString => false
  | String c value' => is_illegal_character c || has_illegal_character value'
  end.

(** [Cell.check_string] of [openpyxl], which [worksheet.append] applies to
    every cell that is a [str]: the value is cut after 32767 characters,
    and refused when it then holds an illegal character. *)
Definition check_string (value : string) : result string :=
  let value := string_take 32767 value in
  if has_illegal_character value then Raise IllegalCharacterError
  else Ok value.

(** ** Sample data

    A small instance of the tables of [ariba.report] and of the bit names
    of [flag.Flag], a default-configured filter and a few rows, used to
    run the embedding on concrete inputs. *)

Definition ex_report : report_module := {|
  columns := ["ref_name"; "flag"; "ref_base_assembled"; "pc_ident"; "ctg";
              "known_var"; "has_known_var"; "ref_ctg_change"; "free_text"];
  int_columns := ["ref_base_assembled"];
  float_columns := ["pc_ident"];
  var_columns := ["known_var"; "ref_ctg_change"];
|}.

Definition ex_flags_in_order : list string :=
  ["assembled"; "assembly_fail"; "ref_seq_choose_fail"].

(** The defaults of [ReportFilter.__init__]. *)
Definition ex_self : ReportFilter := {|
  min_pc_ident := VInt 90;
  min_ref_base_assembled := VInt 1;
  ignore_not_has_known_variant := true;
  exclude_flags := ["assembly_fail"; "ref_seq_choose_fail"];
|}.

Definition ex_lenient : ReportFilter := {|
  min_pc_ident := VInt 90;
  min_ref_base_assembled := VInt 1;
  ignore_not_has_known_variant := false;
  exclude_flags := ["assembly_fail"; "ref_seq_choose_fail"];
|}.

(** 99.5 as a binary64 number *)
Definition ex_99_5 : pyfloat := S754_finite false 7001690045677568 (-46).

(** [float] and [str] on the one float of the sample data. *)
Definition ex_float_of_str (s : string) : option pyfloat :=
  if String.eqb s "99.5" then Some ex_99_5 else None.
Definition ex_str_of_float (x : pyfloat) : string := "99.5".

Definition ex_row (ref_name ctg : string) (flag : Z)
    (ref_base_assembled pc_ident : value) (has_known_var : string)
  : dict :=
  list_to_map
    [("ref_name", VStr ref_name); ("flag", VFlag (mkFlag flag));
     ("ref_base_assembled", ref_base_assembled); ("pc_ident", pc_ident);
     ("ctg", VStr ctg); ("known_var", VStr "1");
     ("has_known_var", VStr has_known_var); ("ref_ctg_change", VStr "A42T");
     ("free_text", VStr "some text")].

(** R1 satisfies the essential predicate only, R2 both predicates; R3 and
    R4 carry the flag [assembly_fail] and no numbers. *)
Definition ex_R1 : dict :=
  ex_row "ref1" "ctg1" 1 (VInt 120) (VFloat ex_99_5) "0".
Definition ex_R2 : dict :=
  ex_row "ref1" "ctg1" 1 (VInt 120) (VFloat ex_99_5) "1".
Definition ex_R3 : dict :=
  ex_row "ref1" "ctg1" 2 (VStr ".") (VStr ".") "0".
Definition ex_R4 : dict :=
  ex_row "ref2" "ctg2" 2 (VStr ".") (VStr ".") "0".

(** A row whose flag passes and whose numeric cells are undetermined. *)
Definition ex_undetermined : dict :=
  ex_row "ref1" "ctg1" 1 (VStr ".") (VStr ".") "0".

(** A report with two references of one contig each, and the file it is
    loaded from. *)
Definition ex_self_report : Collection :=
  {[ "ref1" := {[ "ctg1" := [ex_R3; ex_R1; ex_R1] ]};
     "ref2" := {[ "ctg2" := [ex_R4] ]} ]}.

Definition ex_line (cells : list string) : string := join "009"%char cells.

Definition ex_infile : list string :=
  [ String "#" (ex_line (columns ex_report));
    ex_line ["ref1"; "2"; "."; "."; "ctg1"; "1"; "0"; "A42T"; "some text"];
    ex_line ["ref1"; "1"; "120"; "99.5"; "ctg1"; "1"; "0"; "A42T"; "some text"];
    ex_line ["ref2"; "2"; "."; "."; "ctg2"; "1"; "0"; "A42T"; "some text"];
    ex_line ["ref1"; "1"; "120"; "99.5"; "ctg1"; "1"; "0"; "A42T"; "some text"] ].

(** A data line with undetermined numeric cells, and one with a malformed
    integer. *)
Definition ex_dot_line : string :=
  ex_line ["ref1"; "2"; "."; "."; "ctg1"; "1"; "0"; "A42T"; "some text"].
Definition ex_bad_line : string :=
  ex_line ["ref1"; "1"; "12x"; "99.5"; "ctg1"; "1"; "0"; "A42T"; "some text"].

(** A filter with higher thresholds, and one that lists the excluded flags
    in another order, one of them twice. *)
Definition ex_strict : ReportFilter := {|
  min_pc_ident := VInt 95;
  min_ref_base_assembled := VInt 100;
  ignore_not_has_known_variant := true;
  exclude_flags := ["assembly_fail"; "ref_seq_choose_fail"];
|}.

Definition ex_reordered : ReportFilter := {|
  min_pc_ident := VInt 90;
  min_ref_base_assembled := VInt 1;
  ignore_not_has_known_variant := true;
  exclude_flags := ["ref_seq_choose_fail"; "assembly_fail"; "assembly_fail"];
|}.

(** The lines of [ex_self_report] in the order in which they are written. *)
Definition ex_outfile : list string :=
  [ String "#" (ex_line (columns ex_report));
    ex_line ["ref1"; "2"; "."; "."; "ctg1"; "1"; "0"; "A42T"; "some text"];
    ex_line ["ref1"; "1"; "120"; "99.5"; "ctg1"; "1"; "0"; "A42T"; "some text"];
    ex_line ["ref1"; "1"; "120"; "99.5"; "ctg1"; "1"; "0"; "A42T"; "some text"];
    ex_line ["ref2"; "2"; "."; "."; "ctg2"; "1"; "0"; "A42T"; "some text"] ].

(** What the default filter leaves of [ex_self_report], and the files that
    [run] writes of it under the prefix ["out"]. *)
Definition ex_filtered_report : Collection :=
  {[ "ref1" :=
       {[ "ctg1" := [ <["known_var" := VStr "."]>
                        (<["ref_ctg_change" := VStr "."]> ex_R1) ] ]} ]}.

Definition ex_filtered_cells : list string :=
  ["ref1"; "1"; "120"; "99.5"; "ctg1"; "."; "0"; "."; "some text"].

Definition ex_files : gmap string file :=
  {[ "out.xls" :=
       Workbook {| title := "ARIBA_report";
                   sheet_rows := [columns ex_report; ex_filtered_cells] |};
     "out.tsv" :=
       TextFile [ String "#" (ex_line (columns ex_report));
                  ex_line ex_filtered_cells ] ]}.

(** A report in which every row carries an excluded flag. *)
Definition ex_failed_report : Collection :=
  {[ "ref1" := {[ "ctg1" := [ex_R3] ]}; "ref2" := {[ "ctg2" := [ex_R4] ]} ]}.

(** A data line whose flag cell is undetermined, and the cells of a data
    line without its last cell. *)
Definition ex_dot_flag_line : string :=
  ex_line ["ref1"; "."; "120"; "99.5"; "ctg1"; "1"; "0"; "A42T"; "some text"].
Definition ex_init_cells : list string :=
  ["ref1"; "1"; "120"; "99.5"; "ctg1"; "1"; "0"; "A42T"].

(** [worksheet.append] on a row of [str], as [openpyxl] has it: every cell
    goes through [check_string], from left to right. *)
Definition ex_openpyxl : openpyxl_module := {|
  worksheet_append := result_map check_string;
|}.

(** A row that is loaded and written as a line, and that a sheet refuses:
    its last cell holds the control character 1. *)
Definition ex_control_row : dict :=
  <["free_text" := VStr (String "001" "text")]> ex_R2.
Definition ex_control_report : Collection :=
  {[ "ref1" := {[ "ctg1" := [ex_control_row] ]} ]}.

(** Two rows as objects at the addresses [0] and [1]. *)
Definition ex_store : gmap nat (gmap string value) :=
  {[ 0%nat := ex_R3; 1%nat := ex_R1 ]}.

(** A report with a row whose flag passes and whose identity is
    undetermined. *)
Definition ex_undetermined_report : Collection :=
  {[ "ref1" := {[ "ctg1" := [ex_R2; ex_undetermined] ]} ]}.

(** A line that is parsed into [ex_R1] and is not the line of [ex_R1]. *)
Definition ex_padded_line : string :=
  ex_line ["ref1"; "1"; "0120"; "99.5"; "ctg1"; "1"; "0"; "A42T"; "some text"].

Section ReportFilter.

#[local] Set Default Proof Using "Type".

(** [report.columns] and its sister tables, and the bit names of
    [flag.Flag]. *)
Variable report : report_module.
Variable flags_in_order : list string.

(** [float(s)] for a [str] ([None]: [ValueError]) and [str(x)] for a float:
    correctly rounded decimal conversion is taken as given. *)
Variable float_of_str : string -> option pyfloat.
Variable str_of_float : pyfloat -> string.

(** What the module uses of [openpyxl]. *)
Variable openpyxl : openpyxl_module.

(** [int(v)] *)
Definition py_int (v : value) : result Z :=
  match v with
  | VStr s => of_option ValueError (int_of_str s)
  | VInt n => Ok n
  | VFloat x => int_of_float x
  | VFlag _ => Raise TypeError
  end.

(** [float(v)] *)
Definition py_float (v : value) : result pyfloat :=
  match v with
  | VStr s => of_option ValueError (float_of_str s)
  | VInt n => float_of_int n
  | VFloat x => Ok x
  | VFlag _ => Raise TypeError
  end.

(** [str(v)] *)
Definition py_str (v : value) : string :=
  match v with
  | VStr s => s
  | VInt n => str_of_int n
  | VFloat x => str_of_float x
  | VFlag f => str_of_int (to_number f)
  end.

(** [flag.has(f)]: only a [Flag] has the method. *)
Definition has (flag : value) (f : string) : result bool :=
  match flag with
  | VFlag fl => Ok (Flag_has flags_in_order fl f)
  | _ => Raise AttributeError
  end.

(** *** [_flag_passes_filter] *)
Fixpoint _flag_passes_filter (flag : value) (exclude_flags : list string)
  : result bool :=
  match exclude_flags with
  | [] => Ok true
  | f :: rest =>
      b ← has flag f;
      if b : bool then Ok false else _flag_passes_filter flag rest
  end.

(** *** [_report_dict_passes_non_essential_filters] *)
Definition _report_dict_passes_non_essential_filters
    (self : ReportFilter) (report_dict : dict) : result bool :=
  if ignore_not_has_known_variant self then
    v ← getitem report_dict "has_known_var";
    Ok (py_eq_str v "1")
  else Ok true.

(** *** [_report_dict_passes_essential_filters]: a short-circuit [and] *)
Definition _report_dict_passes_essential_filters
    (self : ReportFilter) (report_dict : dict) : result bool :=
  fl ← getitem report_dict "flag";
  b1 ← _flag_passes_filter fl (exclude_flags self);
  if b1 : bool then
    pc ← getitem report_dict "pc_ident";
    b2 ← py_ge pc (min_pc_ident self);
    if b2 : bool then
      rb ← getitem report_dict "ref_base_assembled";
      py_ge rb (min_ref_base_assembled self)
    else Ok false
  else Ok false.

(** *** [_report_dict_passes_filters] *)
Definition _report_dict_passes_filters
    (self : ReportFilter) (report_dict : dict) : result bool :=
  b ← _report_dict_passes_essential_filters self report_dict;
  if b : bool then _report_dict_passes_non_essential_filters self report_dict
  else Ok false.

(** [for key in report.var_columns: new_d[key] = '.'] *)
Definition blank_var_columns (new_d : dict) : dict :=
  foldl (fun d key => <[key := VStr "."]> d) new_d (var_columns report).

(** The [for d in dicts_list] loop of [_filter_list_of_dicts]. *)
Fixpoint classify (self : ReportFilter) (dicts_list : list dict)
    (b : buckets) : result buckets :=
  match dicts_list with
  | [] => Ok b
  | d :: rest =>
      e ← _report_dict_passes_essential_filters self d;
      if e : bool then
        n ← _report_dict_passes_non_essential_filters self d;
        if n : bool then
          classify self rest
            {| pass_dicts := pass_dicts b ++ [d];
               essential_dicts := essential_dicts b;
               fail_dicts := fail_dicts b |}
        else
          classify self rest
            {| pass_dicts := pass_dicts b;
               essential_dicts := essential_dicts b ++ [d];
               fail_dicts := fail_dicts b |}
      else
        classify self rest
          {| pass_dicts := pass_dicts b;
             essential_dicts := essential_dicts b;
             fail_dicts := fail_dicts b ++ [d] |}
  end.

(** *** [_filter_list_of_dicts] *)
Definition _filter_list_of_dicts
    (self : ReportFilter) (dicts_list : list dict)
  : result (list dict) :=
  if (length dicts_list =? 0)%nat then Ok []
  else
    b ← classify self dicts_list
          {| pass_dicts := []; essential_dicts := []; fail_dicts := [] |};
    if (length (pass_dicts b) =? 0)%nat then
      if negb (0 <? length (fail_dicts b) + length (essential_dicts b))%nat
      then Raise AssertionError
      else
        match essential_dicts b with
        | new_d :: _ => Ok (pass_dicts b ++ [blank_var_columns new_d])
        | [] => Ok (pass_dicts b)
        end
    else Ok (pass_dicts b).

(** *** [_report_line_to_dict] *)

(** The shape shared by the two coercion loops of [_report_line_to_dict]:
    [try: d[key] = conv(d[key])  except: assert d[key] == '.'] *)
Definition coerce (conv : value -> result value) (d : dict)
    (key : string) : result (dict) :=
  match (v ← getitem d key; conv v) with
  | Ok x => Ok (<[key := x]> d)
  | Raise _ =>
      v ← getitem d key;
      if py_eq_str v "." then Ok d else Raise AssertionError
  end.

Definition conv_int (v : value) : result value := n ← py_int v; Ok (VInt n).
Definition conv_float (v : value) : result value := x ← py_float v; Ok (VFloat x).


(** [try: d[key] = int(d[key])  except: assert d[key] == '.'] *)
Definition int_column (d : dict) (key : string)
  : result (dict) :=
  match (v ← getitem d key; py_int v) with
  | Ok n => Ok (<[key := VInt n]> d)
  | Raise _ =>
      v ← getitem d key;
      if py_eq_str v "." then Ok d else Raise AssertionError
  end.

(** [try: d[key] = float(d[key])  except: assert d[key] == '.'] *)
Definition float_column (d : dict) (key : string)
  : result (dict) :=
  match (v ← getitem d key; py_float v) with
  | Ok x => Ok (<[key := VFloat x]> d)
  | Raise _ =>
      v ← getitem d key;
      if py_eq_str v "." then Ok d else Raise AssertionError
  end.

Definition _report_line_to_dict (line : string)
  : result (option (dict)) :=
  let data := split tab line in
  if negb (length data =? length (columns report))%nat then Ok None
  else
    let d := dict_zip (columns report) data in
    d ← foldM int_column d (int_columns report);
    d ← foldM float_column d (float_columns report);
    fl ← getitem d "flag";
    n ← py_int fl;
    Ok (Some (<["flag" := VFlag (mkFlag n)]> d)).

(** *** [_dict_to_report_line] *)
Definition _dict_to_report_line (report_dict : dict)
  : result string :=
  cells ← result_map (fun x => v ← getitem report_dict x; Ok (py_str v))
            (columns report);
  Ok (join tab cells).

(** *** [_load_report]

    The loop over the lines of the file, with [first_line] and
    [report_dict] as its state.  In the branch [line_dict is None] the
    message of the [Error] is built from [str(len(data))], and [data] is
    a local of [_report_line_to_dict], not of [_load_report], nor a global
    of the module: evaluating the name raises [NameError] before [Error] is
    constructed. *)
Definition expected_first_line : string := "#" +:+ join tab (columns report).

Fixpoint load_lines (f : list string) (first_line : bool)
    (report_dict : Collection)
  : result (Collection) :=
  match f with
  | [] => Ok report_dict
  | line :: f' =>
      let line := rstrip line in
      if first_line then
        if negb (String.eqb line expected_first_line) then
          Raise (Error ("Error reading report file. Expected first line of file is"
                        +:+ newline +:+ expected_first_line +:+ newline
                        +:+ "but got:" +:+ newline +:+ line))
        else load_lines f' false report_dict
      else
        line_dict ← _report_line_to_dict line;
        match line_dict with
        | None => Raise (NameError "data")
        | Some line_dict =>
            ref_name ← getitem line_dict "ref_name";
            ctg_name ← getitem line_dict "ctg";
            ref_name ← dict_key ref_name;
            ctg_name ← dict_key ctg_name;
            load_lines f' false
              (add_line_dict report_dict ref_name ctg_name line_dict)
        end
  end.

Definition _load_report (infile : list string)
  : result (Collection) :=
  load_lines infile true ∅.

(** *** [_filter_dicts]

    The state of the first pair of loops is [self.report] and
    [keys_to_remove]; of the second loop, [self.report] and
    [refs_to_remove]. *)
Definition filter_group (self : ReportFilter)
    (st : Collection
          * gset (string * string))
    (key : string * string)
  : result (Collection
            * gset (string * string)) :=
  ctgs ← getitem st.1 key.1;
  dicts_list ← getitem ctgs key.2;
  new_list ← _filter_list_of_dicts self dicts_list;
  let self_report := <[key.1 := <[key.2 := new_list]> ctgs]> st.1 in
  if (length new_list =? 0)%nat
  then Ok (self_report, {[ key ]} ∪ st.2)
  else Ok (self_report, st.2).

Definition remove_key
    (st : Collection * gset string)
    (key : string * string)
  : result (Collection
            * gset string) :=
  ctgs ← getitem st.1 key.1;
  ctgs ← delitem ctgs key.2;
  let self_report := <[key.1 := ctgs]> st.1 in
  if (size ctgs =? 0)%nat
  then Ok (self_report, {[ key.1 ]} ∪ st.2)
  else Ok (self_report, st.2).

Definition _filter_dicts (self : ReportFilter)
    (self_report : Collection)
  : result (Collection) :=
  st ← foldM (filter_group self) (self_report, ∅) (group_keys self_report);
  st ← foldM remove_key (st.1, ∅) (elements st.2);
  foldM delitem st.1 (elements st.2).

(** *** [_write_report_tsv]: the lines printed to the file *)
Definition _write_report_tsv
    (self_report : Collection)
  : result (list string) :=
  rows ← result_map
    (fun ref_name =>
       ctgs ← getitem self_report ref_name;
       lines ← result_map
         (fun item : string * list dict =>
            result_map _dict_to_report_line item.2)
         (sorted_items ctgs);
       Ok (concat lines))
    (sorted_keys self_report);
  Ok (("#" +:+ join tab (columns report)) :: concat rows).

(** *** [_write_report_xls]: the sheet that is saved

    [worksheet.append] can refuse a row: the header is appended before any
    row is visited, and the cells of a row are computed, with the
    [KeyError] of a column that the row lacks, before the row is appended. *)

(** [[str(d[x]) for x in report.columns]] *)
Definition cells_of (d : dict) : result (list string) :=
  result_map (fun x => v ← getitem d x; Ok (py_str v)) (columns report).

Definition _write_report_xls
    (self_report : Collection)
  : result worksheet :=
  header ← worksheet_append openpyxl (columns report);
  rows ← result_map
    (fun ref_name =>
       ctgs ← getitem self_report ref_name;
       rows ← result_map
         (fun item : string * list dict =>
            result_map
              (fun d => cells ← cells_of d; worksheet_append openpyxl cells)
              item.2)
         (sorted_items ctgs);
       Ok (concat rows))
    (sorted_keys self_report);
  Ok {| title := "ARIBA_report"; sheet_rows := header :: concat rows |}.

(** *** [run]

    The files that [run] writes: [workbook.save] and the writing of the
    text file replace what their path held.
    ([pyfastaq.utils.open_file_write] opens a plain file unless the name
    ends in [.gz] or is [-], which the name [outprefix + '.tsv'] never
    does.) *)
Definition run (self : ReportFilter)
    (self_report : Collection)
    (outprefix : string) (files : gmap string file)
  : result (Collection * gmap string file) :=
  self_report ← _filter_dicts self self_report;
  sheet ← _write_report_xls self_report;
  let files := <[outprefix +:+ ".xls" := Workbook sheet]> files in
  outfile ← _write_report_tsv self_report;
  let files := <[outprefix +:+ ".tsv" := TextFile outfile]> files in
  Ok (self_report, files).

(** *** [__init__]

    The object that the constructor builds: its configuration and
    [self.report].  An argument [None] is [infile=None], respectively
    [exclude_flags=None]; the defaults of the other keyword arguments are
    [90], [1] and [True]. *)
Definition __init__ (infile : option (list string))
    (min_pc_ident min_ref_base_assembled : value)
    (ignore_not_has_known_variant : bool)
    (exclude_flags : option (list string))
  : result (ReportFilter * Collection) :=
  self_report ← match infile with
                | Some infile => _load_report infile
                | None => Ok ∅
                end;
  Ok ({| min_pc_ident := min_pc_ident;
         min_ref_base_assembled := min_ref_base_assembled;
         ignore_not_has_known_variant := ignore_not_has_known_variant;
         exclude_flags := match exclude_flags with
                          | None => ["assembly_fail"; "ref_seq_choose_fail"]
                          | Some exclude_flags => exclude_flags
                          end |},
      self_report).

(** *** [_filter_list_of_dicts] on the objects

    The rows by reference: a list of rows is a list of addresses in a store
    of dictionaries, as the lists of Python are, so that the assignments
    [new_d[key] = '.'] change the object that the list of the caller still
    refers to.  (A list holds only the addresses of objects; an address
    that the store does not hold reads as the empty dictionary.) *)
Abbreviation store := (gmap nat (gmap string value)).

(** The rows that a list of addresses refers to. *)
Definition rows_of (h : store) (l : list nat) : list (gmap string value) :=
  (fun p => h !!! p) <$> l.

Record ref_buckets : Type := {
  pass_refs : list nat;
  essential_refs : list nat;
  fail_refs : list nat;
}.

Fixpoint classify_refs (self : ReportFilter) (h : store)
    (dicts_list : list nat) (b : ref_buckets) : result ref_buckets :=
  match dicts_list with
  | [] => Ok b
  | d :: rest =>
      e ← _report_dict_passes_essential_filters self (h !!! d);
      if e : bool then
        n ← _report_dict_passes_non_essential_filters self (h !!! d);
        if n : bool then
          classify_refs self h rest
            {| pass_refs := pass_refs b ++ [d];
               essential_refs := essential_refs b;
               fail_refs := fail_refs b |}
        else
          classify_refs self h rest
            {| pass_refs := pass_refs b;
               essential_refs := essential_refs b ++ [d];
               fail_refs := fail_refs b |}
      else
        classify_refs self h rest
          {| pass_refs := pass_refs b;
             essential_refs := essential_refs b;
             fail_refs := fail_refs b ++ [d] |}
  end.

(** [for key in report.var_columns: new_d[key] = '.'] on the object at the
    address [new_d] *)
Definition blank_var_columns_at (h : store) (new_d : nat) : store :=
  foldl (fun h key => <[new_d := <[key := VStr "."]> (h !!! new_d)]> h) h
    (var_columns report).

Definition _filter_list_of_dicts_refs
    (self : ReportFilter) (h : store) (dicts_list : list nat)
  : result (store * list nat) :=
  if (length dicts_list =? 0)%nat then Ok (h, [])
  else
    b ← classify_refs self h dicts_list
          {| pass_refs := []; essential_refs := []; fail_refs := [] |};
    if (length (pass_refs b) =? 0)%nat then
      if negb (0 <? length (fail_refs b) + length (essential_refs b))%nat
      then Raise AssertionError
      else
        match essential_refs b with
        | new_d :: _ =>
            Ok (blank_var_columns_at h new_d, pass_refs b ++ [new_d])
        | [] => Ok (h, pass_refs b)
        end
    else Ok (h, pass_refs b).

(** ** Vocabulary of the specification *)

Definition is_Ok {A} (r : result A) : Prop :=
  match r with Ok _ => True | Raise _ => False end.

(** The filter can decide about a row: neither predicate raises on it. *)
Definition evaluates (self : ReportFilter) (d : dict) : Prop :=
  is_Ok (_report_dict_passes_filters self d).

(** A row satisfies the essential predicate. *)
Definition essential (self : ReportFilter) (d : dict) : Prop :=
  _report_dict_passes_essential_filters self d = Ok true.

(** A row satisfies the non-essential predicate. *)
Definition non_essential (self : ReportFilter) (d : dict) : Prop :=
  _report_dict_passes_non_essential_filters self d = Ok true.

(** A row satisfies both predicates. *)
Definition passes (self : ReportFilter) (d : dict) : Prop :=
  _report_dict_passes_filters self d = Ok true.

#[global] Instance is_Ok_dec {A} (r : result A) : Decision (is_Ok r).
Proof. destruct r; simpl; apply _. Defined.
#[global] Instance evaluates_dec self d : Decision (evaluates self d).
Proof. unfold evaluates. apply _. Defined.
#[global] Instance essential_dec self d : Decision (essential self d).
Proof. unfold essential. apply _. Defined.
#[global] Instance non_essential_dec self d : Decision (non_essential self d).
Proof. unfold non_essential. apply _. Defined.
#[global] Instance passes_dec self d : Decision (passes self d).
Proof. unfold passes. apply _. Defined.

(** What [_filter_list_of_dicts] returns, as a function of the list. *)
Definition selected (self : ReportFilter) (dicts_list : list dict)
  : list dict :=
  match filter (passes self) dicts_list with
  | [] =>
      match filter (essential self) dicts_list with
      | new_d :: _ => [blank_var_columns new_d]
      | [] => []
      end
  | pass_dicts => pass_dicts
  end.

(** The groups of one reference after selection, without the empty ones. *)
Definition select_groups (self : ReportFilter)
    (ctgs : contigs)
  : contigs :=
  omap (fun l => match selected self l with [] => None | l' => Some l' end) ctgs.

(** What [_filter_dicts] leaves in [self.report], as a function of the
    report: a reference name goes when the deletion of its empty groups
    leaves it without any group. *)
Definition filtered (self : ReportFilter)
    (self_report : Collection)
  : Collection :=
  omap (fun ctgs =>
          let ctgs' := select_groups self ctgs in
          if decide (ctgs' = ∅ /\ ctgs <> ∅) then None else Some ctgs')
       self_report.

(** A property of every row of a report. *)
Definition all_rows (P : dict -> Prop)
    (self_report : Collection) : Prop :=
  map_Forall (fun _ ctgs => map_Forall (fun _ l => Forall P l) ctgs) self_report.

#[global] Instance all_rows_dec P `{!forall d, Decision (P d)} m :
  Decision (all_rows P m).
Proof. unfold all_rows. apply _. Defined.

(** *** Rows as the loader leaves them *)

(** What the round trip through a file needs of the tables of
    [ariba.report]: distinct column names; the key, flag, numeric and
    variant columns are columns; the reference name, the contig and the
    flag are neither numeric nor variant; no column is both integer and
    float; the header survives [rstrip]. *)
Definition schema_ok : Prop :=
  NoDup (columns report)
  /\ Forall (fun k => k ∈ columns report)
       (["ref_name"; "ctg"; "flag"] ++ int_columns report
        ++ float_columns report ++ var_columns report)
  /\ Forall (fun k => k ∉ int_columns report ++ float_columns report
                          ++ var_columns report)
       ["ref_name"; "ctg"; "flag"]
  /\ Forall (fun k => k ∉ float_columns report) (int_columns report)
  /\ rstrip expected_first_line = expected_first_line.

#[global] Instance schema_ok_dec : Decision schema_ok.
Proof. unfold schema_ok. apply _. Defined.

(** [str] prints a float without white space, in a form that [float]
    reads back as the same float. *)
Definition float_ok (v : value) : Prop :=
  match v with
  | VFloat x =>
      float_of_str (str_of_float x) = Some x
      /\ no_space (str_of_float x) = true
      /\ str_of_float x <> EmptyString
  | _ => True
  end.

#[global] Instance float_ok_dec v : Decision (float_ok v).
Proof. destruct v; simpl; apply _. Defined.

(** The type of a cell, by its column. *)
Definition cell_shape (k : string) (v : value) : Prop :=
  match v with
  | VFlag _ => k = "flag"
  | VInt _ => k ∈ int_columns report
  | VFloat _ => k ∈ float_columns report
  | VStr s =>
      k <> "flag"
      /\ (k ∈ int_columns report ++ float_columns report -> s = ".")
      /\ no_char tab s = true
      /\ (last (columns report) = Some k -> tail_ok s)
  end.

Definition row_shape (d : dict) : Prop :=
  (forall k, is_Some (d !! k) <-> k ∈ columns report)
  /\ map_Forall cell_shape d.

(** The line of a row. *)
Definition row_line (d : dict) : string :=
  join tab ((fun k => py_str (default (VStr EmptyString) (d !! k)))
              <$> columns report).

(** The rows of a report in the order in which they are written. *)
Definition report_rows
    (self_report : Collection)
  : list dict :=
  concat ((fun r => concat ((fun item : string * list dict => item.2)
                              <$> sorted_items (default ∅ (self_report !! r))))
            <$> sorted_keys self_report).

(** Every row is filed under its own reference name and contig. *)
Definition keyed
    (self_report : Collection) : Prop :=
  forall r c l, group self_report r c = Some l ->
    Forall (fun d => d !! "ref_name" = Some (VStr r)
                     /\ d !! "ctg" = Some (VStr c)) l.

(** The keys under which the loader files a row. *)
Definition ref_of (d : dict) : string :=
  match d !! "ref_name" with Some (VStr r) => r | _ => EmptyString end.
Definition ctg_of (d : dict) : string :=
  match d !! "ctg" with Some (VStr c) => c | _ => EmptyString end.

(** The report after the loader has filed the rows [rows] in [m]. *)
Definition load_rows (rows : list dict)
    (m : Collection)
  : Collection :=
  foldl (fun m d => add_line_dict m (ref_of d) (ctg_of d) d) m rows.

(** A property of the rows of a report that may depend on their group. *)
Definition all_groups (P : string -> string -> dict -> Prop)
    (self_report : Collection) : Prop :=
  forall r c l, group self_report r c = Some l -> Forall (P r c) l.

(** A row that can be written and read back into the group [(r, c)]. *)
Definition row_good (r c : string) (d : dict) : Prop :=
  row_shape d /\ map_Forall (fun _ => float_ok) d
  /\ d !! "ref_name" = Some (VStr r) /\ d !! "ctg" = Some (VStr c).

(** Every row of the report is filed under its own reference name and
    contig: [keyed], in a form that can be decided. *)
Definition filed_by_name
    (self_report : Collection) : Prop :=
  map_Forall
    (fun r ctgs =>
       map_Forall
         (fun c l => Forall (fun d => d !! "ref_name" = Some (VStr r)
                                      /\ d !! "ctg" = Some (VStr c)) l)
         ctgs)
    self_report.

#[global] Instance filed_by_name_dec m : Decision (filed_by_name m).
Proof. unfold filed_by_name. apply _. Defined.

(** The order of the written rows: by reference name, then by contig. *)
Definition written_before (d d' : dict) : Prop :=
  str_le (ref_of d) (ref_of d')
  /\ (ref_of d = ref_of d' -> str_le (ctg_of d) (ctg_of d')).

(** ** Rows and predicates *)

Lemma is_Ok_eq {A} (r : result A) : is_Ok r <-> exists a, r = Ok a.
Proof.
  destruct r as [a|e]; simpl; split; eauto.
  - intros [].
  - intros [a Ha]. discriminate.
Qed.

Lemma passes_essential self d : passes self d -> essential self d.
Proof.
  unfold passes, essential, _report_dict_passes_filters.
  destruct (_report_dict_passes_essential_filters self d) as [[]|]; simpl;
    congruence.
Qed.

Lemma passes_non_essential self d : passes self d -> non_essential self d.
Proof.
  unfold passes, non_essential, _report_dict_passes_filters.
  destruct (_report_dict_passes_essential_filters self d) as [[]|]; simpl;
    congruence.
Qed.

Lemma passes_iff self d : passes self d <-> essential self d /\ non_essential self d.
Proof.
  split; [eauto using passes_essential, passes_non_essential|].
  unfold passes, essential, non_essential, _report_dict_passes_filters.
  intros [-> ->]. reflexivity.
Qed.

(** The three ways in which the loop body can go on a row that evaluates. *)
Lemma evaluates_cases self d :
  evaluates self d ->
  (_report_dict_passes_essential_filters self d = Ok false)
  \/ (_report_dict_passes_essential_filters self d = Ok true
      /\ _report_dict_passes_non_essential_filters self d = Ok false)
  \/ (_report_dict_passes_essential_filters self d = Ok true
      /\ _report_dict_passes_non_essential_filters self d = Ok true).
Proof.
  unfold evaluates, _report_dict_passes_filters.
  destruct (_report_dict_passes_essential_filters self d) as [[]|]; simpl;
    [|auto|intros []].
  destruct (_report_dict_passes_non_essential_filters self d) as [[]|]; simpl;
    [auto|auto|intros []].
Qed.

Lemma lookup_blank_var_columns d key :
  blank_var_columns d !! key
  = if decide (key ∈ var_columns report) then Some (VStr ".") else d !! key.
Proof.
  unfold blank_var_columns. revert d.
  induction (var_columns report) as [|k ks IH]; intros d.
  - done.
  - cbn [foldl]. rewrite IH. destruct (decide (key ∈ ks)) as [Hin|Hin].
    + by rewrite decide_True by (by right).
    + destruct (decide (key = k)) as [->|Hne].
      * rewrite decide_True by left. by rewrite lookup_insert_eq.
      * rewrite lookup_insert_ne by done.
        rewrite decide_False; [done|].
        intros [?|?]%elem_of_cons; congruence.
Qed.

Lemma blank_var_columns_idemp d :
  blank_var_columns (blank_var_columns d) = blank_var_columns d.
Proof.
  apply map_eq. intros key. rewrite !lookup_blank_var_columns.
  by case_decide.
Qed.

(** ** The loop of [_filter_list_of_dicts] *)

Lemma classify_spec self dicts_list b :
  Forall (evaluates self) dicts_list ->
  classify self dicts_list b
  = Ok {| pass_dicts := pass_dicts b ++ filter (passes self) dicts_list;
          essential_dicts :=
            essential_dicts b
            ++ filter (fun d => essential self d /\ ~ passes self d) dicts_list;
          fail_dicts :=
            fail_dicts b ++ filter (fun d => ~ essential self d) dicts_list |}.
Proof.
  intros Hev. revert b.
  induction Hev as [|d ds Hd _ IH]; intros b; simpl.
  - rewrite !filter_nil, !app_nil_r. by destruct b.
  - destruct (evaluates_cases _ _ Hd) as [He|[[He Hn]|[He Hn]]].
    + rewrite He. simpl. rewrite IH. simpl.
      assert (~ essential self d) as Hne by (unfold essential; congruence).
      assert (~ passes self d) as Hnp by (intros ?%passes_essential; done).
      rewrite (filter_cons_False (passes self)) by done.
      rewrite (filter_cons_False (fun d => essential self d /\ ~ passes self d))
        by tauto.
      rewrite (filter_cons_True (fun d => ~ essential self d)) by done.
      by rewrite <- app_assoc.
    + rewrite He. simpl. rewrite Hn. simpl. rewrite IH. simpl.
      assert (essential self d) as Hne by done.
      assert (~ passes self d) as Hnp
        by (intros ?%passes_non_essential; unfold non_essential in *; congruence).
      rewrite (filter_cons_False (passes self)) by done.
      rewrite (filter_cons_True (fun d => essential self d /\ ~ passes self d))
        by tauto.
      rewrite (filter_cons_False (fun d => ~ essential self d)) by tauto.
      by rewrite <- app_assoc.
    + rewrite He. simpl. rewrite Hn. simpl. rewrite IH. simpl.
      assert (essential self d) as Hne by done.
      assert (passes self d) as Hnp by (by apply passes_iff).
      rewrite (filter_cons_True (passes self)) by done.
      rewrite (filter_cons_False (fun d => essential self d /\ ~ passes self d))
        by tauto.
      rewrite (filter_cons_False (fun d => ~ essential self d)) by tauto.
      by rewrite <- app_assoc.
Qed.

(** The loop returns only when every row evaluates. *)
Lemma classify_evaluates self dicts_list b b' :
  classify self dicts_list b = Ok b' -> Forall (evaluates self) dicts_list.
Proof.
  revert b. induction dicts_list as [|d ds IH]; intros b; simpl; [done|].
  intros H. apply Forall_cons.
  unfold evaluates, _report_dict_passes_filters.
  destruct (_report_dict_passes_essential_filters self d) as [[]|]; simpl in *;
    [|by eauto|done].
  destruct (_report_dict_passes_non_essential_filters self d) as [[]|];
    simpl in *; [by eauto|by eauto|done].
Qed.

Lemma filter_no_passes self (dicts_list : list dict) :
  filter (passes self) dicts_list = [] ->
  filter (fun d => essential self d /\ ~ passes self d) dicts_list
  = filter (essential self) dicts_list.
Proof.
  induction dicts_list as [|d ds IH]; [done|].
  rewrite (filter_cons (passes self)).
  destruct (decide (passes self d)) as [Hp|Hp]; [done|].
  intros Hnil. rewrite !filter_cons, IH by done.
  destruct (decide (essential self d)).
  - by rewrite decide_True by tauto.
  - by rewrite decide_False by tauto.
Qed.

Lemma filter_no_essential self (dicts_list : list dict) :
  filter (essential self) dicts_list = [] ->
  filter (passes self) dicts_list = [].
Proof.
  induction dicts_list as [|d ds IH]; [done|].
  rewrite !filter_cons.
  destruct (decide (essential self d)) as [He|He]; [done|].
  intros Hnil. rewrite decide_False by (intros ?%passes_essential; done).
  auto.
Qed.

(** [_filter_list_of_dicts] returns, and what it returns, as soon as the
    predicates can be evaluated on the rows. *)
Lemma _filter_list_of_dicts_spec self dicts_list :
  Forall (evaluates self) dicts_list ->
  _filter_list_of_dicts self dicts_list = Ok (selected self dicts_list).
Proof.
  intros Hev. unfold _filter_list_of_dicts, selected.
  destruct dicts_list as [|d0 ds0]; [done|].
  change (length (d0 :: ds0) =? 0)%nat with false. cbv iota.
  rewrite classify_spec by done. simpl mbind. cbn [pass_dicts essential_dicts fail_dicts app].
  destruct (filter (passes self) (d0 :: ds0)) as [|p ps] eqn:Hpass.
  - rewrite filter_no_passes by done. simpl length. cbv iota.
    destruct (filter (essential self) (d0 :: ds0)) as [|e es] eqn:Hess.
    + rewrite filter_cons in Hess |- *.
      destruct (decide (essential self d0)); [done|].
      rewrite decide_True by done. simpl. done.
    + replace (0 <? _)%nat with true; [done|].
      symmetry. apply Nat.ltb_lt. simpl. lia.
  - done.
Qed.

(** Conversely it returns only when they can. *)
Lemma _filter_list_of_dicts_evaluates self dicts_list l :
  _filter_list_of_dicts self dicts_list = Ok l ->
  Forall (evaluates self) dicts_list.
Proof.
  unfold _filter_list_of_dicts.
  destruct dicts_list as [|d0 ds0]; [done|].
  change (length (d0 :: ds0) =? 0)%nat with false. cbv iota.
  destruct (classify self (d0 :: ds0) _) as [b|e] eqn:Hc; [|done].
  intros _. by eapply classify_evaluates.
Qed.

Lemma selected_nil self : selected self [] = [].
Proof. done. Qed.

Lemma filter_head_split {A} (P : A -> Prop) `{!forall x, Decision (P x)}
    (l : list A) x xs :
  filter P l = x :: xs ->
  exists before after,
    l = before ++ x :: after /\ Forall (fun y => ~ P y) before /\ P x.
Proof.
  induction l as [|y l IH]; [done|].
  rewrite filter_cons. destruct (decide (P y)) as [Hy|Hy].
  - intros [= -> _]. exists [], l. by repeat split.
  - intros (before & after & -> & Hb & Hx)%IH.
    exists (y :: before), after. repeat split; [|done]. by constructor.
Qed.

Lemma filter_none {A} (P : A -> Prop) `{!forall x, Decision (P x)} (l : list A) :
  Forall (fun y => ~ P y) l -> filter P l = [].
Proof.
  induction 1 as [|y l Hy _ IH]; [done|].
  by rewrite filter_cons_False.
Qed.

(** C1: in a group where no row satisfies both predicates and some row
    satisfies the essential one, [_filter_list_of_dicts] returns exactly one
    row: the first row of the list that satisfies the essential predicate,
    with every column of [report.var_columns] set to ["."], and its other
    columns as they were.  (The rows are such that the predicates can be
    evaluated on them.) *)
Theorem fallback_keeps_first_essential_blanked self dicts_list :
  Forall (evaluates self) dicts_list ->
  Forall (fun d => ~ passes self d) dicts_list ->
  Exists (essential self) dicts_list ->
  exists before new_d after,
    dicts_list = before ++ new_d :: after
    /\ Forall (fun d => ~ essential self d) before
    /\ essential self new_d
    /\ _filter_list_of_dicts self dicts_list = Ok [blank_var_columns new_d]
    /\ (forall key, key ∈ var_columns report ->
          blank_var_columns new_d !! key = Some (VStr "."))
    /\ (forall key, key ∉ var_columns report ->
          blank_var_columns new_d !! key = new_d !! key).
Proof.
  intros Hev Hnone Hsome.
  assert (filter (passes self) dicts_list = []) as Hpass.
  { by apply filter_none. }
  destruct (filter (essential self) dicts_list) as [|new_d es] eqn:Hess.
  { apply Exists_exists in Hsome as (d & Hd & He).
    assert (d ∈ filter (essential self) dicts_list) as Hin
      by (by apply list_elem_of_filter).
    rewrite Hess in Hin. by apply elem_of_nil in Hin. }
  destruct (filter_head_split _ _ _ _ Hess) as (before & after & -> & Hb & Hd).
  exists before, new_d, after. repeat split; try done.
  - rewrite _filter_list_of_dicts_spec by done.
    unfold selected. by rewrite Hpass, Hess.
  - intros key Hkey. rewrite lookup_blank_var_columns. by rewrite decide_True.
  - intros key Hkey. rewrite lookup_blank_var_columns. by rewrite decide_False.
Qed.

(** C2: in a group where some row satisfies both predicates,
    [_filter_list_of_dicts] returns exactly the rows that satisfy both, in
    their order in the list and as they are.  (The rows are such that the
    predicates can be evaluated on them.) *)
Theorem passing_rows_are_kept_unchanged self dicts_list :
  Forall (evaluates self) dicts_list ->
  Exists (passes self) dicts_list ->
  _filter_list_of_dicts self dicts_list = Ok (filter (passes self) dicts_list).
Proof.
  intros Hev Hsome. rewrite _filter_list_of_dicts_spec by done.
  unfold selected.
  destruct (filter (passes self) dicts_list) as [|p ps] eqn:Hpass; [|done].
  apply Exists_exists in Hsome as (d & Hd & Hp).
  assert (d ∈ filter (passes self) dicts_list) as Hin
    by (by apply list_elem_of_filter).
  rewrite Hpass in Hin. by apply elem_of_nil in Hin.
Qed.

(** C10: with [ignore_not_has_known_variant] false the non-essential
    predicate holds of every row, and [_filter_list_of_dicts] returns the
    rows of the list that satisfy the essential predicate, in their order
    and as they are: no row is blanked.  (The rows are such that the
    essential predicate can be evaluated on them.) *)
Theorem no_demotion_when_known_variant_not_required self dicts_list :
  ignore_not_has_known_variant self = false ->
  Forall (fun d => is_Ok (_report_dict_passes_essential_filters self d))
    dicts_list ->
  (forall d, _report_dict_passes_non_essential_filters self d = Ok true)
  /\ _filter_list_of_dicts self dicts_list
     = Ok (filter (essential self) dicts_list).
Proof.
  intros Hflag Hev.
  assert (forall d, _report_dict_passes_non_essential_filters self d = Ok true)
    as Hnon.
  { intros d. unfold _report_dict_passes_non_essential_filters.
    by rewrite Hflag. }
  split; [done|].
  assert (forall d, passes self d <-> essential self d) as Hiff.
  { intros d. rewrite passes_iff. unfold non_essential.
    split; [tauto|]. intros; split; [done|apply Hnon]. }
  rewrite _filter_list_of_dicts_spec.
  - unfold selected. rewrite (list_filter_iff _ _ _ Hiff).
    by destruct (filter (essential self) dicts_list).
  - eapply Forall_impl; [exact Hev|]. intros d.
    unfold evaluates, _report_dict_passes_filters.
    destruct (_report_dict_passes_essential_filters self d) as [[]|]; simpl;
      [|done|done].
    by rewrite Hnon.
Qed.

(** ** Reports: groups and extensionality *)

Lemma group_Some (m : Collection) r c l :
  group m r c = Some l <-> exists ctgs, m !! r = Some ctgs /\ ctgs !! c = Some l.
Proof.
  unfold group. destruct (m !! r) as [ctgs|]; simpl; split.
  - intros H. exists ctgs. by split.
  - by intros (? & [= <-] & ?).
  - intros [=].
  - by intros (? & [=] & _).
Qed.

Lemma group_lookup (m : Collection) r ctgs c :
  m !! r = Some ctgs -> group m r c = ctgs !! c.
Proof. unfold group. by intros ->. Qed.

Lemma group_None_ref (m : Collection) r c :
  m !! r = None -> group m r c = None.
Proof. unfold group. by intros ->. Qed.

(** Two reports with the same reference names and the same groups are
    equal. *)
Lemma collection_eq (m1 m2 : Collection) :
  (forall r, is_Some (m1 !! r) <-> is_Some (m2 !! r)) ->
  (forall r c, group m1 r c = group m2 r c) ->
  m1 = m2.
Proof.
  intros Hrefs Hgroups. apply map_eq. intros r.
  specialize (Hrefs r). pose proof (Hgroups r) as Hg. unfold group in Hg.
  destruct (m1 !! r) as [c1|], (m2 !! r) as [c2|]; simpl in *.
  - f_equal. by apply map_eq.
  - destruct Hrefs as [[? [=]] _]. eauto.
  - destruct Hrefs as [_ [? [=]]]. eauto.
  - done.
Qed.

Lemma lookup_Some_empty (m : Collection) r :
  m !! r = Some ∅ <-> is_Some (m !! r) /\ forall c, group m r c = None.
Proof.
  split.
  - intros H. split; [eauto|]. intros c.
    by rewrite (group_lookup _ _ _ _ H), lookup_empty.
  - intros [[ctgs H] Hg]. rewrite H. f_equal. apply map_empty. intros c.
    by rewrite <- (group_lookup _ _ _ _ H).
Qed.

Lemma group_insert (m : Collection)
    r ctgs c l r' c' :
  m !! r = Some ctgs ->
  group (<[r := <[c := l]> ctgs]> m) r' c'
  = if decide ((r', c') = (r, c)) then Some l else group m r' c'.
Proof.
  intros Hr. unfold group. destruct (decide (r' = r)) as [->|Hne].
  - rewrite lookup_insert_eq, Hr. simpl.
    destruct (decide (c' = c)) as [->|Hc].
    + by rewrite lookup_insert_eq, decide_True.
    + rewrite lookup_insert_ne by done. by rewrite decide_False by congruence.
  - rewrite lookup_insert_ne by done. by rewrite decide_False by congruence.
Qed.

Lemma group_delete (m : Collection)
    r ctgs c r' c' :
  m !! r = Some ctgs ->
  group (<[r := delete c ctgs]> m) r' c'
  = if decide ((r', c') = (r, c)) then None else group m r' c'.
Proof.
  intros Hr. unfold group. destruct (decide (r' = r)) as [->|Hne].
  - rewrite lookup_insert_eq, Hr. simpl.
    destruct (decide (c' = c)) as [->|Hc].
    + by rewrite lookup_delete_eq, decide_True.
    + rewrite lookup_delete_ne by done. by rewrite decide_False by congruence.
  - rewrite lookup_insert_ne by done. by rewrite decide_False by congruence.
Qed.

Lemma is_Some_insert_present {A} (m : gmap string A) r x r' :
  is_Some (m !! r) -> is_Some (<[r := x]> m !! r') <-> is_Some (m !! r').
Proof.
  intros Hr. destruct (decide (r' = r)) as [->|Hne].
  - rewrite lookup_insert_eq. split; eauto.
  - by rewrite lookup_insert_ne.
Qed.

Lemma elem_of_group_keys (m : Collection) r c :
  (r, c) ∈ group_keys m <-> is_Some (group m r c).
Proof.
  unfold group_keys. rewrite list_elem_of_bind. split.
  - intros ([r0 ctgs] & Hc & Hr). simpl in Hc.
    apply list_elem_of_fmap in Hc as (c0 & [= -> ->] & Hc0).
    apply list_elem_of_fmap in Hc0 as ([c1 l] & -> & Hl). simpl.
    apply elem_of_map_to_list in Hr, Hl.
    exists l. apply group_Some. eauto.
  - intros [l (ctgs & Hr & Hl)%group_Some]. exists (r, ctgs). split.
    + simpl. apply list_elem_of_fmap. exists c. split; [done|].
      apply list_elem_of_fmap. exists (c, l). split; [done|].
      by apply elem_of_map_to_list.
    + by apply elem_of_map_to_list.
Qed.

Lemma NoDup_group_keys (m : Collection) :
  NoDup (group_keys m).
Proof.
  unfold group_keys. apply NoDup_bind.
  - intros [r1 c1] [r2 c2] [r c] H1 H2 Hy1 Hy2. simpl in *.
    apply list_elem_of_fmap in Hy1 as (? & [= -> _] & _).
    apply list_elem_of_fmap in Hy2 as (? & [= -> _] & _).
    apply elem_of_map_to_list in H1, H2. congruence.
  - intros [r ctgs] _. simpl. apply NoDup_fmap_2.
    + intros ?? [=]. done.
    + apply NoDup_fst_map_to_list.
  - apply NoDup_map_to_list.
Qed.

(** ** The loops of [_filter_dicts] *)

Lemma foldM_cons {A B} (f : A -> B -> result A) a x l :
  foldM f a (x :: l) = f a x ≫= fun a' => foldM f a' l.
Proof. done. Qed.

Lemma bind_Ok {A B} (f : A -> result B) a : Ok a ≫= f = f a.
Proof. done. Qed.

Lemma filter_group_step self st r c ctgs l :
  st.1 !! r = Some ctgs -> ctgs !! c = Some l -> Forall (evaluates self) l ->
  filter_group self st (r, c)
  = Ok (<[r := <[c := selected self l]> ctgs]> st.1,
        if (length (selected self l) =? 0)%nat
        then {[ (r, c) ]} ∪ st.2 else st.2).
Proof.
  intros Hr Hc Hev. unfold filter_group, getitem. simpl.
  rewrite Hr. simpl. rewrite Hc. simpl.
  rewrite _filter_list_of_dicts_spec by done. simpl.
  by destruct (length (selected self l) =? 0)%nat.
Qed.

(** First loop: every visited group is replaced by its selection, and the
    keys of the groups that became empty are collected. *)
Lemma filter_groups_loop self ks :
  forall st,
  NoDup ks ->
  (forall k, k ∈ ks ->
     exists l, group st.1 k.1 k.2 = Some l /\ Forall (evaluates self) l) ->
  exists st',
    foldM (filter_group self) st ks = Ok st'
    /\ (forall r c,
          group st'.1 r c
          = if decide ((r, c) ∈ ks) then selected self <$> group st.1 r c
            else group st.1 r c)
    /\ (forall r, is_Some (st'.1 !! r) <-> is_Some (st.1 !! r))
    /\ (forall k, k ∈ st'.2 <->
          k ∈ st.2
          \/ (k ∈ ks /\ selected self <$> group st.1 k.1 k.2 = Some [])).
Proof.
  induction ks as [|[r c] ks IH]; intros st Hnd Hks.
  - exists st. simpl. split_and!; [done|done|done|].
    intros k. split; [auto|]. intros [?|[[]%elem_of_nil _]]. done.
  - apply NoDup_cons in Hnd as [Hnin Hnd].
    destruct (Hks (r, c)) as (l & Hl & Hev); [left|]. simpl in Hl.
    apply group_Some in Hl as (ctgs & Hr & Hc).
    rewrite foldM_cons, (filter_group_step _ _ _ _ _ _ Hr Hc Hev), bind_Ok.
    set (m1 := <[r := <[c := selected self l]> ctgs]> st.1).
    assert (forall r' c', group m1 r' c'
              = if decide ((r', c') = (r, c)) then Some (selected self l)
                else group st.1 r' c') as Hm1
      by (intros; by apply group_insert).
    set (K1 := if (length (selected self l) =? 0)%nat
               then {[ (r, c) ]} ∪ st.2 else st.2).
    destruct (IH (m1, K1)) as (st' & Hfold & Hg & Hrefs & HK); [done| |].
    { intros k Hk. simpl. destruct (Hks k) as (l' & Hl' & Hev'); [by right|].
      exists l'. split; [|done]. destruct k as [r' c']. simpl in *.
      rewrite Hm1. rewrite decide_False; [done|]. intros [= -> ->]. done. }
    exists st'. split_and!.
    + exact Hfold.
    + intros r' c'. rewrite Hg. simpl. rewrite Hm1.
      destruct (decide ((r', c') = (r, c))) as [[= -> ->]|Hne].
      * rewrite decide_False by done. rewrite decide_True by left.
        assert (group st.1 r c = Some l) as -> by (apply group_Some; eauto).
        done.
      * destruct (decide ((r', c') ∈ ks)).
        -- by rewrite decide_True by (by right).
        -- rewrite decide_False; [done|].
           intros [?|?]%elem_of_cons; done.
    + intros r'. rewrite Hrefs. simpl. unfold m1.
      apply is_Some_insert_present. eauto.
    + intros k. rewrite HK. simpl.
      assert (group st.1 r c = Some l) as Hgl by (apply group_Some; eauto).
      assert (k ∈ K1 <-> k ∈ st.2 \/ (k = (r, c) /\ selected self l = [])) as ->.
      { unfold K1. destruct (selected self l) as [|x xs]; simpl.
        - rewrite elem_of_union, elem_of_singleton. split.
          + intros [->|?]; [right; by split|by left].
          + intros [?|[-> _]]; [by right|by left].
        - split; [by left|]. by intros [?|[_ [=]]]. }
      split.
      * intros [[?|[-> Hsel]]|[Hk Hsel]]; [by left| |].
        -- right. split; [left|]. simpl. rewrite Hgl. simpl. by rewrite Hsel.
        -- right. split; [by right|]. destruct k as [r' c']. simpl in *.
           rewrite Hm1 in Hsel. rewrite decide_False in Hsel; [done|].
           intros [= -> ->]. done.
      * intros [?|[[->|Hk]%elem_of_cons Hsel]]; [by left;left| |].
        -- left. right. split; [done|]. simpl in Hsel. rewrite Hgl in Hsel.
           by injection Hsel.
        -- right. split; [done|]. destruct k as [r' c']. simpl in *.
           rewrite Hm1. rewrite decide_False; [done|].
           intros [= -> ->]. done.
Qed.

Lemma remove_key_step st r c ctgs l :
  st.1 !! r = Some ctgs -> ctgs !! c = Some l ->
  remove_key st (r, c)
  = Ok (<[r := delete c ctgs]> st.1,
        if (size (delete c ctgs) =? 0)%nat then {[ r ]} ∪ st.2 else st.2).
Proof.
  intros Hr Hc. unfold remove_key, getitem, delitem. simpl.
  rewrite Hr. simpl. rewrite Hc. simpl.
  by destruct (size (delete c ctgs) =? 0)%nat.
Qed.

(** Second loop: the collected groups are deleted, and the reference names
    whose dictionary of contigs is empty after one of these deletions are
    collected. *)
Lemma remove_keys_loop ks :
  forall st,
  NoDup ks ->
  (forall k, k ∈ ks -> is_Some (group st.1 k.1 k.2)) ->
  exists st',
    foldM remove_key st ks = Ok st'
    /\ (forall r c,
          group st'.1 r c
          = if decide ((r, c) ∈ ks) then None else group st.1 r c)
    /\ (forall r, is_Some (st'.1 !! r) <-> is_Some (st.1 !! r))
    /\ (forall r, r ∈ st'.2 <->
          r ∈ st.2 \/ (Exists (fun k => k.1 = r) ks /\ st'.1 !! r = Some ∅)).
Proof.
  induction ks as [|[r c] ks IH]; intros st Hnd Hks.
  - exists st. simpl. split_and!; [done|done|done|].
    intros r. split; [auto|]. intros [?|[[]%Exists_nil _]]. done.
  - apply NoDup_cons in Hnd as [Hnin Hnd].
    destruct (Hks (r, c)) as (l & Hl); [left|]. simpl in Hl.
    apply group_Some in Hl as (ctgs & Hr & Hc).
    rewrite foldM_cons, (remove_key_step _ _ _ _ _ Hr Hc), bind_Ok.
    set (m1 := <[r := delete c ctgs]> st.1).
    assert (forall r' c', group m1 r' c'
              = if decide ((r', c') = (r, c)) then None
                else group st.1 r' c') as Hm1
      by (intros; by apply group_delete).
    assert (forall r', is_Some (m1 !! r') <-> is_Some (st.1 !! r')) as Hrefs1
      by (intros; apply is_Some_insert_present; eauto).
    set (R1 := if (size (delete c ctgs) =? 0)%nat
               then {[ r ]} ∪ st.2 else st.2).
    assert (forall r', r' ∈ R1 <-> r' ∈ st.2 \/ (r' = r /\ m1 !! r = Some ∅))
      as HR1.
    { intros r'. unfold R1, m1. rewrite lookup_insert_eq.
      destruct (size (delete c ctgs) =? 0)%nat eqn:Hsz.
      - apply Nat.eqb_eq, map_size_empty_iff in Hsz. rewrite Hsz.
        rewrite elem_of_union, elem_of_singleton. split.
        + intros [->|?]; [right; by split|by left].
        + intros [?|[-> _]]; [by right|by left].
      - apply Nat.eqb_neq in Hsz. rewrite map_size_empty_iff in Hsz.
        split; [by left|]. intros [?|[_ [= H]]]; [done|]. by destruct Hsz. }
    destruct (IH (m1, R1)) as (st' & Hfold & Hg & Hrefs & HR); [done| |].
    { intros [r' c'] Hk. simpl. rewrite Hm1. rewrite decide_False.
      - apply (Hks (r', c')). by right.
      - intros [= -> ->]. done. }
    simpl in *. exists st'. split_and!.
    + exact Hfold.
    + intros r' c'. rewrite Hg, Hm1.
      destruct (decide ((r', c') = (r, c))) as [[= -> ->]|Hne].
      * destruct (decide ((r, c) ∈ ks)); [done|].
        by rewrite decide_True by left.
      * destruct (decide ((r', c') ∈ ks)).
        -- by rewrite decide_True by (by right).
        -- rewrite decide_False; [done|]. intros [?|?]%elem_of_cons; done.
    + intros r'. by rewrite Hrefs, Hrefs1.
    + intros r'. rewrite HR, HR1, Exists_cons. simpl. split.
      * intros [[?|[-> Hempty]]|[Hex Hempty]]; [by left| |by auto].
        right. split; [by left|].
        apply lookup_Some_empty. apply lookup_Some_empty in Hempty as [Hs He].
        split; [by apply Hrefs|]. intros c'. rewrite Hg.
        by destruct (decide ((r, c') ∈ ks)).
      * intros [?|[[<-|Hex] Hempty]]; [by left;left| |by right].
        destruct (decide (Exists (fun k => k.1 = r) ks)) as [Hex|Hnex];
          [by right|].
        left. right. split; [done|].
        apply lookup_Some_empty. apply lookup_Some_empty in Hempty as [Hs He].
        split; [by apply Hrefs|]. intros c'. specialize (He c').
        rewrite Hg in He. rewrite decide_False in He; [done|].
        intros Hin. apply Hnex. apply Exists_exists. by exists (r, c').
Qed.

Lemma delitem_present {A} (m : gmap string A) r :
  is_Some (m !! r) -> delitem m r = Ok (delete r m).
Proof. intros [x Hx]. unfold delitem. by rewrite Hx. Qed.

(** Third loop: the collected reference names are deleted. *)
Lemma remove_refs_loop {A} ks :
  forall m : gmap string A,
  NoDup ks ->
  (forall r, r ∈ ks -> is_Some (m !! r)) ->
  exists m',
    foldM delitem m ks = Ok m'
    /\ forall r, m' !! r = if decide (r ∈ ks) then None else m !! r.
Proof.
  induction ks as [|r ks IH]; intros m Hnd Hks.
  - exists m. split; [done|]. intros r. by rewrite decide_False by apply not_elem_of_nil.
  - apply NoDup_cons in Hnd as [Hnin Hnd].
    rewrite foldM_cons, delitem_present, bind_Ok by (apply Hks; left).
    destruct (IH (delete r m)) as (m' & Hfold & Hm'); [done| |].
    { intros r' Hr'. rewrite lookup_delete_ne by (intros ->; done).
      apply Hks. by right. }
    exists m'. split; [done|]. intros r'. rewrite Hm'.
    destruct (decide (r' = r)) as [->|Hne].
    + rewrite lookup_delete_eq. destruct (decide (r ∈ ks)); [done|].
      by rewrite decide_True by left.
    + rewrite lookup_delete_ne by done. destruct (decide (r' ∈ ks)).
      * by rewrite decide_True by (by right).
      * rewrite decide_False; [done|]. intros [?|?]%elem_of_cons; done.
Qed.

(** ** [_filter_dicts] computes [filtered] *)

Lemma all_rows_group P (m : Collection) :
  all_rows P m <-> forall r c l, group m r c = Some l -> Forall P l.
Proof.
  unfold all_rows. split.
  - intros H r c l (ctgs & Hr & Hc)%group_Some.
    exact (H r ctgs Hr c l Hc).
  - intros H r ctgs Hr c l Hc. apply (H r c l). apply group_Some. eauto.
Qed.

Lemma lookup_select_groups self ctgs c :
  select_groups self ctgs !! c
  = l ← ctgs !! c; match selected self l with [] => None | l' => Some l' end.
Proof. unfold select_groups. by rewrite lookup_omap. Qed.

Lemma select_groups_empty self ctgs :
  select_groups self ctgs = ∅
  <-> forall c l, ctgs !! c = Some l -> selected self l = [].
Proof.
  rewrite map_empty. split.
  - intros H c l Hc. specialize (H c). rewrite lookup_select_groups, Hc in H.
    simpl in H. by destruct (selected self l).
  - intros H c. rewrite lookup_select_groups.
    destruct (ctgs !! c) as [l|] eqn:Hc; [|done]. simpl.
    by rewrite (H c l Hc).
Qed.

Lemma group_filtered self m r c :
  group (filtered self m) r c
  = l ← group m r c; match selected self l with [] => None | l' => Some l' end.
Proof.
  unfold group, filtered. rewrite lookup_omap.
  destruct (m !! r) as [ctgs|]; [|done]. simpl.
  destruct (decide _) as [[Hempty _]|_]; simpl.
  - rewrite <- lookup_select_groups, Hempty. by rewrite lookup_empty.
  - by rewrite lookup_select_groups.
Qed.

Lemma filtered_ref self m r :
  is_Some (filtered self m !! r)
  <-> exists ctgs, m !! r = Some ctgs
        /\ ~ (select_groups self ctgs = ∅ /\ ctgs <> ∅).
Proof.
  unfold filtered. rewrite lookup_omap.
  destruct (m !! r) as [ctgs|]; simpl.
  - destruct (decide _) as [H|H]; split.
    + intros [? [=]].
    + intros (? & [= <-] & ?). done.
    + eauto.
    + eauto.
  - split; [intros [? [=]]|intros (? & [=] & _)].
Qed.

(** [_filter_dicts] returns, with the report [filtered], as soon as the
    predicates can be evaluated on the rows of the report. *)
Lemma _filter_dicts_spec self
    (self_report : Collection) :
  all_rows (evaluates self) self_report ->
  _filter_dicts self self_report = Ok (filtered self self_report).
Proof.
  intros Hev0. pose proof (proj1 (all_rows_group _ _) Hev0) as Hev.
  unfold _filter_dicts.
  destruct (filter_groups_loop self (group_keys self_report) (self_report, ∅))
    as ([m1 K] & -> & Hg1 & Hrefs1 & HK); [apply NoDup_group_keys| |].
  { intros [r c] [l Hl]%elem_of_group_keys. exists l. eauto. }
  rewrite bind_Ok. simpl in *.
  assert (forall r c, group m1 r c = selected self <$> group self_report r c)
    as Hm1.
  { intros r c. rewrite Hg1. destruct (decide _) as [|Hn]; [done|].
    rewrite elem_of_group_keys in Hn.
    destruct (group self_report r c); [|done]. exfalso. eauto. }
  assert (forall r c, (r, c) ∈ K <->
            selected self <$> group self_report r c = Some []) as HK'.
  { intros r c. rewrite HK. simpl. split.
    - intros [[]%elem_of_empty|[_ ?]]. done.
    - intros H. right. split; [|done]. apply elem_of_group_keys.
      by destruct (group self_report r c). }
  clear Hg1 HK.
  destruct (remove_keys_loop (elements K) (m1, ∅))
    as ([m2 R] & -> & Hg2 & Hrefs2 & HR); [apply NoDup_elements| |].
  { intros [r c] Hin%elem_of_elements%HK'. simpl. rewrite Hm1, Hin. eauto. }
  rewrite bind_Ok. simpl in *.
  assert (forall r c, group m2 r c
            = l ← group self_report r c;
              match selected self l with [] => None | l' => Some l' end)
    as Hm2.
  { intros r c. rewrite Hg2, Hm1. specialize (HK' r c).
    rewrite <- elem_of_elements in HK'.
    destruct (group self_report r c) as [l|]; simpl in *.
    - destruct (selected self l) eqn:Hsel.
      + rewrite decide_True; [done|]. by apply HK'.
      + rewrite decide_False; [done|]. intros ?%HK'. done.
    - by destruct (decide _). }
  assert (forall r, r ∈ R <->
            exists ctgs, self_report !! r = Some ctgs
              /\ select_groups self ctgs = ∅ /\ ctgs <> ∅) as HR'.
  { intros r. rewrite HR. simpl. split.
    - intros [[]%elem_of_empty|[Hex Hempty]].
      apply Exists_exists in Hex as ([r' c] & Hin & <-). simpl in *.
      apply elem_of_elements, HK' in Hin.
      destruct (group self_report r' c) as [l|] eqn:Hl; [|done].
      apply group_Some in Hl as (ctgs & Hr & Hc).
      exists ctgs. split_and!; [done| |].
      + apply select_groups_empty. intros c' l' Hc'.
        apply lookup_Some_empty in Hempty as [_ He]. specialize (He c').
        rewrite Hm2, (group_lookup _ _ _ _ Hr), Hc' in He. simpl in He.
        by destruct (selected self l').
      + intros ->. by rewrite lookup_empty in Hc.
    - intros (ctgs & Hr & Hempty & Hne). right. split.
      + apply map_choose in Hne as (c & l & Hc).
        apply Exists_exists. exists (r, c). split; [|done].
        apply elem_of_elements, HK'. rewrite (group_lookup _ _ _ _ Hr), Hc.
        simpl. f_equal. eapply select_groups_empty; eauto.
      + apply lookup_Some_empty. split.
        * apply Hrefs2, Hrefs1. eauto.
        * intros c. rewrite Hm2, (group_lookup _ _ _ _ Hr).
          rewrite <- lookup_select_groups, Hempty. apply lookup_empty. }
  clear Hg2 HR.
  destruct (remove_refs_loop (elements R) m2) as (m3 & -> & Hm3);
    [apply NoDup_elements| |].
  { intros r (ctgs & Hr & _)%elem_of_elements%HR'.
    apply Hrefs2, Hrefs1. eauto. }
  f_equal. apply collection_eq.
  - intros r. rewrite Hm3, filtered_ref. specialize (HR' r).
    rewrite <- elem_of_elements in HR'.
    destruct (decide (r ∈ elements R)) as [Hin|Hnin].
    + split; [intros [? [=]]|].
      intros (ctgs & Hr & Hn). apply HR' in Hin as (ctgs' & Hr' & ?).
      exfalso. apply Hn. by simplify_eq.
    + rewrite Hrefs2, Hrefs1. split.
      * intros [ctgs Hr]. exists ctgs. split; [done|]. intros [??].
        apply Hnin, HR'. eauto.
      * intros (ctgs & Hr & _). eauto.
  - intros r c. rewrite group_filtered, <- Hm2. unfold group at 1.
    rewrite Hm3. specialize (HR' r). rewrite <- elem_of_elements in HR'.
    destruct (decide (r ∈ elements R)) as [Hin|Hnin]; [|done].
    simpl. apply HR' in Hin as (ctgs & Hr & Hempty & _).
    rewrite Hm2, (group_lookup _ _ _ _ Hr).
    rewrite <- lookup_select_groups, Hempty. symmetry. apply lookup_empty.
Qed.

(** ** Blanking and the predicates *)

Lemma essential_filters_ext self d1 d2 :
  Forall (fun key => d1 !! key = d2 !! key) essential_columns ->
  _report_dict_passes_essential_filters self d1
  = _report_dict_passes_essential_filters self d2.
Proof.
  unfold essential_columns. intros H.
  apply Forall_cons in H as [H1 H]. apply Forall_cons in H as [H2 H].
  apply Forall_cons in H as [H3 _].
  unfold _report_dict_passes_essential_filters, getitem.
  by rewrite H1, H2, H3.
Qed.

Lemma blank_essential_filters self d :
  Forall (fun key => key ∉ var_columns report) essential_columns ->
  _report_dict_passes_essential_filters self (blank_var_columns d)
  = _report_dict_passes_essential_filters self d.
Proof.
  intros H. apply essential_filters_ext.
  eapply Forall_impl; [exact H|]. intros key Hkey. simpl in Hkey.
  rewrite lookup_blank_var_columns. by rewrite decide_False.
Qed.

Lemma blank_non_essential_filters self d :
  _report_dict_passes_non_essential_filters self d = Ok false ->
  _report_dict_passes_non_essential_filters self (blank_var_columns d)
  = Ok false.
Proof.
  unfold _report_dict_passes_non_essential_filters, getitem.
  destruct (ignore_not_has_known_variant self); [|done].
  rewrite lookup_blank_var_columns. by destruct (decide _).
Qed.

(** A blanked fallback row is again a fallback row. *)
Lemma blank_fallback self d :
  Forall (fun key => key ∉ var_columns report) essential_columns ->
  evaluates self d -> essential self d -> ~ passes self d ->
  evaluates self (blank_var_columns d)
  /\ essential self (blank_var_columns d)
  /\ ~ passes self (blank_var_columns d).
Proof.
  intros Hcols Hev He Hnp.
  destruct (evaluates_cases _ _ Hev) as [H|[[_ Hn]|[_ Hn]]].
  - unfold essential in He. congruence.
  - pose proof (blank_essential_filters self d Hcols) as Hb.
    pose proof (blank_non_essential_filters self d Hn) as Hbn.
    unfold essential in He. rewrite He in Hb.
    unfold evaluates, essential, passes, _report_dict_passes_filters.
    rewrite Hb. simpl. rewrite Hbn. simpl. split_and!; [done|done|congruence].
  - exfalso. apply Hnp. by apply passes_iff.
Qed.

Lemma selected_cases self dicts_list :
  (selected self dicts_list = filter (passes self) dicts_list
   /\ filter (passes self) dicts_list <> [])
  \/ (filter (passes self) dicts_list = []
      /\ exists new_d es,
           filter (essential self) dicts_list = new_d :: es
           /\ selected self dicts_list = [blank_var_columns new_d])
  \/ (filter (essential self) dicts_list = []
      /\ selected self dicts_list = []).
Proof.
  unfold selected.
  destruct (filter (passes self) dicts_list) as [|p ps] eqn:Hp; [|by left].
  right. destruct (filter (essential self) dicts_list) as [|e es] eqn:He.
  - by right.
  - left. split; [done|]. eauto.
Qed.

Lemma filter_all {A} (P : A -> Prop) `{!forall x, Decision (P x)} (l : list A) :
  Forall P l -> filter P l = l.
Proof.
  induction 1 as [|y l Hy _ IH]; [done|].
  by rewrite filter_cons_True, IH.
Qed.

Lemma Forall_filter_self {A} (P : A -> Prop) `{!forall x, Decision (P x)}
    (l : list A) :
  Forall P (filter P l).
Proof. apply Forall_forall. by intros x [? _]%list_elem_of_filter. Qed.

Lemma passes_evaluates self d : passes self d -> evaluates self d.
Proof. unfold passes, evaluates. by intros ->. Qed.

(** Selecting twice is selecting once; the selected rows satisfy the
    essential predicate. *)
Lemma selected_idemp self dicts_list :
  Forall (fun key => key ∉ var_columns report) essential_columns ->
  Forall (evaluates self) dicts_list ->
  selected self (selected self dicts_list) = selected self dicts_list
  /\ Forall (evaluates self) (selected self dicts_list)
  /\ Forall (essential self) (selected self dicts_list).
Proof.
  intros Hcols Hev.
  destruct (selected_cases self dicts_list)
    as [[-> Hne]|[[Hnil (d & es & Hess & ->)]|[_ ->]]].
  - pose proof (Forall_filter_self (passes self) dicts_list) as Hall.
    split_and!.
    + unfold selected. rewrite (filter_all _ _ Hall).
      by destruct (filter (passes self) dicts_list).
    + eapply Forall_impl; [exact Hall|]. apply passes_evaluates.
    + eapply Forall_impl; [exact Hall|]. apply passes_essential.
  - assert (d ∈ filter (essential self) dicts_list) as Hd
      by (rewrite Hess; left).
    apply list_elem_of_filter in Hd as [He Hin].
    assert (~ passes self d) as Hnp.
    { intros Hp. by apply (filter_nil_not_elem_of _ _ _ Hnil Hp). }
    assert (evaluates self d) as Hevd
      by (by eapply Forall_forall in Hev).
    destruct (blank_fallback self d Hcols Hevd He Hnp) as (Hb1 & Hb2 & Hb3).
    split_and!; [|by repeat constructor|by repeat constructor].
    unfold selected.
    rewrite (filter_cons_False (passes self)) by done.
    rewrite (filter_cons_True (essential self)) by done.
    rewrite filter_nil. by rewrite blank_var_columns_idemp.
  - done.
Qed.

Lemma select_groups_idemp self ctgs :
  Forall (fun key => key ∉ var_columns report) essential_columns ->
  map_Forall (fun _ l => Forall (evaluates self) l) ctgs ->
  select_groups self (select_groups self ctgs) = select_groups self ctgs.
Proof.
  intros Hcols Hev. apply map_eq. intros c.
  rewrite (lookup_select_groups self (select_groups self ctgs)).
  rewrite lookup_select_groups.
  destruct (ctgs !! c) as [l|] eqn:Hl; [|done]. simpl.
  destruct (selected_idemp self l Hcols (Hev c l Hl)) as (Hsel & _).
  destruct (selected self l) as [|x xs] eqn:Hs; [done|]. simpl.
  by rewrite Hsel.
Qed.

Lemma all_rows_filtered self m :
  Forall (fun key => key ∉ var_columns report) essential_columns ->
  all_rows (evaluates self) m ->
  all_rows (evaluates self) (filtered self m)
  /\ all_rows (essential self) (filtered self m).
Proof.
  intros Hcols Hev. pose proof (proj1 (all_rows_group _ _) Hev) as Hev'.
  split; apply all_rows_group; intros r c l'; rewrite group_filtered;
    destruct (group m r c) as [l|] eqn:Hl; try done; simpl;
    destruct (selected_idemp self l Hcols (Hev' r c l Hl)) as (_ & H1 & H2);
    destruct (selected self l); try done; by intros [= <-].
Qed.

Lemma filtered_idemp self m :
  Forall (fun key => key ∉ var_columns report) essential_columns ->
  all_rows (evaluates self) m ->
  filtered self (filtered self m) = filtered self m.
Proof.
  intros Hcols Hev. apply map_eq. intros r.
  unfold filtered at 1. rewrite lookup_omap.
  destruct (filtered self m !! r) as [ctgs'|] eqn:Hr; [|done]. simpl.
  unfold filtered in Hr. rewrite lookup_omap in Hr.
  destruct (m !! r) as [ctgs|] eqn:Hm; [|done]. simpl in Hr.
  destruct (decide (select_groups self ctgs = ∅ /\ ctgs <> ∅)); [done|].
  injection Hr as <-.
  rewrite select_groups_idemp by (done || exact (Hev r ctgs Hm)).
  rewrite decide_False; [done|]. by intros [? ?].
Qed.

(** ** Claims about [_filter_dicts] *)

(** C4: when no row of a group satisfies the essential predicate,
    [_filter_dicts] leaves no entry for the contig of the group under its
    reference name, and no entry for the reference name when the group was
    its only one.  (The predicates can be evaluated on the rows of the
    report.) *)
Theorem group_without_essential_row_is_removed self
    (self_report : Collection)
    ref_name ctg_name dicts_list :
  all_rows (evaluates self) self_report ->
  group self_report ref_name ctg_name = Some dicts_list ->
  Forall (fun d => ~ essential self d) dicts_list ->
  exists report',
    _filter_dicts self self_report = Ok report'
    /\ group report' ref_name ctg_name = None
    /\ (forall ctgs, report' !! ref_name = Some ctgs -> ctgs !! ctg_name = None)
    /\ ((forall c, c <> ctg_name -> group self_report ref_name c = None) ->
        report' !! ref_name = None).
Proof.
  intros Hev Hg Hnone. exists (filtered self self_report).
  assert (selected self dicts_list = []) as Hsel.
  { unfold selected.
    pose proof (filter_none (essential self) dicts_list Hnone) as Hess.
    by rewrite (filter_no_essential _ _ Hess), Hess. }
  assert (group (filtered self self_report) ref_name ctg_name = None) as Hgone.
  { rewrite group_filtered, Hg. simpl. by rewrite Hsel. }
  split_and!.
  - by apply _filter_dicts_spec.
  - done.
  - intros ctgs Hr. by rewrite <- (group_lookup _ _ _ _ Hr).
  - intros Honly. apply group_Some in Hg as (ctgs & Hr & Hc).
    unfold filtered. rewrite lookup_omap, Hr. simpl.
    rewrite decide_True; [done|]. split.
    + apply select_groups_empty. intros c l Hl.
      destruct (decide (c = ctg_name)) as [->|Hne]; [by simplify_eq|].
      specialize (Honly c Hne).
      rewrite (group_lookup _ _ _ _ Hr) in Honly. congruence.
    + intros ->. by rewrite lookup_empty in Hc.
Qed.

(** C6: filtering a filtered report again, with the same configuration,
    returns it unchanged.  (The predicates can be evaluated on the rows of
    the report, and the columns read by the essential predicate are not
    variant columns.) *)
Theorem filtering_twice_is_filtering_once self
    (self_report : Collection) :
  Forall (fun key => key ∉ var_columns report) essential_columns ->
  all_rows (evaluates self) self_report ->
  exists report',
    _filter_dicts self self_report = Ok report'
    /\ _filter_dicts self report' = Ok report'.
Proof.
  intros Hcols Hev. exists (filtered self self_report).
  split; [by apply _filter_dicts_spec|].
  rewrite _filter_dicts_spec by (by apply all_rows_filtered).
  by rewrite filtered_idemp.
Qed.

Lemma selected_origin self dicts_list d' :
  d' ∈ selected self dicts_list ->
  exists d, d ∈ dicts_list
    /\ (d' = d
        \/ (selected self dicts_list = [d'] /\ d' = blank_var_columns d)).
Proof.
  destruct (selected_cases self dicts_list)
    as [[-> Hne]|[[Hnil (d & es & Hess & ->)]|[_ ->]]].
  - intros [_ Hin]%list_elem_of_filter. eauto.
  - intros ->%list_elem_of_singleton. exists d. split; [|by right].
    assert (d ∈ filter (essential self) dicts_list) as Hd
      by (rewrite Hess; left).
    by apply list_elem_of_filter in Hd as [_ ?].
  - by intros ?%elem_of_nil.
Qed.


(** ** The loader and the shape of a loaded report *)

Lemma add_line_dict_lookup
    (m : Collection) r c d r' :
  add_line_dict m r c d !! r'
  = if decide (r' = r)
    then Some (<[c := default [] (default ∅ (m !! r) !! c) ++ [d]]>
                 (default ∅ (m !! r)))
    else m !! r'.
Proof.
  unfold add_line_dict, setdefault. destruct (decide (r' = r)) as [->|Hne].
  - rewrite !lookup_alter_eq. destruct (m !! r) as [ctgs|] eqn:Hr; simpl.
    + rewrite Hr. simpl. f_equal. destruct (ctgs !! c) as [l|] eqn:Hc; simpl.
      * apply map_eq. intros c'. destruct (decide (c' = c)) as [->|Hc'].
        -- by rewrite lookup_alter_eq, lookup_insert_eq, Hc.
        -- by rewrite lookup_alter_ne, lookup_insert_ne.
      * apply map_eq. intros c'. destruct (decide (c' = c)) as [->|Hc'].
        -- by rewrite lookup_alter_eq, !lookup_insert_eq.
        -- by rewrite lookup_alter_ne, !lookup_insert_ne.
    + rewrite lookup_insert_eq. simpl. f_equal. rewrite lookup_empty. simpl.
      apply map_eq. intros c'. destruct (decide (c' = c)) as [->|Hc'].
      * by rewrite lookup_alter_eq, !lookup_insert_eq.
      * by rewrite lookup_alter_ne, !lookup_insert_ne.
  - rewrite !lookup_alter_ne by done.
    destruct (m !! r); [done|]. by rewrite lookup_insert_ne.
Qed.

Lemma group_add_line_dict
    (m : Collection) r c d r' c' :
  group (add_line_dict m r c d) r' c'
  = if decide ((r', c') = (r, c))
    then Some (default [] (group m r c) ++ [d])
    else group m r' c'.
Proof.
  unfold group. rewrite add_line_dict_lookup.
  destruct (decide (r' = r)) as [->|Hne]; simpl.
  - destruct (decide (c' = c)) as [->|Hc].
    + rewrite decide_True by done. rewrite lookup_insert_eq.
      by destruct (m !! r).
    + rewrite decide_False by congruence. rewrite lookup_insert_ne by done.
      by destruct (m !! r).
  - by rewrite decide_False by congruence.
Qed.

(** What [load_lines] does on one data line. *)
Lemma load_lines_data line f m m' :
  load_lines (line :: f) false m = Ok m' ->
  exists d r c,
    _report_line_to_dict (rstrip line) = Ok (Some d)
    /\ d !! "ref_name" = Some (VStr r) /\ d !! "ctg" = Some (VStr c)
    /\ load_lines f false (add_line_dict m r c d) = Ok m'.
Proof.
  simpl. destruct (_report_line_to_dict (rstrip line)) as [[d|]|]; simpl;
    [|done|done].
  unfold getitem.
  destruct (d !! "ref_name") as [[r| | |]|] eqn:Hr,
    (d !! "ctg") as [[c| | |]|] eqn:Hc; simpl; try done.
  intros H. exists d, r, c. by split_and!.
Qed.

(** An invariant of the report that every added row preserves holds of
    what [load_lines] returns. *)
Lemma load_lines_invariant
    (I : Collection -> Prop) :
  (forall m line d r c,
     I m -> _report_line_to_dict (rstrip line) = Ok (Some d) ->
     d !! "ref_name" = Some (VStr r) -> d !! "ctg" = Some (VStr c) ->
     I (add_line_dict m r c d)) ->
  forall f first_line m m',
    I m -> load_lines f first_line m = Ok m' -> I m'.
Proof.
  intros Hstep. induction f as [|line f IH]; intros first_line m m' Hm.
  - simpl. by intros [= <-].
  - destruct first_line.
    + simpl. destruct (negb _); [done|]. by apply IH.
    + intros (d & r & c & Hd & Hr & Hc & Hrest)%load_lines_data.
      eapply IH; [|exact Hrest]. eauto.
Qed.

(** A loaded report has no reference name without a contig and no contig
    without a row. *)
Lemma _load_report_shape infile m :
  _load_report infile = Ok m ->
  (forall r, m !! r <> Some ∅) /\ (forall r c, group m r c <> Some []).
Proof.
  unfold _load_report.
  apply (load_lines_invariant
           (fun m => (forall r, m !! r <> Some ∅)
                     /\ (forall r c, group m r c <> Some []))).
  - intros m0 line d r c [H1 H2] _ _ _. split.
    + intros r'. rewrite add_line_dict_lookup.
      destruct (decide (r' = r)); [|done].
      intros [= H]. apply (f_equal (fun x => x !! c)) in H.
      by rewrite lookup_insert_eq, lookup_empty in H.
    + intros r' c'. rewrite group_add_line_dict.
      destruct (decide _); [|done]. intros [= H].
      by destruct (default [] (group m0 r c)).
  - split; [intros r; by rewrite lookup_empty|].
    intros r c. unfold group. by rewrite lookup_empty.
Qed.

Lemma filtered_shape self m :
  (forall r, filtered self m !! r = Some ∅ -> m !! r = Some ∅)
  /\ (forall r c, group (filtered self m) r c <> Some []).
Proof.
  split.
  - intros r. unfold filtered. rewrite lookup_omap.
    destruct (m !! r) as [ctgs|]; [|done]. simpl.
    destruct (decide _) as [|Hn]; [done|]. intros [= H]. f_equal.
    destruct (decide (ctgs = ∅)); [done|]. exfalso. by apply Hn.
  - intros r c. rewrite group_filtered. destruct (group m r c) as [l|]; [|done].
    simpl. by destruct (selected self l).
Qed.

(** C3: after [_filter_dicts] on a loaded report, every group still in the
    report is non-empty and all its rows satisfy the essential predicate,
    no reference name maps to an empty dictionary of contigs and no contig
    name to an empty list.  (The predicates can be evaluated on the rows of
    the report, and the columns read by the essential predicate are not
    variant columns.) *)
Theorem filtered_report_has_no_empty_branch self infile
    (self_report : Collection) :
  _load_report infile = Ok self_report ->
  all_rows (evaluates self) self_report ->
  Forall (fun key => key ∉ var_columns report) essential_columns ->
  exists report',
    _filter_dicts self self_report = Ok report'
    /\ (forall ref_name ctg_name,
          group report' ref_name ctg_name = None
          \/ exists l, group report' ref_name ctg_name = Some l
               /\ l <> [] /\ Forall (essential self) l)
    /\ (forall ref_name, report' !! ref_name <> Some ∅)
    /\ (forall ref_name ctg_name, group report' ref_name ctg_name <> Some []).
Proof.
  intros Hload Hev Hcols. exists (filtered self self_report).
  destruct (_load_report_shape _ _ Hload) as [Hrefs _].
  destruct (filtered_shape self self_report) as [Hf1 Hf2].
  destruct (all_rows_filtered self self_report Hcols Hev) as [_ Hess].
  pose proof (proj1 (all_rows_group _ _) Hess) as Hess'.
  split_and!.
  - by apply _filter_dicts_spec.
  - intros r c. destruct (group (filtered self self_report) r c) as [l|] eqn:Hl;
      [right|by left].
    exists l. split_and!; [done| |by eapply Hess'].
    intros ->. by eapply Hf2.
  - intros r H. by eapply Hrefs, Hf1.
  - done.
Qed.

(** ** The coercion loops of [_report_line_to_dict] *)

Lemma int_column_coerce d key : int_column d key = coerce conv_int d key.
Proof.
  unfold int_column, coerce, conv_int, getitem.
  destruct (d !! key) as [v|]; simpl; [|done].
  by destruct (py_int v).
Qed.

Lemma float_column_coerce d key : float_column d key = coerce conv_float d key.
Proof.
  unfold float_column, coerce, conv_float, getitem.
  destruct (d !! key) as [v|]; simpl; [|done].
  by destruct (py_float v).
Qed.

Lemma foldM_ext {A B} (f g : A -> B -> result A) a l :
  (forall a x, f a x = g a x) -> foldM f a l = foldM g a l.
Proof.
  intros H. revert a. induction l as [|x l IH]; intros a; simpl; [done|].
  rewrite H. destruct (g a x); simpl; auto.
Qed.

Lemma py_eq_str_true v s : py_eq_str v s = true <-> v = VStr s.
Proof.
  destruct v as [x| | |]; simpl; [|by split..].
  rewrite String.eqb_eq. split; [by intros ->|by intros [= ->]].
Qed.

Section coerce.
Variable conv : value -> result value.

Lemma coerce_Ok d k d' :
  coerce conv d k = Ok d' ->
  exists v, d !! k = Some v
    /\ ((exists x, conv v = Ok x /\ d' = <[k := x]> d)
        \/ (~ is_Ok (conv v) /\ v = VStr "." /\ d' = d)).
Proof.
  unfold coerce, getitem. destruct (d !! k) as [v|]; simpl; [|done].
  destruct (conv v) as [x|e] eqn:Hc.
  - intros [= <-]. exists v. split; [done|]. left. eauto.
  - destruct (py_eq_str v ".") eqn:Heq; [|done].
    intros [= <-]. apply py_eq_str_true in Heq. exists v.
    split; [done|]. right. rewrite Hc. split_and!; [by intros []|done|done].
Qed.

Lemma coerce_total d k :
  is_Some (d !! k) ->
  coerce conv d k = Raise AssertionError \/ is_Ok (coerce conv d k).
Proof.
  intros [v Hv]. unfold coerce, getitem. rewrite Hv. simpl.
  destruct (conv v); simpl; [by right|].
  destruct (py_eq_str v "."); simpl; auto.
Qed.

Lemma coerce_bad d k v :
  d !! k = Some v -> ~ is_Ok (conv v) -> v <> VStr "." ->
  coerce conv d k = Raise AssertionError.
Proof.
  intros Hv Hc Hne. unfold coerce, getitem. rewrite Hv. simpl.
  destruct (conv v); simpl in *; [done|].
  destruct (py_eq_str v ".") eqn:Heq; [|done].
  by apply py_eq_str_true in Heq.
Qed.

Lemma coerce_dot d k :
  d !! k = Some (VStr ".") -> ~ is_Ok (conv (VStr ".")) ->
  coerce conv d k = Ok d.
Proof.
  intros Hv Hc. unfold coerce, getitem. rewrite Hv. simpl.
  by destruct (conv (VStr ".")).
Qed.

Lemma coerce_conv d k v x :
  d !! k = Some v -> conv v = Ok x -> coerce conv d k = Ok (<[k := x]> d).
Proof.
  intros Hv Hc. unfold coerce, getitem. rewrite Hv. simpl. by rewrite Hc.
Qed.

Lemma coerce_other d k d' k' :
  coerce conv d k = Ok d' -> k' <> k -> d' !! k' = d !! k'.
Proof.
  intros (v & _ & [(x & _ & ->)|(_ & _ & ->)])%coerce_Ok Hne; [|done].
  by rewrite lookup_insert_ne.
Qed.

Lemma coerce_dom d k d' k' :
  coerce conv d k = Ok d' -> is_Some (d' !! k') <-> is_Some (d !! k').
Proof.
  intros (v & Hv & [(x & _ & ->)|(_ & _ & ->)])%coerce_Ok; [|done].
  destruct (decide (k' = k)) as [->|Hne].
  - rewrite lookup_insert_eq, Hv. split; eauto.
  - by rewrite lookup_insert_ne.
Qed.

Lemma coerce_loop_other ks : forall d d' k,
  foldM (coerce conv) d ks = Ok d' -> k ∉ ks -> d' !! k = d !! k.
Proof.
  induction ks as [|k0 ks IH]; intros d d' k; simpl.
  - by intros [= <-].
  - destruct (coerce conv d k0) as [d1|] eqn:H1; simpl; [|done].
    intros H Hk. apply not_elem_of_cons in Hk as [Hne Hk].
    rewrite (IH _ _ _ H Hk). by eapply coerce_other.
Qed.

Lemma coerce_loop_dom ks : forall d d' k,
  foldM (coerce conv) d ks = Ok d' -> is_Some (d' !! k) <-> is_Some (d !! k).
Proof.
  induction ks as [|k0 ks IH]; intros d d' k; simpl.
  - by intros [= <-].
  - destruct (coerce conv d k0) as [d1|] eqn:H1; simpl; [|done].
    intros H. rewrite (IH _ _ _ H). by eapply coerce_dom.
Qed.

(** A cell that holds ["."] holds it after the loop. *)
Lemma coerce_loop_dot ks : forall d d' k,
  ~ is_Ok (conv (VStr ".")) ->
  foldM (coerce conv) d ks = Ok d' ->
  d !! k = Some (VStr ".") -> d' !! k = Some (VStr ".").
Proof.
  induction ks as [|k0 ks IH]; intros d d' k Hdot; simpl.
  - by intros [= <-].
  - destruct (coerce conv d k0) as [d1|] eqn:H1; simpl; [|done].
    intros H Hk. apply (IH _ _ _ Hdot H).
    destruct (decide (k = k0)) as [->|Hne].
    + rewrite (coerce_dot _ _ Hk Hdot) in H1. by simplify_eq.
    + by rewrite (coerce_other _ _ _ _ H1 Hne).
Qed.

(** The loop raises nothing but [AssertionError] on a dictionary that
    has the keys. *)
Lemma coerce_loop_total ks : forall d,
  Forall (fun k => is_Some (d !! k)) ks ->
  foldM (coerce conv) d ks = Raise AssertionError
  \/ is_Ok (foldM (coerce conv) d ks).
Proof.
  induction ks as [|k0 ks IH]; intros d Hks; simpl; [by right|].
  apply Forall_cons in Hks as [Hk0 Hks].
  destruct (coerce_total d k0 Hk0) as [->|Hok]; [by left|].
  destruct (coerce conv d k0) as [d1|] eqn:H1; [|done]. simpl.
  apply IH. eapply Forall_impl; [exact Hks|]. intros k Hk. simpl in Hk.
  by eapply coerce_dom.
Qed.

(** A cell of a listed column that cannot be converted and is not ["."]
    makes the loop raise [AssertionError]. *)
Lemma coerce_loop_bad ks : forall d key v,
  Forall (fun k => is_Some (d !! k)) ks ->
  key ∈ ks -> d !! key = Some v -> ~ is_Ok (conv v) -> v <> VStr "." ->
  foldM (coerce conv) d ks = Raise AssertionError.
Proof.
  induction ks as [|k0 ks IH]; intros d key v Hks Hin Hv Hc Hne.
  - by apply elem_of_nil in Hin.
  - apply Forall_cons in Hks as [Hk0 Hks]. simpl.
    destruct (decide (key = k0)) as [->|Hk].
    + by rewrite (coerce_bad _ _ _ Hv Hc Hne).
    + destruct (coerce_total d k0 Hk0) as [->|Hok]; [done|].
      destruct (coerce conv d k0) as [d1|] eqn:H1; [|done]. simpl.
      apply (IH d1 key v); try done.
      * eapply Forall_impl; [exact Hks|]. intros k Hk'. simpl in Hk'.
        by eapply coerce_dom.
      * apply elem_of_cons in Hin as [?|?]; done.
      * by rewrite (coerce_other _ _ _ _ H1 Hk).
Qed.

(** After the loop a cell of a listed column is ["."] or a result of the
    conversion. *)
Lemma coerce_loop_result (Q : value -> Prop) ks : forall d d' k,
  (forall v x, conv v = Ok x -> Q x) ->
  foldM (coerce conv) d ks = Ok d' -> k ∈ ks ->
  exists v', d' !! k = Some v' /\ (v' = VStr "." \/ Q v').
Proof.
  induction ks as [|k0 ks IH]; intros d d' k HQ; simpl.
  - by intros _ ?%elem_of_nil.
  - destruct (coerce conv d k0) as [d1|] eqn:H1; simpl; [|done].
    intros H Hin. destruct (decide (k ∈ ks)) as [Hk|Hk]; [by eapply IH|].
    apply elem_of_cons in Hin as [->|?]; [|done].
    rewrite (coerce_loop_other _ _ _ _ H Hk).
    apply coerce_Ok in H1 as (v & Hv & [(x & Hx & ->)|(_ & -> & ->)]).
    * rewrite lookup_insert_eq. eauto.
    * eauto.
Qed.
End coerce.

(** ** [dict(zip(columns, data))] *)

Lemma foldl_insert_lookup (l : list (string * string)) : forall (acc : dict) k,
  k ∉ l.*1 ->
  foldl (fun d kv => <[kv.1 := VStr kv.2]> d) acc l !! k = acc !! k.
Proof.
  induction l as [|[k0 s0] l IH]; intros acc k Hk; simpl; [done|].
  simpl in Hk. apply not_elem_of_cons in Hk as [Hne Hk].
  rewrite IH by done. by rewrite lookup_insert_ne.
Qed.

Lemma foldl_insert_dom (l : list (string * string)) : forall (acc : dict) k,
  is_Some (foldl (fun d kv => <[kv.1 := VStr kv.2]> d) acc l !! k)
  <-> is_Some (acc !! k) \/ k ∈ l.*1.
Proof.
  induction l as [|[k0 s0] l IH]; intros acc k; simpl.
  - rewrite elem_of_nil. split; [by left|by intros [?|[]]].
  - rewrite IH, elem_of_cons. destruct (decide (k = k0)) as [->|Hne].
    + rewrite lookup_insert_eq. split; eauto.
    + rewrite lookup_insert_ne by done.
      split; [intros [?|?]; auto|intros [?|[?|?]]; auto]. done.
Qed.

Lemma foldl_insert_value (l : list (string * string)) : forall (acc : dict) k v,
  foldl (fun d kv => <[kv.1 := VStr kv.2]> d) acc l !! k = Some v ->
  acc !! k = Some v \/ exists s, v = VStr s /\ (k, s) ∈ l.
Proof.
  induction l as [|[k0 s0] l IH]; intros acc k v; simpl; [by left|].
  intros [H|(s & -> & Hin)]%IH.
  - destruct (decide (k = k0)) as [->|Hne].
    + rewrite lookup_insert_eq in H. injection H as <-.
      right. exists s0. split; [done|left].
    + rewrite lookup_insert_ne in H by done. by left.
  - right. exists s. split; [done|by right].
Qed.

Lemma dict_zip_dom keys data k :
  length data = length keys ->
  is_Some (dict_zip keys data !! k) <-> k ∈ keys.
Proof.
  intros Hlen. unfold dict_zip. rewrite foldl_insert_dom, lookup_empty.
  rewrite fst_zip by lia. split; [|by right].
  intros [[? [=]]|?]. done.
Qed.

Lemma dict_zip_value keys data k v :
  dict_zip keys data !! k = Some v -> exists s, v = VStr s /\ s ∈ data.
Proof.
  unfold dict_zip. intros [H|(s & -> & Hin)]%foldl_insert_value.
  - by rewrite lookup_empty in H.
  - exists s. split; [done|]. by apply elem_of_zip_r in Hin.
Qed.

Lemma dict_zip_lookup keys : forall data i k s,
  NoDup keys -> keys !! i = Some k -> data !! i = Some s ->
  dict_zip keys data !! k = Some (VStr s).
Proof.
  unfold dict_zip. generalize (∅ : dict).
  induction keys as [|k0 keys IH]; intros acc data i k s Hnd Hk Hs; [done|].
  apply NoDup_cons in Hnd as [Hnin Hnd].
  destruct data as [|s0 data]; [by destruct i|].
  destruct i as [|i]; simpl in *.
  - injection Hk as <-. injection Hs as <-.
    rewrite foldl_insert_lookup.
    + by rewrite lookup_insert_eq.
    + intros Hin. apply Hnin. apply list_elem_of_fmap in Hin as ([k' s'] & -> & Hin).
      by apply elem_of_zip_l in Hin.
  - by eapply IH.
Qed.

(** ** Claims about the loader *)

Lemma load_lines_wrong_column_count line f m :
  length (split tab (rstrip line)) <> length (columns report) ->
  load_lines (line :: f) false m = Raise (NameError "data").
Proof.
  intros Hlen. simpl. unfold _report_line_to_dict.
  apply Nat.eqb_neq in Hlen. by rewrite Hlen.
Qed.

Lemma load_lines_app f1 : forall f2 m,
  load_lines (f1 ++ f2) false m
  = m1 ← load_lines f1 false m; load_lines f2 false m1.
Proof.
  induction f1 as [|line f1 IH]; intros f2 m; [done|].
  change ((line :: f1) ++ f2) with (line :: (f1 ++ f2)).
  cbn [load_lines].
  destruct (_report_line_to_dict (rstrip line)) as [[d|]|]; simpl; [|done|done].
  destruct (getitem d "ref_name") as [v1|]; simpl; [|done].
  destruct (getitem d "ctg") as [v2|]; simpl; [|done].
  destruct (dict_key v1) as [r|]; simpl; [|done].
  destruct (dict_key v2) as [c|]; simpl; [|done].
  apply IH.
Qed.

(** C5, as the code has it: a data line with a wrong number of columns,
    reached after a good header and data lines that load, ends the load,
    but with [NameError] for the name [data], which [_load_report] never
    binds, not with the [Error] of the module and its message. *)
Theorem wrong_column_count_raises_NameError first before line after m :
  rstrip first = expected_first_line ->
  load_lines before false ∅ = Ok m ->
  length (split tab (rstrip line)) <> length (columns report) ->
  _load_report (first :: before ++ line :: after) = Raise (NameError "data").
Proof.
  intros Hfirst Hbefore Hlen. unfold _load_report.
  cbn [load_lines]. rewrite Hfirst, String.eqb_refl. cbn [negb].
  rewrite load_lines_app, Hbefore, bind_Ok.
  by apply load_lines_wrong_column_count.
Qed.

Lemma int_of_str_dot : int_of_str "." = None.
Proof. done. Qed.

Lemma conv_int_VStr s : is_Ok (conv_int (VStr s)) <-> is_Some (int_of_str s).
Proof.
  unfold conv_int. simpl. destruct (int_of_str s); simpl; split; eauto.
  - intros []. 
  - intros [? [=]].
Qed.

Lemma conv_float_VStr s : is_Ok (conv_float (VStr s)) <-> is_Some (float_of_str s).
Proof.
  unfold conv_float. simpl. destruct (float_of_str s); simpl; split; eauto.
  - intros [].
  - intros [? [=]].
Qed.

(** The two loops and the flag, as one equation. *)
Lemma _report_line_to_dict_eq line :
  length (split tab line) = length (columns report) ->
  _report_line_to_dict line
  = d1 ← foldM (coerce conv_int)
           (dict_zip (columns report) (split tab line)) (int_columns report);
    d2 ← foldM (coerce conv_float) d1 (float_columns report);
    fl ← getitem d2 "flag";
    n ← py_int fl;
    Ok (Some (<["flag" := VFlag (mkFlag n)]> d2)).
Proof.
  intros Hlen. unfold _report_line_to_dict.
  apply Nat.eqb_eq in Hlen. rewrite Hlen. cbn [negb].
  rewrite (foldM_ext int_column (coerce conv_int)) by apply int_column_coerce.
  destruct (foldM (coerce conv_int) _ _) as [d1|]; [|done]. simpl.
  by rewrite (foldM_ext float_column (coerce conv_float))
    by apply float_column_coerce.
Qed.

(** C8: in a data line with the right number of columns, a cell ["."] of a
    column of [report.int_columns] or [report.float_columns] is still the
    string ["."] in the dictionary that [_report_line_to_dict] returns;
    and a cell of such a column that is not ["."] and that [int]
    (respectively [float]) rejects makes [_report_line_to_dict], and with
    it the whole load, raise [AssertionError].  (The numeric columns are
    columns of the report; the cell is not the flag; [float] rejects
    ["."].) *)
Theorem numeric_cell_dot_kept_else_assertion raw key s :
  let line := rstrip raw in
  length (split tab line) = length (columns report) ->
  Forall (fun k => k ∈ columns report)
    (int_columns report ++ float_columns report) ->
  float_of_str "." = None ->
  dict_zip (columns report) (split tab line) !! key = Some (VStr s) ->
  (s = "." ->
   key ∈ int_columns report ++ float_columns report -> key <> "flag" ->
   forall d, _report_line_to_dict line = Ok (Some d) ->
             d !! key = Some (VStr "."))
  /\ (s <> "." ->
      (key ∈ int_columns report /\ int_of_str s = None)
      \/ (key ∈ float_columns report /\ (key ∉ int_columns report)
          /\ float_of_str s = None) ->
      _report_line_to_dict line = Raise AssertionError
      /\ forall f m, load_lines (raw :: f) false m = Raise AssertionError).
Proof.
  intros line Hlen Hcols Hfdot Hcell.
  assert (~ is_Ok (conv_int (VStr "."))) as Hidot by (by intros []).
  assert (~ is_Ok (conv_float (VStr "."))) as Hfdot'.
  { rewrite conv_float_VStr, Hfdot. by intros [? [=]]. }
  apply Forall_app in Hcols as [Hint Hfloat].
  assert (Forall (fun k => is_Some (dict_zip (columns report) (split tab line) !! k))
            (int_columns report)) as Hint'.
  { eapply Forall_impl; [exact Hint|]. intros k Hk. by apply dict_zip_dom. }
  rewrite _report_line_to_dict_eq by done.
  split.
  - intros -> _ Hflag d.
    destruct (foldM (coerce conv_int) _ _) as [d1|] eqn:H1; [|done].
    rewrite bind_Ok.
    destruct (foldM (coerce conv_float) _ _) as [d2|] eqn:H2; [|done].
    rewrite bind_Ok.
    destruct (getitem d2 "flag") as [fl|]; [|done]. rewrite bind_Ok.
    destruct (py_int fl) as [n|]; [|done]. rewrite bind_Ok.
    intros [= <-]. rewrite lookup_insert_ne by done.
    eapply coerce_loop_dot; [exact Hfdot'|exact H2|].
    eapply coerce_loop_dot; [exact Hidot|exact H1|done].
  - intros Hne Hbad.
    assert (VStr s <> VStr ".") as Hne' by congruence.
    assert ((d1 ← foldM (coerce conv_int)
                     (dict_zip (columns report) (split tab line))
                     (int_columns report);
             d2 ← foldM (coerce conv_float) d1 (float_columns report);
             fl ← getitem d2 "flag";
             n ← py_int fl;
             Ok (Some (<["flag" := VFlag (mkFlag n)]> d2)))
            = Raise AssertionError) as Hraise.
    { destruct Hbad as [[Hkey Hrej]|(Hkey & Hnint & Hrej)].
      - rewrite (coerce_loop_bad conv_int _ _ key (VStr s)); try done.
        rewrite conv_int_VStr, Hrej. by intros [? [=]].
      - destruct (coerce_loop_total conv_int _ _ Hint') as [->|Hok]; [done|].
        destruct (foldM (coerce conv_int) _ _) as [d1|] eqn:H1; [|done].
        rewrite bind_Ok.
        rewrite (coerce_loop_bad conv_float _ _ key (VStr s)); try done.
        + eapply Forall_impl; [exact Hfloat|]. intros k Hk. simpl.
          apply (coerce_loop_dom _ _ _ _ _ H1). by apply dict_zip_dom.
        + by rewrite (coerce_loop_other _ _ _ _ _ H1 Hnint).
        + rewrite conv_float_VStr, Hrej. by intros [? [=]]. }
    split; [done|]. intros f m. cbn [load_lines]. fold line.
    rewrite _report_line_to_dict_eq by done. by rewrite Hraise.
Qed.

(** ** Strings: [split], [join], [rstrip] *)

Lemma split_not_nil sep s : split sep s <> [].
Proof.
  destruct s as [|c s]; simpl; [done|].
  destruct (Ascii.eqb c sep); [done|]. by destruct (split sep s).
Qed.

Lemma split_no_char sep s : Forall (fun x => no_char sep x = true) (split sep s).
Proof.
  induction s as [|c s IH]; simpl; [by repeat constructor|].
  destruct (Ascii.eqb c sep) eqn:Hc; [by constructor|].
  destruct (split sep s) as [|x xs]; simpl.
  - repeat constructor. simpl. by rewrite Hc.
  - apply Forall_cons in IH as [Hx Hxs]. constructor; [|done].
    simpl. by rewrite Hc, Hx.
Qed.

Lemma split_join sep l :
  l <> [] -> Forall (fun x => no_char sep x = true) l ->
  split sep (join sep l) = l.
Proof.
  induction l as [|x l IH]; [done|]. intros _ Hall.
  apply Forall_cons in Hall as [Hx Hl].
  destruct l as [|y l].
  - simpl. clear IH Hl. induction x as [|c x IHx]; [done|].
    simpl in *. apply andb_true_iff in Hx as [Hc Hx].
    apply negb_true_iff in Hc. rewrite Hc, (IHx Hx). done.
  - specialize (IH ltac:(done) Hl).
    change (join sep (x :: y :: l)) with (x +:+ String sep (join sep (y :: l))).
    remember (join sep (y :: l)) as rest eqn:Hrest. clear Hrest.
    induction x as [|c x IHx].
    + change (split sep (String sep rest) = "" :: y :: l).
      cbn [split]. rewrite Ascii.eqb_refl. by rewrite IH.
    + cbn [no_char] in Hx. apply andb_true_iff in Hx as [Hc Hx].
      apply negb_true_iff in Hc.
      change (split sep (String c (x +:+ String sep rest))
              = String c x :: y :: l).
      cbn [split]. rewrite Hc. by rewrite (IHx Hx).
Qed.

Lemma string_app_nil_l s : "" +:+ s = s.
Proof. done. Qed.

Lemma string_app_cons c a b : String c a +:+ b = String c (a +:+ b).
Proof. done. Qed.

Lemma rstrip_length s : (String.length (rstrip s) <= String.length s)%nat.
Proof.
  induction s as [|c s IH]; simpl; [done|].
  destruct (is_space c && is_empty (rstrip s)); simpl; lia.
Qed.

Lemma rstrip_idemp s : rstrip (rstrip s) = rstrip s.
Proof.
  induction s as [|c s IH]; simpl; [done|].
  destruct (is_space c && is_empty (rstrip s)) eqn:H; simpl; [done|].
  by rewrite IH, H.
Qed.

Lemma rstrip_app_r a b :
  rstrip b <> EmptyString -> rstrip (a +:+ b) = a +:+ rstrip b.
Proof.
  intros Hb. induction a as [|c a IH]; [done|].
  rewrite !string_app_cons. cbn [rstrip]. rewrite IH.
  destruct (a +:+ rstrip b) as [|c' r] eqn:Hr.
  - exfalso. destruct a; [done|discriminate].
  - cbn [is_empty]. by rewrite andb_false_r.
Qed.

Lemma rstrip_app_empty a b :
  rstrip b = EmptyString -> rstrip (a +:+ b) = rstrip a.
Proof.
  intros Hb. induction a as [|c a IH]; [done|].
  rewrite string_app_cons. cbn [rstrip]. by rewrite IH.
Qed.

Lemma string_app_length a b :
  String.length (a +:+ b) = (String.length a + String.length b)%nat.
Proof.
  induction a as [|c a IH]; [done|].
  rewrite string_app_cons. cbn [String.length]. by rewrite IH.
Qed.

Lemma string_app_inv_head a b b' : a +:+ b = a +:+ b' -> b = b'.
Proof.
  induction a as [|c a IH]; [done|].
  rewrite !string_app_cons. intros [= H]. by apply IH.
Qed.

Lemma rstrip_cons_nonempty c b :
  rstrip b <> EmptyString -> rstrip (String c b) = String c (rstrip b).
Proof.
  intros Hb. cbn [rstrip]. destruct (rstrip b); [done|].
  cbn [is_empty]. by rewrite andb_false_r.
Qed.

(** What follows the last tab of a line that [rstrip] leaves alone can end
    a line. *)
Lemma tail_ok_after_tab a b :
  rstrip (a +:+ String tab b) = a +:+ String tab b -> tail_ok b.
Proof.
  intros H. destruct (decide (rstrip b = EmptyString)) as [Hb|Hb].
  - exfalso. rewrite rstrip_app_empty in H by (simpl; by rewrite Hb).
    pose proof (rstrip_length a) as Hlen. rewrite H, string_app_length in Hlen.
    simpl in Hlen. lia.
  - pose proof (rstrip_cons_nonempty tab b Hb) as Htab.
    rewrite rstrip_app_r in H by (by rewrite Htab).
    rewrite Htab in H. apply string_app_inv_head in H. injection H as H.
    split; [done|]. intros ->. done.
Qed.

Lemma rstrip_before_tail a b :
  tail_ok b -> rstrip (a +:+ b) = a +:+ b.
Proof.
  intros [Hb Hne]. rewrite rstrip_app_r by (by rewrite Hb). by rewrite Hb.
Qed.

Lemma string_app_assoc a b c : (a +:+ b) +:+ c = a +:+ (b +:+ c).
Proof.
  induction a as [|x a IH]; [done|]. rewrite !string_app_cons. by rewrite IH.
Qed.

Lemma join_snoc sep l x :
  l <> [] -> join sep (l ++ [x]) = join sep l +:+ String sep x.
Proof.
  induction l as [|y l IH]; [done|]. intros _.
  destruct l as [|z l]; [done|].
  change (join sep ((y :: z :: l) ++ [x]))
    with (y +:+ String sep (join sep ((z :: l) ++ [x]))).
  rewrite IH by done.
  change (join sep (y :: z :: l)) with (y +:+ String sep (join sep (z :: l))).
  rewrite string_app_assoc. done.
Qed.

(** A line of at least two cells that [rstrip] leaves alone ends with a
    cell that can end a line, and conversely. *)
Lemma rstrip_join_last l x :
  l <> [] -> rstrip (join tab (l ++ [x])) = join tab (l ++ [x]) <-> tail_ok x.
Proof.
  intros Hl. rewrite join_snoc by done. split.
  - apply tail_ok_after_tab.
  - intros [Hx Hne].
    assert (rstrip x <> EmptyString) as Hx' by (by rewrite Hx).
    pose proof (rstrip_cons_nonempty tab x Hx') as Htab.
    rewrite rstrip_app_r by (by rewrite Htab). by rewrite Htab, Hx.
Qed.

Lemma no_space_no_tab s : no_space s = true -> no_char tab s = true.
Proof.
  induction s as [|c s IH]; simpl; [done|].
  intros [Hc Hs]%andb_true_iff. rewrite (IH Hs), andb_true_r.
  apply negb_true_iff. apply negb_true_iff in Hc.
  destruct (Ascii.eqb c tab) eqn:Heq; [|done].
  apply Ascii.eqb_eq in Heq. by subst.
Qed.

Lemma no_space_rstrip s : no_space s = true -> rstrip s = s.
Proof.
  induction s as [|c s IH]; simpl; [done|].
  intros [Hc Hs]%andb_true_iff. apply negb_true_iff in Hc.
  by rewrite Hc, (IH Hs).
Qed.

Lemma is_int_space_is_space c : is_space c = false -> is_int_space c = false.
Proof. by destruct c as [[] [] [] [] [] [] [] []]. Qed.

Lemma no_space_int_rstrip s : no_space s = true -> int_rstrip s = s.
Proof.
  induction s as [|c s IH]; simpl; [done|].
  intros [Hc Hs]%andb_true_iff. apply negb_true_iff in Hc.
  by rewrite (is_int_space_is_space _ Hc), (IH Hs).
Qed.

Lemma no_space_int_lstrip s : no_space s = true -> int_lstrip s = s.
Proof.
  destruct s as [|c s]; simpl; [done|].
  intros [Hc Hs]%andb_true_iff. apply negb_true_iff in Hc.
  by rewrite (is_int_space_is_space _ Hc).
Qed.

Lemma no_space_tail_ok s : no_space s = true -> s <> EmptyString -> tail_ok s.
Proof. intros Hs Hne. split; [by apply no_space_rstrip|done]. Qed.

(** ** Integers: [int(str(n)) == n] *)

Lemma string_of_uint_digits d :
  Forall (fun c => is_digit c = true)
    (list_ascii_of_string (NilEmpty.string_of_uint d)).
Proof. induction d; simpl; by repeat constructor. Qed.

Lemma string_of_uint_nonempty d :
  d <> Nil -> NilEmpty.string_of_uint d <> EmptyString.
Proof. by destruct d. Qed.

Lemma digits_no_space s :
  Forall (fun c => is_digit c = true) (list_ascii_of_string s) ->
  no_space s = true.
Proof.
  induction s as [|c s IH]; simpl; [done|].
  intros [Hc Hs]%Forall_cons. rewrite (IH Hs), andb_true_r.
  apply negb_true_iff. unfold is_digit, is_space in *.
  destruct (nat_of_ascii c) as [|n]; [done|].
  do 47 (destruct n as [|n]; [done|]).
  do 10 (destruct n as [|n]; [done|]). done.
Qed.

Lemma digits_digits_ok s b :
  Forall (fun c => is_digit c = true) (list_ascii_of_string s) ->
  digits_ok b s = (b || negb (is_empty s)).
Proof.
  revert b. induction s as [|c s IH]; intros b; simpl.
  - by rewrite orb_false_r.
  - intros [Hc Hs]%Forall_cons. rewrite Hc, (IH _ Hs). simpl.
    by rewrite orb_true_r.
Qed.

Lemma digits_drop_underscores s :
  Forall (fun c => is_digit c = true) (list_ascii_of_string s) ->
  drop_underscores s = s.
Proof.
  induction s as [|c s IH]; simpl; [done|].
  intros [Hc Hs]%Forall_cons. rewrite (IH Hs).
  destruct (Ascii.eqb c "_") eqn:Heq; [|done].
  apply Ascii.eqb_eq in Heq. by subst.
Qed.

Lemma nat_literal_to_uint p :
  nat_literal (NilEmpty.string_of_uint (Pos.to_uint p)) = Some (Z.pos p).
Proof.
  pose proof (string_of_uint_digits (Pos.to_uint p)) as Hd.
  unfold nat_literal.
  rewrite (digits_digits_ok _ _ Hd), (digits_drop_underscores _ Hd).
  assert (is_empty (NilEmpty.string_of_uint (Pos.to_uint p)) = false) as ->.
  { pose proof (string_of_uint_nonempty _
                  (DecimalPos.Unsigned.to_uint_nonnil p)).
    by destruct (NilEmpty.string_of_uint (Pos.to_uint p)). }
  cbn [orb negb]. rewrite NilEmpty.usu. cbn [option_map].
  unfold Z.of_uint. by rewrite DecimalPos.Unsigned.of_to.
Qed.

Lemma str_of_int_no_space n : no_space (str_of_int n) = true.
Proof.
  destruct n as [|p|p]; simpl; [done| |];
    by rewrite digits_no_space by apply string_of_uint_digits.
Qed.

Lemma str_of_int_nonempty n : str_of_int n <> EmptyString.
Proof.
  destruct n as [|p|p]; simpl; [done| |done].
  apply string_of_uint_nonempty, DecimalPos.Unsigned.to_uint_nonnil.
Qed.

Lemma int_of_str_of_int n : int_of_str (str_of_int n) = Some n.
Proof.
  unfold int_of_str.
  rewrite no_space_int_rstrip, no_space_int_lstrip
    by apply str_of_int_no_space.
  destruct n as [|p|p]; [done| |].
  - simpl. pose proof (nat_literal_to_uint p) as Hlit.
    pose proof (string_of_uint_digits (Pos.to_uint p)) as Hd.
    destruct (NilEmpty.string_of_uint (Pos.to_uint p)) as [|c s] eqn:Hs;
      [done|].
    apply Forall_cons in Hd as [Hc _].
    destruct c as [[] [] [] [] [] [] [] []]; try done.
  - simpl. by rewrite nat_literal_to_uint.
Qed.

(** ** The shape of the rows of a loaded report *)

Lemma schema_columns_snoc :
  schema_ok -> exists init k, columns report = init ++ [k] /\ init <> [].
Proof.
  intros (Hnd & Hin & _).
  apply Forall_cons in Hin as [Hr Hin]. apply Forall_cons in Hin as [Hc _].
  destruct (columns report) as [|k0 ks] eqn:Hcols using rev_ind;
    [by apply elem_of_nil in Hr|].
  clear IHks. exists ks, k0. split; [done|]. intros ->.
  apply list_elem_of_singleton in Hr, Hc. congruence.
Qed.

Lemma join_split sep s : join sep (split sep s) = s.
Proof.
  induction s as [|c s IH]; [done|]. cbn [split].
  destruct (Ascii.eqb c sep) eqn:Hc.
  - apply Ascii.eqb_eq in Hc as ->.
    pose proof (split_not_nil sep s) as Hne.
    destruct (split sep s) as [|x xs]; [done|].
    change (join sep ("" :: x :: xs)) with ("" +:+ String sep (join sep (x :: xs))).
    by rewrite IH.
  - pose proof (split_not_nil sep s) as Hne.
    destruct (split sep s) as [|x xs]; [done|].
    destruct xs as [|y ys].
    + simpl in *. by rewrite IH.
    + change (join sep (String c x :: y :: ys))
        with (String c x +:+ String sep (join sep (y :: ys))).
      rewrite string_app_cons. f_equal. exact IH.
Qed.

Lemma _report_line_to_dict_length line d :
  _report_line_to_dict line = Ok (Some d) ->
  length (split tab line) = length (columns report).
Proof.
  unfold _report_line_to_dict.
  destruct (length (split tab line) =? length (columns report))%nat eqn:Hlen;
    [|done].
  intros _. by apply Nat.eqb_eq.
Qed.

Lemma conv_int_result v x : conv_int v = Ok x -> exists n, x = VInt n.
Proof.
  unfold conv_int. destruct (py_int v) as [n|]; simpl; [|done].
  intros [= <-]. eauto.
Qed.

Lemma conv_float_result v x : conv_float v = Ok x -> exists y, x = VFloat y.
Proof.
  unfold conv_float. destruct (py_float v) as [y|]; simpl; [|done].
  intros [= <-]. eauto.
Qed.

Lemma cell_shape_dot k : k <> "flag" -> cell_shape k (VStr ".").
Proof. intros Hk. simpl. split_and!; [done|done|done|]. intros _. by split. Qed.

(** The last cell of a line read by the loader can end a line. *)
Lemma last_cell_tail_ok line init k s :
  NoDup (columns report) ->
  columns report = init ++ [k] -> init <> [] ->
  rstrip line = line ->
  length (split tab line) = length (columns report) ->
  dict_zip (columns report) (split tab line) !! k = Some (VStr s) ->
  tail_ok s.
Proof.
  intros Hnd Hcols Hinit Hfix Hlen Hk.
  pose proof (join_split tab line) as Hjoin.
  destruct (split tab line) as [|cell cells _] using rev_ind.
  { rewrite Hcols, length_app in Hlen. simpl in Hlen. lia. }
  assert (length cells = length init) as Hlen'.
  { rewrite Hcols, !length_app in Hlen. simpl in Hlen. lia. }
  rewrite (dict_zip_lookup _ _ (length init) k cell) in Hk; try done.
  - injection Hk as <-. apply (rstrip_join_last cells).
    + intros ->. by destruct init.
    + by rewrite Hjoin.
  - rewrite Hcols. by rewrite lookup_app_r, Nat.sub_diag by lia.
  - by rewrite <- Hlen', lookup_app_r, Nat.sub_diag by lia.
Qed.

(** The rows that [_report_line_to_dict] returns have the shape
    [row_shape]. *)
Lemma loaded_row_shape line d :
  schema_ok -> rstrip line = line ->
  _report_line_to_dict line = Ok (Some d) -> row_shape d.
Proof.
  intros Hs Hfix Hparse.
  pose proof (_report_line_to_dict_length _ _ Hparse) as Hlen.
  destruct (schema_columns_snoc Hs) as (init & klast & Hcols & Hinit).
  destruct Hs as (Hnd & Hin & Hkeys & Hdisj & _).
  rewrite _report_line_to_dict_eq in Hparse by done.
  set (d0 := dict_zip (columns report) (split tab line)) in *.
  destruct (foldM (coerce conv_int) d0 _) as [d1|] eqn:H1; [|done].
  rewrite bind_Ok in Hparse.
  destruct (foldM (coerce conv_float) d1 _) as [d2|] eqn:H2; [|done].
  rewrite bind_Ok in Hparse.
  destruct (getitem d2 "flag") as [fl|]; [|done]. rewrite bind_Ok in Hparse.
  destruct (py_int fl) as [n|]; [|done]. rewrite bind_Ok in Hparse.
  injection Hparse as <-.
  assert (forall k, is_Some (d2 !! k) <-> k ∈ columns report) as Hdom.
  { intros k. rewrite (coerce_loop_dom _ _ _ _ _ H2).
    rewrite (coerce_loop_dom _ _ _ _ _ H1). by apply dict_zip_dom. }
  assert ("flag" ∈ columns report) as Hflag.
  { apply Forall_cons in Hin as [_ Hin]. apply Forall_cons in Hin as [_ Hin].
    by apply Forall_cons in Hin as [? _]. }
  split.
  - intros k. destruct (decide (k = "flag")) as [->|Hk].
    + rewrite lookup_insert_eq. split; eauto.
    + rewrite lookup_insert_ne by done. apply Hdom.
  - intros k v. destruct (decide (k = "flag")) as [->|Hk].
    + rewrite lookup_insert_eq. by intros [= <-].
    + rewrite lookup_insert_ne by done. intros Hv.
      destruct (decide (k ∈ float_columns report)) as [Hf|Hf].
      { destruct (coerce_loop_result conv_float
                    (fun v => exists y, v = VFloat y) _ _ _ k
                    conv_float_result H2 Hf) as (v' & Hv' & [->|[y ->]]);
          rewrite Hv in Hv'; injection Hv' as ->.
        - by apply cell_shape_dot.
        - done. }
      rewrite (coerce_loop_other _ _ _ _ _ H2 Hf) in Hv.
      destruct (decide (k ∈ int_columns report)) as [Hi|Hi].
      { destruct (coerce_loop_result conv_int
                    (fun v => exists n, v = VInt n) _ _ _ k
                    conv_int_result H1 Hi) as (v' & Hv' & [->|[y ->]]);
          rewrite Hv in Hv'; injection Hv' as ->.
        - by apply cell_shape_dot.
        - done. }
      rewrite (coerce_loop_other _ _ _ _ _ H1 Hi) in Hv.
      destruct (dict_zip_value _ _ _ _ Hv) as (s & -> & Hin_s).
      simpl. split_and!.
      * done.
      * intros [?|?]%elem_of_app; done.
      * pose proof (split_no_char tab line) as Hall.
        by eapply Forall_forall in Hall.
      * rewrite Hcols, last_snoc. intros [= <-].
        by eapply last_cell_tail_ok.
Qed.

(** Blanking keeps the shape of a row. *)
Lemma blank_row_shape d :
  schema_ok -> row_shape d -> row_shape (blank_var_columns d).
Proof.
  intros (Hnd & Hin & Hkeys & Hdisj & _) [Hdom Hcells].
  assert (forall k, k ∈ var_columns report -> k ∈ columns report) as Hvar.
  { intros k Hk. eapply Forall_forall in Hin; [exact Hin|].
    rewrite !elem_of_app. auto. }
  assert ("flag" ∉ var_columns report) as Hflag.
  { apply Forall_cons in Hkeys as [_ Hkeys].
    apply Forall_cons in Hkeys as [_ Hkeys].
    apply Forall_cons in Hkeys as [Hf _]. rewrite !elem_of_app in Hf.
    intros ?. apply Hf. auto. }
  split.
  - intros k. rewrite lookup_blank_var_columns.
    destruct (decide (k ∈ var_columns report)) as [Hk|Hk]; [|apply Hdom].
    split; [auto|eauto].
  - intros k v. rewrite lookup_blank_var_columns.
    destruct (decide (k ∈ var_columns report)) as [Hk|Hk]; [|apply Hcells].
    intros [= <-]. apply cell_shape_dot. by intros ->.
Qed.

(** ** A row is read back from its line *)

Lemma result_map_ok {A B} (f : A -> result B) (g : A -> B) l :
  Forall (fun x => f x = Ok (g x)) l -> result_map f l = Ok (g <$> l).
Proof.
  induction 1 as [|x l Hx _ IH]; [done|].
  cbn [result_map]. by rewrite Hx, bind_Ok, IH.
Qed.

(** The loop builds the dictionary of the typed cells from the dictionary
    of their strings, whatever it has already converted. *)
Lemma coerce_loop_target conv (final : string -> value) ks :
  (forall k, k ∈ ks ->
     (conv (VStr (py_str (final k))) = Ok (final k)
      \/ (~ is_Ok (conv (VStr ".")) /\ final k = VStr "."))
     /\ (conv (final k) = Ok (final k)
         \/ (~ is_Ok (conv (VStr ".")) /\ final k = VStr "."))) ->
  forall d_cur,
  (forall k, k ∈ ks ->
     d_cur !! k = Some (VStr (py_str (final k)))
     \/ d_cur !! k = Some (final k)) ->
  exists d',
    foldM (coerce conv) d_cur ks = Ok d'
    /\ forall k, d' !! k = if decide (k ∈ ks) then Some (final k)
                           else d_cur !! k.
Proof.
  induction ks as [|k0 ks IH]; intros Hconv d_cur Hcur.
  - exists d_cur. split; [done|]. intros k.
    by rewrite decide_False by apply not_elem_of_nil.
  - assert (exists d1, coerce conv d_cur k0 = Ok d1
              /\ d1 !! k0 = Some (final k0)
              /\ forall k, k <> k0 -> d1 !! k = d_cur !! k)
      as (d1 & Hstep & Hk0 & Hother).
    { destruct (Hconv k0) as [Hraw Hfin]; [left|].
      destruct (Hcur k0) as [Hv|Hv]; [left| |].
      - destruct Hraw as [Hraw|[Hdot Hf]].
        + exists (<[k0 := final k0]> d_cur). split_and!.
          * by eapply coerce_conv.
          * by rewrite lookup_insert_eq.
          * intros k Hk. by rewrite lookup_insert_ne.
        + rewrite Hf in Hv. simpl in Hv. exists d_cur. split_and!.
          * by apply coerce_dot.
          * by rewrite Hf.
          * done.
      - destruct Hfin as [Hfin|[Hdot Hf]].
        + exists (<[k0 := final k0]> d_cur). split_and!.
          * by eapply coerce_conv.
          * by rewrite lookup_insert_eq.
          * intros k Hk. by rewrite lookup_insert_ne.
        + rewrite Hf in Hv. exists d_cur. split_and!.
          * by apply coerce_dot.
          * by rewrite Hf.
          * done. }
    destruct (IH (fun k Hk => Hconv k (proj2 (elem_of_cons ks k k0) (or_intror Hk)))
                 d1)
      as (d' & Hfold & Hd').
    { intros k Hk. destruct (decide (k = k0)) as [->|Hne]; [by right|].
      rewrite (Hother k Hne). apply Hcur. by right. }
    exists d'. split.
    + cbn [foldM]. by rewrite Hstep, bind_Ok.
    + intros k. rewrite Hd'. destruct (decide (k ∈ ks)) as [Hk|Hk].
      * by rewrite decide_True by (by right).
      * destruct (decide (k = k0)) as [->|Hne].
        -- by rewrite decide_True by left.
        -- rewrite decide_False; [by apply Hother|].
           intros [?|?]%elem_of_cons; done.
Qed.

Lemma cell_no_tab k v :
  cell_shape k v -> float_ok v -> no_char tab (py_str v) = true.
Proof.
  destruct v as [s|n|x|f]; simpl.
  - by intros (_ & _ & ? & _) _.
  - intros _ _. apply no_space_no_tab, str_of_int_no_space.
  - intros _ (_ & ? & _). by apply no_space_no_tab.
  - intros _ _. apply no_space_no_tab, str_of_int_no_space.
Qed.

Lemma cell_tail_ok k v :
  cell_shape k v -> float_ok v -> last (columns report) = Some k ->
  tail_ok (py_str v).
Proof.
  destruct v as [s|n|x|f]; simpl.
  - intros (_ & _ & _ & H) _ Hk. auto.
  - intros _ _ _.
    apply no_space_tail_ok; [apply str_of_int_no_space|apply str_of_int_nonempty].
  - intros _ (_ & ? & ?) _. by apply no_space_tail_ok.
  - intros _ _ _.
    apply no_space_tail_ok; [apply str_of_int_no_space|apply str_of_int_nonempty].
Qed.

Lemma conv_int_VInt n : conv_int (VInt n) = Ok (VInt n).
Proof. done. Qed.

Lemma conv_float_VFloat x : conv_float (VFloat x) = Ok (VFloat x).
Proof. done. Qed.

Lemma conv_int_str_of_int n : conv_int (VStr (str_of_int n)) = Ok (VInt n).
Proof. unfold conv_int. simpl. by rewrite int_of_str_of_int. Qed.

Lemma row_cells d k :
  row_shape d -> k ∈ columns report ->
  exists v, d !! k = Some v /\ cell_shape k v.
Proof.
  intros [Hdom Hcells] Hk. destruct (proj2 (Hdom k) Hk) as [v Hv].
  exists v. split; [done|]. by apply (Hcells k v).
Qed.

Lemma _dict_to_report_line_row d :
  row_shape d -> _dict_to_report_line d = Ok (row_line d).
Proof.
  intros Hd. unfold _dict_to_report_line, row_line.
  rewrite (result_map_ok _
             (fun k => py_str (default (VStr EmptyString) (d !! k)))).
  - done.
  - apply Forall_forall. intros k Hk.
    destruct (row_cells d k Hd Hk) as (v & Hv & _).
    unfold getitem. by rewrite Hv.
Qed.

Lemma row_line_rstrip d :
  schema_ok -> row_shape d -> map_Forall (fun _ => float_ok) d ->
  rstrip (row_line d) = row_line d.
Proof.
  intros Hs Hd Hfl. destruct (schema_columns_snoc Hs) as (init & k & Hcols & Hinit).
  unfold row_line. rewrite Hcols, fmap_app. simpl.
  apply rstrip_join_last.
  - intros Hnil. apply fmap_nil_inv in Hnil. done.
  - destruct (row_cells d k Hd) as (v & Hv & Hshape).
    { rewrite Hcols, elem_of_app, list_elem_of_singleton. by right. }
    rewrite Hv. simpl. apply (cell_tail_ok k); [done|by apply (Hfl k)|].
    by rewrite Hcols, last_snoc.
Qed.

Lemma row_line_split d :
  schema_ok -> row_shape d -> map_Forall (fun _ => float_ok) d ->
  split tab (row_line d)
  = (fun k => py_str (default (VStr EmptyString) (d !! k))) <$> columns report.
Proof.
  intros Hs Hd Hfl. destruct (schema_columns_snoc Hs) as (init & k & Hcols & Hinit).
  unfold row_line. apply split_join.
  - rewrite Hcols, fmap_app. by destruct (_ <$> init).
  - apply Forall_fmap, Forall_forall. intros k' Hk'. simpl.
    destruct (row_cells d k' Hd Hk') as (v & Hv & Hshape).
    rewrite Hv. simpl. apply (cell_no_tab k'); [done|by apply (Hfl k')].
Qed.

(** The line of a row of that shape is parsed back to the row. *)
Lemma row_round_trip d :
  schema_ok -> float_of_str "." = None ->
  row_shape d -> map_Forall (fun _ => float_ok) d ->
  _report_line_to_dict (row_line d) = Ok (Some d).
Proof.
  intros Hs Hfdot Hd Hfl.
  pose proof (row_line_split d Hs Hd Hfl) as Hsplit.
  pose proof Hs as (Hnd & Hin & Hkeys & Hdisj & _).
  assert (length (split tab (row_line d)) = length (columns report)) as Hlen
    by (by rewrite Hsplit, length_fmap).
  rewrite _report_line_to_dict_eq by done. rewrite Hsplit.
  set (d0 := dict_zip (columns report) _).
  set (final := fun k => default (VStr EmptyString) (d !! k)).
  assert (forall k v, d !! k = Some v -> final k = v) as Hfinal
    by (intros k v Hv; unfold final; by rewrite Hv).
  assert (forall k, k ∈ columns report ->
            d0 !! k = Some (VStr (py_str (final k)))) as Hd0.
  { intros k (i & Hi)%list_elem_of_lookup. unfold d0.
    apply (dict_zip_lookup _ _ i); [done|done|].
    by rewrite list_lookup_fmap, Hi. }
  assert (forall k, k ∉ columns report -> d0 !! k = None) as Hd0'.
  { intros k Hk. apply eq_None_not_Some. intros Hsome. apply Hk.
    unfold d0 in Hsome. apply dict_zip_dom in Hsome; [done|].
    by rewrite length_fmap. }
  apply Forall_app in Hin as [Hin3 Hin]. apply Forall_app in Hin as [Hint Hin].
  apply Forall_app in Hin as [Hfloat Hvar].
  assert (("flag" ∉ int_columns report) /\ ("flag" ∉ float_columns report))
    as [Hflag_i Hflag_f].
  { apply Forall_cons in Hkeys as [_ Hkeys].
    apply Forall_cons in Hkeys as [_ Hkeys].
    apply Forall_cons in Hkeys as [Hf _]. rewrite !elem_of_app in Hf.
    split; intros ?; apply Hf; auto. }
  assert (~ is_Ok (conv_int (VStr "."))) as Hidot by (by intros []).
  assert (~ is_Ok (conv_float (VStr "."))) as Hfdot'.
  { rewrite conv_float_VStr, Hfdot. by intros [? [=]]. }
  (* the integer columns *)
  destruct (coerce_loop_target conv_int final (int_columns report)) with (d_cur := d0)
    as (d1 & -> & Hd1).
  { intros k Hk.
    assert (k ∈ columns report) as Hkc by (by eapply Forall_forall in Hint).
    destruct (row_cells d k Hd Hkc) as (v & Hv & Hshape).
    rewrite (Hfinal k v Hv). destruct v as [s|n|x|f]; simpl in Hshape.
    - destruct Hshape as (_ & Hdot & _).
      rewrite Hdot by (apply elem_of_app; by left). split; right; by split.
    - split; left; [apply conv_int_str_of_int|apply conv_int_VInt].
    - exfalso. eapply Forall_forall in Hdisj; [|exact Hk]. done.
    - subst. done. }
  { intros k Hk. left. apply Hd0. by eapply Forall_forall in Hint. }
  rewrite bind_Ok.
  (* the float columns *)
  destruct (coerce_loop_target conv_float final (float_columns report)) with (d_cur := d1)
    as (d2 & -> & Hd2).
  { intros k Hk.
    assert (k ∈ columns report) as Hkc by (by eapply Forall_forall in Hfloat).
    destruct (row_cells d k Hd Hkc) as (v & Hv & Hshape).
    rewrite (Hfinal k v Hv). pose proof (Hfl k v Hv) as Hok.
    destruct v as [s|n|x|f]; simpl in Hshape, Hok.
    - destruct Hshape as (_ & Hdot & _).
      rewrite Hdot by (apply elem_of_app; by right). split; right; by split.
    - exfalso. eapply Forall_forall in Hdisj; [|exact Hshape]. done.
    - destruct Hok as (Hrt & _). split; left; [|apply conv_float_VFloat].
      unfold conv_float. simpl. by rewrite Hrt.
    - subst. done. }
  { intros k Hk. left. rewrite Hd1. rewrite decide_False.
    - apply Hd0. by eapply Forall_forall in Hfloat.
    - intros Hki. eapply Forall_forall in Hdisj; [|exact Hki]. done. }
  rewrite bind_Ok.
  (* the flag *)
  assert ("flag" ∈ columns report) as Hflag.
  { apply Forall_cons in Hin3 as [_ Hin3]. apply Forall_cons in Hin3 as [_ Hin3].
    by apply Forall_cons in Hin3 as [? _]. }
  destruct (row_cells d "flag" Hd Hflag) as (vf & Hvf & Hshape).
  assert (exists f, vf = VFlag f) as [f ->].
  { destruct vf as [s|n|x|f]; simpl in Hshape; [|done|done|by eauto].
    by destruct Hshape as [? _]. }
  unfold getitem. rewrite Hd2, decide_False, Hd1, decide_False, Hd0 by done.
  rewrite (Hfinal _ _ Hvf). simpl. rewrite int_of_str_of_int. simpl.
  do 2 f_equal. apply map_eq. intros k.
  destruct (decide (k = "flag")) as [->|Hk].
  { rewrite lookup_insert_eq, Hvf. by destruct f. }
  rewrite lookup_insert_ne by done. rewrite Hd2.
  destruct (decide (k ∈ float_columns report)) as [Hkf|Hkf].
  { assert (k ∈ columns report) as Hkc by (by eapply Forall_forall in Hfloat).
    destruct (row_cells d k Hd Hkc) as (v & Hv & _).
    by rewrite (Hfinal k v Hv). }
  rewrite Hd1. destruct (decide (k ∈ int_columns report)) as [Hki|Hki].
  { assert (k ∈ columns report) as Hkc by (by eapply Forall_forall in Hint).
    destruct (row_cells d k Hd Hkc) as (v & Hv & _).
    by rewrite (Hfinal k v Hv). }
  destruct (decide (k ∈ columns report)) as [Hkc|Hkc].
  - rewrite Hd0 by done.
    destruct (row_cells d k Hd Hkc) as (v & Hv & Hshape').
    rewrite (Hfinal k v Hv), Hv.
    destruct v as [s|n|x|f']; simpl in Hshape'; [done|done|done|done].
  - rewrite Hd0' by done. symmetry. apply eq_None_not_Some.
    intros Hsome. apply Hkc. by apply Hd.
Qed.

(** ** Lists of blocks *)

Lemma elem_of_concat {A} (x : A) (ls : list (list A)) :
  x ∈ concat ls <-> exists l, l ∈ ls /\ x ∈ l.
Proof.
  induction ls as [|l ls IH]; simpl.
  - split; [by intros ?%elem_of_nil|by intros (? & ?%elem_of_nil & _)].
  - rewrite elem_of_app, IH. split.
    + intros [Hx|(l' & Hl' & Hx)].
      * exists l. split; [left|done].
      * exists l'. split; [by right|done].
    + intros (l' & [->|Hl']%elem_of_cons & Hx); [by left|].
      right. eauto.
Qed.

Lemma fmap_concat {A B} (f : A -> B) (ls : list (list A)) :
  f <$> concat ls = concat ((fun l : list A => f <$> l) <$> ls).
Proof.
  induction ls as [|l ls IH]; simpl; [done|].
  by rewrite fmap_app, IH.
Qed.

Lemma filter_concat_nil {K A} (P : A -> Prop) `{!forall x, Decision (P x)}
    (f : K -> list A) ks :
  (forall k, k ∈ ks -> filter P (f k) = []) ->
  filter P (concat (f <$> ks)) = [].
Proof.
  induction ks as [|k ks IH]; intros Hall; simpl; [done|].
  rewrite filter_app, Hall by left. simpl. apply IH. intros k' Hk'.
  apply Hall. by right.
Qed.

Lemma filter_concat_one {K A} (P : A -> Prop) `{!forall x, Decision (P x)}
    (f : K -> list A) ks k0 :
  NoDup ks -> k0 ∈ ks ->
  (forall k, k ∈ ks -> k <> k0 -> filter P (f k) = []) ->
  filter P (concat (f <$> ks)) = filter P (f k0).
Proof.
  induction ks as [|k ks IH]; intros Hnd Hin Hall;
    [by apply elem_of_nil in Hin|].
  apply NoDup_cons in Hnd as [Hk Hnd]. simpl. rewrite filter_app.
  apply elem_of_cons in Hin as [->|Hin].
  - rewrite filter_concat_nil; [by rewrite app_nil_r|].
    intros k' Hk'. apply Hall; [by right|]. by intros ->.
  - rewrite Hall; [|left|by intros ->]. simpl. apply IH; [done|done|].
    intros k' Hk'. apply Hall. by right.
Qed.

(** ** [sorted] *)

Lemma elem_of_sorted_keys {A} (m : gmap string A) r :
  r ∈ sorted_keys m <-> is_Some (m !! r).
Proof.
  unfold sorted_keys. rewrite merge_sort_Permutation.
  rewrite list_elem_of_fmap. split.
  - intros ([r' x] & -> & Hx%elem_of_map_to_list). eauto.
  - intros [x Hx]. exists (r, x). split; [done|].
    by apply elem_of_map_to_list.
Qed.

Lemma NoDup_sorted_keys {A} (m : gmap string A) : NoDup (sorted_keys m).
Proof.
  unfold sorted_keys. rewrite merge_sort_Permutation.
  apply NoDup_fst_map_to_list.
Qed.

Lemma elem_of_sorted_items {A} (m : gmap string A) c x :
  (c, x) ∈ sorted_items m <-> m !! c = Some x.
Proof.
  unfold sorted_items. rewrite merge_sort_Permutation.
  apply elem_of_map_to_list.
Qed.

Lemma NoDup_sorted_items {A} (m : gmap string A) : NoDup (sorted_items m).
Proof.
  unfold sorted_items. rewrite merge_sort_Permutation.
  apply NoDup_map_to_list.
Qed.

(** ** The rows of a report, and what the loader makes of them *)

Lemma elem_of_report_rows
    (m : Collection) d :
  d ∈ report_rows m <-> exists r c l, group m r c = Some l /\ d ∈ l.
Proof.
  unfold report_rows. rewrite elem_of_concat. split.
  - intros (b & Hb & Hd). apply list_elem_of_fmap in Hb as (r & -> & Hr).
    apply elem_of_sorted_keys in Hr as [ctgs Hr]. rewrite Hr in Hd. simpl in Hd.
    apply elem_of_concat in Hd as (l & Hl & Hd).
    apply list_elem_of_fmap in Hl as ([c l'] & -> & Hc). simpl in Hd.
    apply elem_of_sorted_items in Hc.
    exists r, c, l'. split; [|done]. apply group_Some. eauto.
  - intros (r & c & l & (ctgs & Hr & Hc)%group_Some & Hd).
    exists (concat ((fun item : string * list dict => item.2)
                      <$> sorted_items ctgs)). split.
    + apply list_elem_of_fmap. exists r. rewrite Hr. split; [done|].
      apply elem_of_sorted_keys. eauto.
    + apply elem_of_concat. exists l. split; [|done].
      apply list_elem_of_fmap. exists (c, l). split; [done|].
      by apply elem_of_sorted_items.
Qed.

(** The rows of a report filed under [(r0, c0)] are, in the written order,
    the rows of its group [(r0, c0)]. *)
Lemma filter_report_rows
    (m : Collection) r0 c0 :
  keyed m ->
  filter (fun d => ref_of d = r0 /\ ctg_of d = c0) (report_rows m)
  = default [] (group m r0 c0).
Proof.
  intros Hkeyed.
  set (P := fun d : dict => ref_of d = r0 /\ ctg_of d = c0).
  assert (forall r c l, group m r c = Some l ->
            filter P l = if decide (r = r0 /\ c = c0) then l else []) as Hgroup.
  { intros r c l Hl. specialize (Hkeyed r c l Hl).
    destruct (decide (r = r0 /\ c = c0)) as [[-> ->]|Hne].
    - apply filter_all. eapply Forall_impl; [exact Hkeyed|].
      intros d [Hr Hc]. unfold P, ref_of, ctg_of. by rewrite Hr, Hc.
    - apply filter_none. eapply Forall_impl; [exact Hkeyed|].
      intros d [Hr Hc] [Hr' Hc']. unfold ref_of, ctg_of in *.
      rewrite Hr in Hr'. rewrite Hc in Hc'. by apply Hne. }
  assert (forall r ctgs, m !! r = Some ctgs ->
            filter P (concat ((fun item : string * list dict =>
                                 item.2) <$> sorted_items ctgs))
            = if decide (r = r0) then default [] (ctgs !! c0) else []) as Href.
  { intros r ctgs Hr.
    assert (forall c l, ctgs !! c = Some l ->
              filter P l = if decide (r = r0 /\ c = c0) then l else []) as Hg.
    { intros c l Hc. apply (Hgroup r c). apply group_Some. eauto. }
    destruct (decide (r = r0)) as [->|Hne].
    - destruct (ctgs !! c0) as [l0|] eqn:Hc0; simpl.
      + rewrite (filter_concat_one P _ _ (c0, l0)).
        * simpl. rewrite (Hg c0 l0 Hc0). by rewrite decide_True.
        * apply NoDup_sorted_items.
        * by apply elem_of_sorted_items.
        * intros [c l] Hc%elem_of_sorted_items Hne. simpl.
          rewrite (Hg c l Hc). rewrite decide_False; [done|].
          intros [_ ->]. apply Hne. congruence.
      + apply filter_concat_nil. intros [c l] Hc%elem_of_sorted_items. simpl.
        rewrite (Hg c l Hc). rewrite decide_False; [done|].
        intros [_ ->]. congruence.
    - apply filter_concat_nil. intros [c l] Hc%elem_of_sorted_items. simpl.
      rewrite (Hg c l Hc). rewrite decide_False; [done|]. by intros [? _]. }
  unfold report_rows, group.
  destruct (m !! r0) as [ctgs0|] eqn:Hr0; simpl.
  - rewrite (filter_concat_one P _ _ r0).
    + rewrite Hr0. simpl. rewrite (Href r0 ctgs0 Hr0). by rewrite decide_True.
    + apply NoDup_sorted_keys.
    + apply elem_of_sorted_keys. eauto.
    + intros r [ctgs Hr]%elem_of_sorted_keys Hne. rewrite Hr. simpl.
      rewrite (Href r ctgs Hr). by rewrite decide_False.
  - apply filter_concat_nil. intros r [ctgs Hr]%elem_of_sorted_keys.
    rewrite Hr. simpl. rewrite (Href r ctgs Hr). rewrite decide_False; [done|].
    intros ->. congruence.
Qed.

Lemma load_rows_cons d rows m :
  load_rows (d :: rows) m
  = load_rows rows (add_line_dict m (ref_of d) (ctg_of d) d).
Proof. done. Qed.

Lemma group_load_rows rows : forall m r c,
  group (load_rows rows m) r c
  = match filter (fun d => ref_of d = r /\ ctg_of d = c) rows with
    | [] => group m r c
    | add => Some (default [] (group m r c) ++ add)
    end.
Proof.
  induction rows as [|d rows IH]; intros m r c; [done|].
  rewrite load_rows_cons, IH, group_add_line_dict, filter_cons.
  destruct (decide (ref_of d = r /\ ctg_of d = c)) as [[<- <-]|Hne].
  - rewrite decide_True by done. simpl.
    destruct (filter _ rows) as [|x xs]; [done|].
    by rewrite <- app_assoc.
  - rewrite decide_False; [done|]. intros [= -> ->]. by apply Hne.
Qed.

Lemma ref_load_rows rows : forall m r,
  is_Some (load_rows rows m !! r)
  <-> is_Some (m !! r) \/ Exists (fun d => ref_of d = r) rows.
Proof.
  induction rows as [|d rows IH]; intros m r.
  - simpl. rewrite Exists_nil. split; [by left|by intros [?|[]]].
  - rewrite load_rows_cons, IH, Exists_cons, add_line_dict_lookup.
    destruct (decide (r = ref_of d)) as [->|Hne].
    + split; [intros [_|?]; auto|intros _; left; eauto].
    + split; [intros [?|?]; auto|intros [?|[?|?]]; auto]. congruence.
Qed.

Lemma group_empty r c :
  group (∅ : Collection) r c = None.
Proof. unfold group. by rewrite lookup_empty. Qed.

(** Reading back the rows of a report, in the written order, gives the
    report, provided that it has no empty branch. *)
Lemma load_report_rows
    (m : Collection) :
  keyed m ->
  (forall r, m !! r <> Some ∅) -> (forall r c, group m r c <> Some []) ->
  load_rows (report_rows m) ∅ = m.
Proof.
  intros Hkeyed Hrefs Hgroups. apply collection_eq.
  - intros r. rewrite ref_load_rows, lookup_empty, Exists_exists. split.
    + intros [[? [=]]|(d & (r' & c & l & Hl & Hd)%elem_of_report_rows & Hr)].
      pose proof (Hkeyed r' c l Hl) as Hk.
      eapply Forall_forall in Hk as [Hk _]; [|exact Hd].
      unfold ref_of in Hr. rewrite Hk in Hr. subst r'.
      apply group_Some in Hl as (ctgs & -> & _). eauto.
    + intros [ctgs Hr]. right.
      destruct (decide (ctgs = ∅)) as [->|Hne]; [by destruct (Hrefs r)|].
      apply map_choose in Hne as (c & l & Hc).
      assert (group m r c = Some l) as Hl by (apply group_Some; eauto).
      destruct l as [|d l]; [by destruct (Hgroups r c)|].
      exists d. split.
      * apply elem_of_report_rows. exists r, c, (d :: l). split; [done|left].
      * pose proof (Hkeyed r c _ Hl) as Hk.
        apply Forall_cons in Hk as [[Hk _] _]. unfold ref_of. by rewrite Hk.
  - intros r c. rewrite group_load_rows, filter_report_rows by done.
    rewrite !group_empty.
    destruct (group m r c) as [l|] eqn:Hl; simpl; [|done].
    destruct l; [by destruct (Hgroups r c)|done].
Qed.

(** ** Writing a report and reading it back *)

Lemma load_lines_rows rows : forall m,
  schema_ok -> float_of_str "." = None ->
  Forall (fun d => exists r c, row_good r c d) rows ->
  load_lines (row_line <$> rows) false m = Ok (load_rows rows m).
Proof.
  induction rows as [|d rows IH]; intros m Hs Hfdot Hrows; [done|].
  apply Forall_cons in Hrows as [(r & c & Hshape & Hfl & Hr & Hc) Hrows].
  rewrite fmap_cons, load_rows_cons. cbn [load_lines].
  rewrite row_line_rstrip, row_round_trip by done. rewrite bind_Ok.
  unfold getitem. rewrite Hr, Hc. simpl.
  unfold ref_of, ctg_of. rewrite Hr, Hc. by apply IH.
Qed.

Lemma _write_report_tsv_rows
    (m : Collection) :
  all_rows row_shape m ->
  _write_report_tsv m = Ok (expected_first_line :: (row_line <$> report_rows m)).
Proof.
  intros Hrows0. pose proof (proj1 (all_rows_group _ _) Hrows0) as Hrows.
  unfold _write_report_tsv.
  rewrite (result_map_ok _
    (fun r => concat ((fun item : string * list dict =>
                         row_line <$> item.2)
                      <$> sorted_items (default ∅ (m !! r))))).
  - rewrite bind_Ok. unfold expected_first_line, report_rows. do 2 f_equal.
    rewrite fmap_concat, <- list_fmap_compose. f_equal.
    apply list_fmap_ext. intros _ r _. simpl.
    by rewrite fmap_concat, <- list_fmap_compose.
  - apply Forall_forall. intros r [ctgs Hr]%elem_of_sorted_keys.
    unfold getitem. rewrite Hr. simpl.
    rewrite (result_map_ok _
      (fun item : string * list dict => row_line <$> item.2)).
    + done.
    + apply Forall_forall. intros [c l] Hc%elem_of_sorted_items. simpl.
      apply result_map_ok. eapply Forall_impl.
      * apply (Hrows r c l). apply group_Some. eauto.
      * intros d Hd. by apply _dict_to_report_line_row.
Qed.

(** The rows of a loaded report have the shape [row_shape] and are filed
    under their own reference name and contig. *)
Lemma _load_report_rows infile m :
  schema_ok -> _load_report infile = Ok m ->
  all_groups (fun r c d => row_shape d
                           /\ d !! "ref_name" = Some (VStr r)
                           /\ d !! "ctg" = Some (VStr c)) m.
Proof.
  intros Hs. unfold _load_report.
  apply (load_lines_invariant
           (all_groups (fun r c d => row_shape d
                                     /\ d !! "ref_name" = Some (VStr r)
                                     /\ d !! "ctg" = Some (VStr c)))).
  - intros m0 line d r c Hm0 Hparse Hr Hc r' c' l.
    rewrite group_add_line_dict.
    destruct (decide ((r', c') = (r, c))) as [[= -> ->]|Hne]; [|apply Hm0].
    intros [= <-]. apply Forall_app. split.
    + destruct (group m0 r c) as [l0|] eqn:Hl0; simpl; [|done].
      by apply (Hm0 r c).
    + apply Forall_singleton. split_and!; [|done|done].
      eapply loaded_row_shape; [done| |exact Hparse]. apply rstrip_idemp.
  - intros r c l. by rewrite group_empty.
Qed.

Lemma selected_Forall self (P : dict -> Prop) l :
  (forall d, P d -> P (blank_var_columns d)) ->
  Forall P l -> Forall P (selected self l).
Proof.
  intros Hblank Hl. apply Forall_forall. intros d' Hd'.
  destruct (selected_origin self l d' Hd') as (d & Hd & [->|[_ ->]]).
  - by eapply Forall_forall in Hl.
  - apply Hblank. by eapply Forall_forall in Hl.
Qed.

Lemma all_groups_filtered self P m :
  (forall r c d, P r c d -> P r c (blank_var_columns d)) ->
  all_groups P m -> all_groups P (filtered self m).
Proof.
  intros Hblank Hm r c l'. rewrite group_filtered.
  destruct (group m r c) as [l|] eqn:Hl; [|done]. simpl. intros Hsel.
  assert (selected self l = l') as <-
    by (destruct (selected self l); by simplify_eq).
  apply selected_Forall; [apply Hblank|by apply Hm].
Qed.

Lemma blank_row_good r c d :
  schema_ok -> row_good r c d -> row_good r c (blank_var_columns d).
Proof.
  intros Hs (Hshape & Hfl & Hr & Hc).
  pose proof Hs as (_ & _ & Hkeys & _).
  apply Forall_cons in Hkeys as [Hk1 Hkeys].
  apply Forall_cons in Hkeys as [Hk2 _].
  rewrite !elem_of_app in Hk1, Hk2.
  split_and!.
  - by apply blank_row_shape.
  - intros k v. rewrite lookup_blank_var_columns.
    destruct (decide _); [by intros [= <-]|apply Hfl].
  - rewrite lookup_blank_var_columns. rewrite decide_False; [done|].
    intros ?. apply Hk1. auto.
  - rewrite lookup_blank_var_columns. rewrite decide_False; [done|].
    intros ?. apply Hk2. auto.
Qed.

(** C7: the filtered report of a loaded report, written by
    [_write_report_tsv] and loaded again by [_load_report], is the filtered
    report itself.  (For tables of [ariba.report] that satisfy [schema_ok];
    [str] and [float] are such that every float of the report is printed
    without white space and read back as itself, and [float] rejects
    ["."]; the predicates can be evaluated on the rows of the report.) *)
Theorem written_report_is_read_back self infile
    (self_report : Collection) :
  schema_ok ->
  float_of_str "." = None ->
  _load_report infile = Ok self_report ->
  all_rows (evaluates self) self_report ->
  all_rows (map_Forall (fun _ => float_ok)) self_report ->
  exists report' outfile,
    _filter_dicts self self_report = Ok report'
    /\ _write_report_tsv report' = Ok outfile
    /\ _load_report outfile = Ok report'.
Proof.
  intros Hs Hfdot Hload Hev Hfloats.
  exists (filtered self self_report),
    (expected_first_line :: (row_line <$> report_rows (filtered self self_report))).
  assert (all_groups row_good self_report) as Hgood.
  { intros r c l Hl.
    pose proof (_load_report_rows _ _ Hs Hload r c l Hl) as H1.
    pose proof (proj1 (all_rows_group _ _) Hfloats r c l Hl) as H2.
    apply Forall_forall. intros d Hd.
    eapply Forall_forall in H1 as (? & ? & ?); [|exact Hd].
    eapply Forall_forall in H2; [|exact Hd]. by split_and!. }
  assert (all_groups row_good (filtered self self_report)) as Hgood'.
  { apply all_groups_filtered; [|done]. intros r c d. by apply blank_row_good. }
  split_and!.
  - by apply _filter_dicts_spec.
  - apply _write_report_tsv_rows. apply all_rows_group. intros r c l Hl.
    eapply Forall_impl; [exact (Hgood' r c l Hl)|]. by intros d [? _].
  - unfold _load_report. cbn [load_lines].
    destruct Hs as (? & ? & ? & ? & Hhead). rewrite Hhead, String.eqb_refl.
    cbn [negb]. rewrite load_lines_rows.
    + f_equal. destruct (_load_report_shape _ _ Hload) as [Hrefs _].
      destruct (filtered_shape self self_report) as [Hf1 Hf2].
      apply load_report_rows.
      * intros r c l Hl. eapply Forall_impl; [exact (Hgood' r c l Hl)|].
        by intros d (_ & _ & ? & ?).
      * intros r Hr. by apply (Hrefs r), Hf1.
      * done.
    + done.
    + done.
    + apply Forall_forall.
      intros d (r & c & l & Hl & Hd)%elem_of_report_rows. exists r, c.
      pose proof (Hgood' r c l Hl) as Hall. by eapply Forall_forall in Hall.
Qed.

(** ** Further properties of the code *)

(** X1: a first line that is not the expected header ends the load with the
    [Error] of the module, whose message shows the expected and the actual
    line. *)
Theorem wrong_header_raises_Error first rest :
  rstrip first <> expected_first_line ->
  _load_report (first :: rest)
  = Raise (Error ("Error reading report file. Expected first line of file is"
                  +:+ newline +:+ expected_first_line +:+ newline
                  +:+ "but got:" +:+ newline +:+ rstrip first)).
Proof.
  intros Hne. unfold _load_report. cbn [load_lines].
  apply String.eqb_neq in Hne. by rewrite Hne.
Qed.

Lemma classify_raises self before d after e : forall b,
  Forall (evaluates self) before ->
  _report_dict_passes_essential_filters self d = Raise e ->
  classify self (before ++ d :: after) b = Raise e.
Proof.
  induction before as [|x before IH]; intros b Hev Hd.
  - simpl. by rewrite Hd.
  - apply Forall_cons in Hev as [Hx Hev]. simpl.
    destruct (evaluates_cases _ _ Hx) as [He|[[He Hn]|[He Hn]]];
      rewrite He; simpl; rewrite ?Hn; simpl; by apply IH.
Qed.

(** X2: the essential predicate is partial: on a row whose flag passes the
    exclusion test and whose ['pc_ident'] cell is a string, such as the
    ["."] that the loader keeps, the comparison with a numeric
    [min_pc_ident] raises [TypeError], and so does
    [_filter_list_of_dicts] on a list in which this row is the first on
    which the predicates cannot be evaluated. *)
Theorem string_identity_raises_TypeError self d fl s before after :
  d !! "flag" = Some fl ->
  _flag_passes_filter fl (exclude_flags self) = Ok true ->
  d !! "pc_ident" = Some (VStr s) ->
  (forall y, min_pc_ident self <> VStr y) ->
  Forall (evaluates self) before ->
  _report_dict_passes_essential_filters self d = Raise TypeError
  /\ _filter_list_of_dicts self (before ++ d :: after) = Raise TypeError.
Proof.
  intros Hfl Hpass Hpc Hmin Hev.
  assert (_report_dict_passes_essential_filters self d = Raise TypeError) as He.
  { unfold _report_dict_passes_essential_filters, getitem.
    rewrite Hfl. simpl. rewrite Hpass. simpl. rewrite Hpc. simpl.
    destruct (min_pc_ident self) as [y| | |] eqn:Hm;
      [by destruct (Hmin y)|done|done|done]. }
  split; [done|]. unfold _filter_list_of_dicts.
  destruct (before ++ d :: after) as [|x xs] eqn:Hl; [by destruct before|].
  change (length (x :: xs) =? 0)%nat with false. cbv iota.
  rewrite <- Hl. by rewrite (classify_raises self before d after TypeError).
Qed.

(** X3: [_filter_dicts] deletes a reference name only after deleting one
    of its groups: a reference name without any contig is left in the report.
    (The loader never produces one.) *)
Theorem reference_without_contig_is_kept self (self_report : Collection)
    ref_name :
  all_rows (evaluates self) self_report ->
  self_report !! ref_name = Some ∅ ->
  exists report',
    _filter_dicts self self_report = Ok report'
    /\ report' !! ref_name = Some ∅.
Proof.
  intros Hev Hr. exists (filtered self self_report).
  split; [by apply _filter_dicts_spec|].
  unfold filtered. rewrite lookup_omap, Hr. simpl.
  by rewrite decide_False by (by intros [_ ?]).
Qed.

(** ** What the filter raises *)

Lemma _flag_passes_filter_exn fl exclude e :
  _flag_passes_filter fl exclude = Raise e -> e = AttributeError.
Proof.
  induction exclude as [|f exclude IH]; [done|]. simpl.
  destruct fl as [s|n|x|fl]; simpl; try (by intros [= <-]).
  by destruct (Flag_has flags_in_order fl f).
Qed.

Lemma py_ge_exn a b e : py_ge a b = Raise e -> e = TypeError.
Proof. destruct a, b; simpl; congruence. Qed.

Lemma _report_dict_passes_filters_exn self d e :
  _report_dict_passes_filters self d = Raise e ->
  e = TypeError \/ e = AttributeError
  \/ exists key, d !! key = None /\ e = KeyError key.
Proof.
  unfold _report_dict_passes_filters, _report_dict_passes_essential_filters,
    _report_dict_passes_non_essential_filters, getitem.
  destruct (d !! "flag") as [fl|] eqn:Hfl; simpl;
    [|intros [= <-]; right; right; eauto].
  destruct (_flag_passes_filter fl (exclude_flags self)) as [[]|e1] eqn:H1;
    simpl; [|done|intros [= <-]; right; left; by eapply _flag_passes_filter_exn].
  destruct (d !! "pc_ident") as [pc|] eqn:Hpc; simpl;
    [|intros [= <-]; right; right; eauto].
  destruct (py_ge pc (min_pc_ident self)) as [[]|e2] eqn:H2; simpl;
    [|done|intros [= <-]; left; by eapply py_ge_exn].
  destruct (d !! "ref_base_assembled") as [rb|] eqn:Hrb; simpl;
    [|intros [= <-]; right; right; eauto].
  destruct (py_ge rb (min_ref_base_assembled self)) as [[]|e3] eqn:H3; simpl;
    [|done|intros [= <-]; left; by eapply py_ge_exn].
  destruct (ignore_not_has_known_variant self); [|done].
  destruct (d !! "has_known_var") as [v|] eqn:Hv; simpl; [done|].
  intros [= <-]. right; right; eauto.
Qed.

Lemma classify_raise self dicts_list : forall b e,
  classify self dicts_list b = Raise e ->
  exists before d after,
    dicts_list = before ++ d :: after
    /\ Forall (evaluates self) before
    /\ _report_dict_passes_filters self d = Raise e.
Proof.
  induction dicts_list as [|x l IH]; intros b e; simpl; [done|].
  destruct (_report_dict_passes_essential_filters self x) as [[]|e1] eqn:He;
    simpl.
  - destruct (_report_dict_passes_non_essential_filters self x) as [[]|e2]
      eqn:Hn; simpl.
    + intros (before & d & after & -> & Hb & Hd)%IH.
      exists (x :: before), d, after. split_and!; [done| |done].
      apply Forall_cons. split; [|done].
      unfold evaluates, _report_dict_passes_filters. rewrite He. simpl.
      by rewrite Hn.
    + intros (before & d & after & -> & Hb & Hd)%IH.
      exists (x :: before), d, after. split_and!; [done| |done].
      apply Forall_cons. split; [|done].
      unfold evaluates, _report_dict_passes_filters. rewrite He. simpl.
      by rewrite Hn.
    + intros [= <-]. exists [], x, l. split_and!; [done|done|].
      unfold _report_dict_passes_filters. rewrite He. simpl. by rewrite Hn.
  - intros (before & d & after & -> & Hb & Hd)%IH.
    exists (x :: before), d, after. split_and!; [done| |done].
    apply Forall_cons. split; [|done].
    unfold evaluates, _report_dict_passes_filters. by rewrite He.
  - intros [= <-]. exists [], x, l. split_and!; [done|done|].
    unfold _report_dict_passes_filters. by rewrite He.
Qed.

Lemma _filter_list_of_dicts_Raise self dicts_list e :
  _filter_list_of_dicts self dicts_list = Raise e ->
  exists before d after,
    dicts_list = before ++ d :: after
    /\ Forall (evaluates self) before
    /\ _report_dict_passes_filters self d = Raise e.
Proof.
  intros Hraise.
  destruct (decide (Forall (evaluates self) dicts_list)) as [Hev|Hev].
  { rewrite _filter_list_of_dicts_spec in Hraise by done. done. }
  unfold _filter_list_of_dicts in Hraise.
  destruct dicts_list as [|d0 ds0]; [done|].
  change (length (d0 :: ds0) =? 0)%nat with false in Hraise. cbv iota in Hraise.
  destruct (classify self (d0 :: ds0) _) as [b|e'] eqn:Hc.
  - destruct Hev. by eapply classify_evaluates.
  - simpl in Hraise. injection Hraise as <-. by eapply classify_raise.
Qed.

(** X4: an exception of [_filter_list_of_dicts] is the exception that the
    predicates raise on the first row of the list on which they cannot be
    evaluated, a [TypeError], an [AttributeError] or the [KeyError] of a
    key that the row lacks; the assertion of the function never fails. *)
Theorem filter_list_raises_what_a_row_raises self dicts_list e :
  _filter_list_of_dicts self dicts_list = Raise e ->
  (exists before d after,
     dicts_list = before ++ d :: after
     /\ Forall (evaluates self) before
     /\ _report_dict_passes_filters self d = Raise e
     /\ (e = TypeError \/ e = AttributeError
         \/ exists key, d !! key = None /\ e = KeyError key))
  /\ e <> AssertionError.
Proof.
  intros Hraise.
  apply _filter_list_of_dicts_Raise in Hraise
    as (before & d & after & Hl & Hb & Hd).
  pose proof (_report_dict_passes_filters_exn _ _ _ Hd) as He.
  split.
  - exists before, d, after. by split_and!.
  - destruct He as [->|[->|(key & _ & ->)]]; done.
Qed.

(** ** The exclusion test *)

Lemma _flag_passes_filter_Flag fl exclude :
  _flag_passes_filter (VFlag fl) exclude
  = Ok (negb (existsb (Flag_has flags_in_order fl) exclude)).
Proof.
  induction exclude as [|f exclude IH]; [done|]. simpl.
  destruct (Flag_has flags_in_order fl f); [done|]. exact IH.
Qed.

Lemma _flag_passes_filter_not_Flag v exclude :
  (forall fl, v <> VFlag fl) ->
  _flag_passes_filter v exclude
  = match exclude with [] => Ok true | _ => Raise AttributeError end.
Proof.
  intros Hv. destruct exclude as [|f exclude]; [done|]. simpl.
  destruct v as [s|n|x|fl]; try done. by destruct (Hv fl).
Qed.

Lemma existsb_elem_of {A} (f : A -> bool) (l : list A) :
  existsb f l = true <-> exists x, x ∈ l /\ f x = true.
Proof.
  rewrite existsb_exists. split; intros (x & Hx & Hf); exists x;
    (split; [by apply list_elem_of_In|done]).
Qed.

Lemma _flag_passes_filter_same_names v exclude exclude' :
  (forall name, name ∈ exclude <-> name ∈ exclude') ->
  _flag_passes_filter v exclude' = _flag_passes_filter v exclude.
Proof.
  intros Hsame.
  assert (exclude = [] <-> exclude' = []) as Hnil.
  { split; intros ->.
    - destruct exclude' as [|a l]; [done|].
      assert (a ∈ []) as H%elem_of_nil by (apply Hsame; left). done.
    - destruct exclude as [|a l]; [done|].
      assert (a ∈ []) as H%elem_of_nil by (apply Hsame; left). done. }
  destruct v as [s|n|x|fl].
  1-3: rewrite !_flag_passes_filter_not_Flag by done;
       destruct exclude as [|a l], exclude' as [|a' l']; try done;
       [destruct Hnil as [Hn _]; by specialize (Hn eq_refl)
       |destruct Hnil as [_ Hn]; by specialize (Hn eq_refl)].
  rewrite !_flag_passes_filter_Flag. do 2 f_equal.
  apply eq_true_iff_eq. rewrite !existsb_elem_of.
  split; intros (name & Hin & Hhas); exists name; (split; [by apply Hsame|done]).
Qed.

Lemma classify_ext self self' dicts_list : forall b,
  (forall d, _report_dict_passes_essential_filters self' d
             = _report_dict_passes_essential_filters self d) ->
  (forall d, _report_dict_passes_non_essential_filters self' d
             = _report_dict_passes_non_essential_filters self d) ->
  classify self' dicts_list b = classify self dicts_list b.
Proof.
  intros b He Hn. revert b.
  induction dicts_list as [|d l IH]; intros b; [done|]. simpl.
  rewrite He, Hn.
  destruct (_report_dict_passes_essential_filters self d) as [[]|]; simpl;
    [|apply IH|done].
  destruct (_report_dict_passes_non_essential_filters self d) as [[]|]; simpl;
    [apply IH|apply IH|done].
Qed.

(** X5: a row whose flag has one of the names of [exclude_flags] fails the
    essential predicate without its other cells being read: a list of such
    rows is filtered to the empty list whatever the rows hold besides, be
    it ["."] in a numeric column or no ['pc_ident'] at all. *)
Theorem rows_with_an_excluded_flag_are_dropped_unread self dicts_list :
  Forall (fun d => exists fl name,
            d !! "flag" = Some (VFlag fl)
            /\ name ∈ exclude_flags self
            /\ Flag_has flags_in_order fl name = true) dicts_list ->
  Forall (fun d => _report_dict_passes_essential_filters self d = Ok false
                   /\ _report_dict_passes_filters self d = Ok false)
    dicts_list
  /\ _filter_list_of_dicts self dicts_list = Ok [].
Proof.
  intros Hflags.
  assert (Forall (fun d => _report_dict_passes_essential_filters self d = Ok false
                           /\ _report_dict_passes_filters self d = Ok false)
            dicts_list) as Hrej.
  { eapply Forall_impl; [exact Hflags|].
    intros d (fl & name & Hfl & Hin & Hhas).
    assert (_report_dict_passes_essential_filters self d = Ok false) as He.
    { unfold _report_dict_passes_essential_filters, getitem.
      rewrite Hfl. simpl. rewrite _flag_passes_filter_Flag.
      replace (existsb _ _) with true; [done|].
      symmetry. apply existsb_elem_of. eauto. }
    split; [done|]. unfold _report_dict_passes_filters. by rewrite He. }
  split; [done|].
  rewrite _filter_list_of_dicts_spec.
  - unfold selected.
    assert (filter (essential self) dicts_list = []) as Hess.
    { apply filter_none. eapply Forall_impl; [exact Hrej|].
      intros d [He _]. unfold essential. congruence. }
    by rewrite (filter_no_essential _ _ Hess), Hess.
  - eapply Forall_impl; [exact Hrej|]. intros d [_ Hp].
    unfold evaluates. by rewrite Hp.
Qed.

(** X6: the order and the repetitions of the names in [exclude_flags] do
    not matter: two filters that differ only in the list [exclude_flags],
    the two lists having the same members, return the same on every list
    of rows, exceptions included. *)
Theorem exclude_flags_matter_as_a_set self self' dicts_list :
  min_pc_ident self' = min_pc_ident self ->
  min_ref_base_assembled self' = min_ref_base_assembled self ->
  ignore_not_has_known_variant self' = ignore_not_has_known_variant self ->
  (forall name, name ∈ exclude_flags self <-> name ∈ exclude_flags self') ->
  _filter_list_of_dicts self' dicts_list = _filter_list_of_dicts self dicts_list.
Proof.
  intros Hpc Hrb Hig Hsame. unfold _filter_list_of_dicts.
  rewrite (classify_ext self self'); [done| |].
  - intros d. unfold _report_dict_passes_essential_filters.
    rewrite Hpc, Hrb.
    destruct (getitem d "flag") as [fl|]; [|done]. simpl.
    by rewrite (_flag_passes_filter_same_names fl _ _ Hsame).
  - intros d. unfold _report_dict_passes_non_essential_filters. by rewrite Hig.
Qed.

(** ** Thresholds *)

Lemma py_ge_int_mono v a a' :
  a' <= a -> py_ge v (VInt a) = Ok true -> py_ge v (VInt a') = Ok true.
Proof.
  intros Hle. destruct v as [s|x|x|f]; simpl; try done.
  - intros [= H]. f_equal. apply Z.leb_le in H. apply Z.leb_le. lia.
  - intros [= H]. f_equal. revert H. unfold float_compare_int.
    destruct x as [sg|sg| |sg m e]; try done.
    + destruct (Z.compare_spec 0 a), (Z.compare_spec 0 a'); try done; lia.
    + assert (0 < 2 ^ (- e) \/ (0 <=? e) = true) as Hpow.
      { destruct (0 <=? e) eqn:He; [by right|left].
        apply Z.leb_gt in He. apply Z.pow_pos_nonneg; lia. }
      destruct (0 <=? e).
      * destruct (Z.compare_spec ((if sg then Z.neg m else Z.pos m) * 2 ^ e) a),
          (Z.compare_spec ((if sg then Z.neg m else Z.pos m) * 2 ^ e) a');
          try done; lia.
      * destruct Hpow as [Hpow|?]; [|done].
        destruct (Z.compare_spec (if sg then Z.neg m else Z.pos m)
                    (a * 2 ^ (- e))),
          (Z.compare_spec (if sg then Z.neg m else Z.pos m) (a' * 2 ^ (- e)));
          try done; nia.
Qed.

Lemma selected_nonempty self dicts_list :
  selected self dicts_list <> [] <-> Exists (essential self) dicts_list.
Proof.
  rewrite Exists_exists.
  destruct (selected_cases self dicts_list)
    as [[-> Hne]|[[Hnil (d & es & Hess & ->)]|[Hess ->]]].
  - split; [intros _|done].
    destruct (filter (passes self) dicts_list) as [|p ps] eqn:Hp; [done|].
    assert (p ∈ filter (passes self) dicts_list) as Hin by (rewrite Hp; left).
    apply list_elem_of_filter in Hin as [Hpass Hin].
    exists p. split; [done|by apply passes_essential].
  - split; [intros _|done].
    assert (d ∈ filter (essential self) dicts_list) as Hin by (rewrite Hess; left).
    apply list_elem_of_filter in Hin as [He Hin]. eauto.
  - split; [done|]. intros (d & Hin & He).
    assert (d ∈ filter (essential self) dicts_list) as Hd
      by (by apply list_elem_of_filter).
    rewrite Hess in Hd. by apply elem_of_nil in Hd.
Qed.

(** X7: lowering the integer thresholds [min_pc_ident] and
    [min_ref_base_assembled] never loses a row: a row that satisfies the
    essential predicate, or both predicates, under the higher thresholds
    satisfies it under the lower ones, and a list that is not filtered to
    the empty list under the higher thresholds is not under the lower
    ones.  (The predicates of the second filter can be evaluated on the
    rows.) *)
Theorem lower_integer_thresholds_keep_more self self' a a' b b' :
  exclude_flags self' = exclude_flags self ->
  ignore_not_has_known_variant self' = ignore_not_has_known_variant self ->
  min_pc_ident self = VInt a -> min_pc_ident self' = VInt a' -> a' <= a ->
  min_ref_base_assembled self = VInt b ->
  min_ref_base_assembled self' = VInt b' -> b' <= b ->
  (forall d, essential self d -> essential self' d)
  /\ (forall d, passes self d -> passes self' d)
  /\ (forall dicts_list x xs,
        _filter_list_of_dicts self dicts_list = Ok (x :: xs) ->
        Forall (evaluates self') dicts_list ->
        exists y ys, _filter_list_of_dicts self' dicts_list = Ok (y :: ys)).
Proof.
  intros Hex Hig Ha Ha' Hle Hb Hb' Hle'.
  assert (forall d, essential self d -> essential self' d) as Hess.
  { intros d. unfold essential, _report_dict_passes_essential_filters.
    rewrite Hex, Ha, Ha', Hb, Hb'.
    destruct (getitem d "flag") as [fl|]; [|done]. simpl.
    destruct (_flag_passes_filter fl (exclude_flags self)) as [[]|]; [|done|done].
    simpl. destruct (getitem d "pc_ident") as [pc|]; [|done]. simpl.
    destruct (py_ge pc (VInt a)) as [[]|] eqn:H1; [|done|done].
    rewrite (py_ge_int_mono _ _ _ Hle H1). simpl.
    destruct (getitem d "ref_base_assembled") as [rb|]; [|done]. simpl.
    apply py_ge_int_mono. exact Hle'. }
  assert (forall d, passes self d -> passes self' d) as Hpass.
  { intros d [He Hn]%passes_iff. apply passes_iff. split; [by apply Hess|].
    revert Hn. unfold non_essential, _report_dict_passes_non_essential_filters.
    by rewrite Hig. }
  split_and!; [done|done|].
  intros dicts_list x xs Hsel Hev'.
  pose proof (_filter_list_of_dicts_evaluates _ _ _ Hsel) as Hev.
  rewrite _filter_list_of_dicts_spec in Hsel by done. injection Hsel as Hsel.
  rewrite _filter_list_of_dicts_spec by done.
  assert (selected self' dicts_list <> []) as Hne.
  { apply selected_nonempty.
    assert (selected self dicts_list <> []) as H%selected_nonempty
      by (by rewrite Hsel).
    apply Exists_exists in H as (d & Hin & He).
    apply Exists_exists. exists d. split; [done|by apply Hess]. }
  destruct (selected self' dicts_list) as [|y ys]; [done|]. eauto.
Qed.

(** ** What [_filter_dicts] raises *)

Lemma filter_groups_loop_Ok self ks : forall st st',
  NoDup ks ->
  foldM (filter_group self) st ks = Ok st' ->
  forall k l, k ∈ ks -> group st.1 k.1 k.2 = Some l -> Forall (evaluates self) l.
Proof.
  induction ks as [|[r c] ks IH]; intros st st' Hnd Hfold k l Hin Hl.
  { by apply elem_of_nil in Hin. }
  apply NoDup_cons in Hnd as [Hnin Hnd].
  rewrite foldM_cons in Hfold.
  destruct (filter_group self st (r, c)) as [st1|] eqn:Hstep; [|done].
  rewrite bind_Ok in Hfold.
  unfold filter_group, getitem in Hstep. simpl in Hstep.
  destruct (st.1 !! r) as [ctgs|] eqn:Hr; [|done]. simpl in Hstep.
  destruct (ctgs !! c) as [l0|] eqn:Hc; [|done]. simpl in Hstep.
  destruct (_filter_list_of_dicts self l0) as [new_list|] eqn:Hf; [|done].
  simpl in Hstep.
  assert (st1.1 = <[r := <[c := new_list]> ctgs]> st.1) as Hst1.
  { by destruct (length new_list =? 0)%nat; injection Hstep as <-. }
  apply elem_of_cons in Hin as [->|Hin].
  - simpl in Hl. rewrite (group_lookup _ _ _ _ Hr), Hc in Hl.
    injection Hl as <-. by eapply _filter_list_of_dicts_evaluates.
  - apply (IH st1 st' Hnd Hfold k l Hin).
    rewrite Hst1, (group_insert _ _ _ _ _ _ _ Hr).
    rewrite decide_False; [done|].
    destruct k as [r' c']. simpl. intros [= -> ->]. done.
Qed.

Lemma filter_groups_loop_Raise self ks : forall st e,
  NoDup ks ->
  (forall k, k ∈ ks -> is_Some (group st.1 k.1 k.2)) ->
  foldM (filter_group self) st ks = Raise e ->
  exists k l, k ∈ ks /\ group st.1 k.1 k.2 = Some l
              /\ _filter_list_of_dicts self l = Raise e.
Proof.
  induction ks as [|[r c] ks IH]; intros st e Hnd Hks Hfold; [done|].
  apply NoDup_cons in Hnd as [Hnin Hnd].
  rewrite foldM_cons in Hfold.
  destruct (Hks (r, c)) as [l0 Hl0]; [left|]. simpl in Hl0.
  pose proof Hl0 as (ctgs & Hr & Hc)%group_Some.
  destruct (filter_group self st (r, c)) as [st1|e1] eqn:Hstep.
  - rewrite bind_Ok in Hfold.
    unfold filter_group, getitem in Hstep. simpl in Hstep.
    rewrite Hr in Hstep. simpl in Hstep. rewrite Hc in Hstep. simpl in Hstep.
    destruct (_filter_list_of_dicts self l0) as [new_list|] eqn:Hf; [|done].
    simpl in Hstep.
    assert (st1.1 = <[r := <[c := new_list]> ctgs]> st.1) as Hst1.
    { by destruct (length new_list =? 0)%nat; injection Hstep as <-. }
    assert (forall k, k ∈ ks -> group st1.1 k.1 k.2 = group st.1 k.1 k.2) as Hsame.
    { intros [r' c'] Hin. rewrite Hst1, (group_insert _ _ _ _ _ _ _ Hr).
      rewrite decide_False; [done|]. simpl. intros [= -> ->]. done. }
    destruct (IH st1 e Hnd) as (k & l & Hin & Hl & Hraise); [|done|].
    { intros k Hin. rewrite (Hsame k Hin). apply Hks. by right. }
    exists k, l. split_and!; [by right| |done]. by rewrite <- (Hsame k Hin).
  - simpl in Hfold. injection Hfold as <-.
    unfold filter_group, getitem in Hstep. simpl in Hstep.
    rewrite Hr in Hstep. simpl in Hstep. rewrite Hc in Hstep. simpl in Hstep.
    destruct (_filter_list_of_dicts self l0) as [new_list|e2] eqn:Hf.
    + simpl in Hstep. by destruct (length new_list =? 0)%nat.
    + simpl in Hstep. injection Hstep as <-.
      exists (r, c), l0. split_and!; [left|done|done].
Qed.

Lemma _filter_dicts_Ok self (m m' : Collection) :
  _filter_dicts self m = Ok m' ->
  all_rows (evaluates self) m /\ m' = filtered self m.
Proof.
  intros Hf.
  assert (all_rows (evaluates self) m) as Hev.
  { unfold _filter_dicts in Hf.
    destruct (foldM (filter_group self) _ _) as [st|] eqn:Hst; [|done].
    apply all_rows_group. intros r c l Hl.
    apply (filter_groups_loop_Ok self _ _ _ (NoDup_group_keys _) Hst (r, c) l);
      [|done].
    apply elem_of_group_keys. simpl. eauto. }
  split; [done|]. rewrite _filter_dicts_spec in Hf by done. by injection Hf.
Qed.

(** X8: [_filter_dicts] returns exactly when the predicates can be
    evaluated on every row of the report; an exception that it raises is
    the exception that [_filter_list_of_dicts] raises on one of the groups,
    raised by the predicates on a row of that group, and never the
    [KeyError] of one of its [del] statements. *)
Theorem filter_dicts_raises_what_a_row_raises self
    (self_report : Collection) :
  (is_Ok (_filter_dicts self self_report)
   <-> all_rows (evaluates self) self_report)
  /\ forall e, _filter_dicts self self_report = Raise e ->
       exists ref_name ctg_name l d,
         group self_report ref_name ctg_name = Some l
         /\ _filter_list_of_dicts self l = Raise e
         /\ d ∈ l /\ _report_dict_passes_filters self d = Raise e.
Proof.
  split; [split|].
  - intros [report' Hf]%is_Ok_eq. by apply _filter_dicts_Ok in Hf as [? _].
  - intros Hev. by rewrite _filter_dicts_spec.
  - intros e Hraise.
    destruct (foldM (filter_group self) (self_report, ∅)
                (group_keys self_report)) as [st|e1] eqn:Hst.
    { assert (all_rows (evaluates self) self_report) as Hev.
      { apply all_rows_group. intros r c l Hl.
        apply (filter_groups_loop_Ok self _ _ _ (NoDup_group_keys _) Hst
                 (r, c) l); [|done].
        apply elem_of_group_keys. simpl. eauto. }
      rewrite _filter_dicts_spec in Hraise by done. done. }
    unfold _filter_dicts in Hraise. rewrite Hst in Hraise.
    simpl in Hraise. injection Hraise as <-.
    apply filter_groups_loop_Raise in Hst as ([r c] & l & Hin & Hl & Hf);
      [|apply NoDup_group_keys|].
    + simpl in Hl.
      pose proof Hf as Hf'.
      apply _filter_list_of_dicts_Raise in Hf'
        as (before & d & after & -> & _ & Hd).
      exists r, c, (before ++ d :: after), d. split_and!; [done|done| |done].
      apply elem_of_app. right. left.
    + intros [r c] Hin. by apply elem_of_group_keys.
Qed.

(** ** [_filter_dicts], group by group *)

(** X9: [_filter_dicts] filters every group on its own: when it returns,
    the group of a reference name and a contig name in the report that it
    leaves is what [_filter_list_of_dicts] returns on the group that the
    report had, and there is no such group when that list is empty; a
    reference name is left in the report exactly when one of its groups is
    left, or when it had no group at all. *)
Theorem filter_dicts_filters_each_group_on_its_own self
    (self_report report' : Collection) :
  _filter_dicts self self_report = Ok report' ->
  (forall ref_name ctg_name,
     group report' ref_name ctg_name
     = match group self_report ref_name ctg_name with
       | Some l =>
           match _filter_list_of_dicts self l with
           | Ok (d :: rest) => Some (d :: rest)
           | _ => None
           end
       | None => None
       end)
  /\ (forall ref_name,
        is_Some (report' !! ref_name)
        <-> self_report !! ref_name = Some ∅
            \/ exists ctg_name, is_Some (group report' ref_name ctg_name)).
Proof.
  intros Hf. apply _filter_dicts_Ok in Hf as [Hev ->].
  pose proof (proj1 (all_rows_group _ _) Hev) as Hev'.
  split.
  - intros r c. rewrite group_filtered.
    destruct (group self_report r c) as [l|] eqn:Hl; [|done]. simpl.
    rewrite _filter_list_of_dicts_spec by (by eapply Hev').
    by destruct (selected self l).
  - intros r. rewrite filtered_ref. split.
    + intros (ctgs & Hr & Hkeep).
      destruct (decide (ctgs = ∅)) as [->|Hne]; [by left|]. right.
      destruct (decide (select_groups self ctgs = ∅)) as [Hempty|Hsome].
      { destruct Hkeep. by split. }
      destruct (map_choose _ Hsome) as (c & l' & Hc). exists c.
      unfold group, filtered. rewrite lookup_omap, Hr. simpl.
      rewrite decide_False by (by intros [? _]).
      simpl. by rewrite Hc.
    + intros [Hr|[c [l' Hl']]].
      * exists ∅. split; [done|]. by intros [_ ?].
      * unfold group, filtered in Hl'. rewrite lookup_omap in Hl'.
        destruct (self_report !! r) as [ctgs|] eqn:Hr; [|done].
        exists ctgs. split; [done|]. intros [Hempty Hne].
        simpl in Hl'. rewrite decide_True in Hl' by done. done.
Qed.


(** ** The loader: what a loaded report holds *)

Lemma load_lines_parsed lines : forall m m',
  load_lines lines false m = Ok m' ->
  exists rows,
    Forall2 (fun line d => _report_line_to_dict (rstrip line) = Ok (Some d))
      lines rows
    /\ Forall (fun d => d !! "ref_name" = Some (VStr (ref_of d))
                        /\ d !! "ctg" = Some (VStr (ctg_of d))) rows
    /\ m' = load_rows rows m.
Proof.
  induction lines as [|line lines IH]; intros m m'.
  - simpl. intros [= <-]. exists []. by split_and!.
  - intros H. apply load_lines_data in H as (d & r & c & Hd & Hr & Hc & Hrest).
    apply IH in Hrest as (rows & Hrows & Hkeys & ->).
    assert (ref_of d = r) as Href by (unfold ref_of; by rewrite Hr).
    assert (ctg_of d = c) as Hctg by (unfold ctg_of; by rewrite Hc).
    exists (d :: rows). split_and!.
    + by constructor.
    + constructor; [|done]. by rewrite Href, Hctg.
    + by rewrite load_rows_cons, Href, Hctg.
Qed.

Lemma filter_ext_Forall {A} (P Q : A -> Prop)
    `{!forall x, Decision (P x)} `{!forall x, Decision (Q x)} (l : list A) :
  Forall (fun x => P x <-> Q x) l -> filter P l = filter Q l.
Proof.
  induction 1 as [|x l Hx _ IH]; [done|].
  rewrite !filter_cons, IH.
  destruct (decide (P x)) as [Hp|Hp].
  - by rewrite decide_True by (by apply Hx).
  - rewrite decide_False; [done|]. intros ?. by apply Hp, Hx.
Qed.

Lemma _load_report_header first lines m :
  _load_report (first :: lines) = Ok m ->
  rstrip first = expected_first_line /\ load_lines lines false ∅ = Ok m.
Proof.
  unfold _load_report. cbn [load_lines].
  destruct (String.eqb (rstrip first) expected_first_line) eqn:Hfirst;
    [|done].
  apply String.eqb_eq in Hfirst. cbn [negb]. by intros Hload.
Qed.

(** X10: the groups of a loaded report are the rows of the data lines in
    the order of the file: the load succeeds only when the first line is,
    up to trailing white space, the expected header and every other line
    is parsed into a row; the group of a reference name and a contig name
    then holds the rows that carry these two names, in the order of their
    lines, and there is no group of a pair of names that no row carries. *)
Theorem loaded_groups_are_the_rows_in_file_order first lines
    (self_report : Collection) :
  _load_report (first :: lines) = Ok self_report ->
  rstrip first = expected_first_line
  /\ exists rows,
       Forall2 (fun line d => _report_line_to_dict (rstrip line) = Ok (Some d))
         lines rows
       /\ (forall ref_name ctg_name,
             group self_report ref_name ctg_name
             = match filter (fun d => d !! "ref_name" = Some (VStr ref_name)
                                      /\ d !! "ctg" = Some (VStr ctg_name)) rows
               with
               | [] => None
               | l => Some l
               end)
       /\ (forall ref_name,
             is_Some (self_report !! ref_name)
             <-> Exists (fun d => d !! "ref_name" = Some (VStr ref_name)) rows).
Proof.
  intros Hload. apply _load_report_header in Hload as [Hfirst Hload].
  split; [done|].
  apply load_lines_parsed in Hload as (rows & Hrows & Hkeys & ->).
  exists rows. split_and!; [done| |].
  - intros r c. rewrite group_load_rows, group_empty.
    rewrite (filter_ext_Forall
               (fun d => d !! "ref_name" = Some (VStr r)
                         /\ d !! "ctg" = Some (VStr c))
               (fun d => ref_of d = r /\ ctg_of d = c)).
    + by destruct (filter _ rows).
    + eapply Forall_impl; [exact Hkeys|]. intros d [Hr Hc]. simpl.
      rewrite Hr, Hc. split.
      * by intros [[= ->] [= ->]].
      * by intros [-> ->].
  - intros r. rewrite ref_load_rows, lookup_empty. split.
    + intros [[? [=]]|Hex]. apply Exists_exists in Hex as (d & Hin & <-).
      apply Exists_exists. exists d. split; [done|].
      eapply Forall_forall in Hkeys as [Hr _]; [|exact Hin]. done.
    + intros Hex. right. apply Exists_exists in Hex as (d & Hin & Hd).
      apply Exists_exists. exists d. split; [done|].
      unfold ref_of. by rewrite Hd.
Qed.

(** X11: the loader returns the empty report exactly on a file without any
    line, for which it does not ask for a header, and on a file whose only
    line is the header. *)
Theorem loaded_report_is_empty_iff_no_data_line infile :
  _load_report infile = Ok ∅
  <-> infile = []
      \/ exists first, infile = [first] /\ rstrip first = expected_first_line.
Proof.
  split.
  - destruct infile as [|first lines]; [by left|]. intros Hload. right.
    apply _load_report_header in Hload as [Hfirst Hload].
    exists first. split; [|done]. f_equal.
    destruct lines as [|line lines]; [done|]. exfalso.
    apply load_lines_parsed in Hload as (rows & Hrows & _ & Hm).
    apply Forall2_cons_inv_l in Hrows as (d & rows' & _ & _ & ->).
    assert (is_Some ((∅ : Collection) !! ref_of d)) as [? Hsome].
    { rewrite Hm. apply ref_load_rows. right. by left. }
    by rewrite lookup_empty in Hsome.
  - intros [->|(first & -> & Hfirst)]; [done|].
    unfold _load_report. cbn [load_lines].
    by rewrite Hfirst, String.eqb_refl.
Qed.

(** ** The flag cell *)

Lemma coerce_loop_rejected conv ks : forall d d' k s,
  ~ is_Ok (conv (VStr s)) ->
  foldM (coerce conv) d ks = Ok d' ->
  d !! k = Some (VStr s) -> d' !! k = Some (VStr s).
Proof.
  induction ks as [|k0 ks IH]; intros d d' k s Hrej; simpl.
  - by intros [= <-].
  - destruct (coerce conv d k0) as [d1|] eqn:H1; simpl; [|done].
    intros H Hk. apply (IH _ _ _ _ Hrej H).
    apply coerce_Ok in H1 as (v & Hv & [(x & Hx & ->)|(_ & _ & ->)]); [|done].
    destruct (decide (k = k0)) as [->|Hne].
    + rewrite Hv in Hk. injection Hk as ->. destruct Hrej. by rewrite Hx.
    + by rewrite lookup_insert_ne.
Qed.

(** X12: the flag is read by [int] outside of any [try]: a data line with
    the right number of columns whose flag cell is not a number for [int]
    or [float], the ["."] of the numeric columns included, is never
    parsed into a row.  [_report_line_to_dict] raises [ValueError], unless
    one of the two loops over the numeric columns has raised
    [AssertionError] before, and the load ends with that exception. *)
Theorem flag_cell_must_be_a_number raw s :
  let line := rstrip raw in
  length (split tab line) = length (columns report) ->
  Forall (fun k => k ∈ columns report)
    (int_columns report ++ float_columns report) ->
  dict_zip (columns report) (split tab line) !! "flag" = Some (VStr s) ->
  int_of_str s = None -> float_of_str s = None ->
  exists e,
    (e = ValueError \/ e = AssertionError)
    /\ _report_line_to_dict line = Raise e
    /\ forall f m, load_lines (raw :: f) false m = Raise e.
Proof.
  intros line Hlen Hcols Hcell Hint Hfloat.
  assert (~ is_Ok (conv_int (VStr s))) as Hrej1.
  { rewrite conv_int_VStr, Hint. by intros [? [=]]. }
  assert (~ is_Ok (conv_float (VStr s))) as Hrej2.
  { rewrite conv_float_VStr, Hfloat. by intros [? [=]]. }
  apply Forall_app in Hcols as [Hints Hfloats].
  assert (exists e, (e = ValueError \/ e = AssertionError)
                    /\ _report_line_to_dict line = Raise e) as (e & He & Hraise).
  { rewrite _report_line_to_dict_eq by done.
    destruct (coerce_loop_total conv_int (int_columns report)
                (dict_zip (columns report) (split tab line))) as [H1|H1].
    { eapply Forall_impl; [exact Hints|]. intros k Hk. by apply dict_zip_dom. }
    { exists AssertionError. split; [by right|]. by rewrite H1. }
    destruct (foldM (coerce conv_int) _ _) as [d1|] eqn:Hd1; [|done].
    rewrite bind_Ok.
    destruct (coerce_loop_total conv_float (float_columns report) d1) as [H2|H2].
    { eapply Forall_impl; [exact Hfloats|]. intros k Hk. simpl.
      apply (coerce_loop_dom _ _ _ _ _ Hd1). by apply dict_zip_dom. }
    { exists AssertionError. split; [by right|]. by rewrite H2. }
    destruct (foldM (coerce conv_float) _ _) as [d2|] eqn:Hd2; [|done].
    rewrite bind_Ok.
    pose proof (coerce_loop_rejected _ _ _ _ _ _ Hrej1 Hd1 Hcell) as Hc1.
    pose proof (coerce_loop_rejected _ _ _ _ _ _ Hrej2 Hd2 Hc1) as Hc2.
    exists ValueError. split; [by left|].
    unfold getitem. rewrite Hc2. simpl. by rewrite Hint. }
  exists e. split_and!; [done|done|].
  intros f m. cbn [load_lines]. fold line. by rewrite Hraise.
Qed.

(** ** Trailing white space *)

Lemma split_length_cons sep c s :
  length (split sep (String c s))
  = if Ascii.eqb c sep then S (length (split sep s)) else length (split sep s).
Proof.
  cbn [split]. destruct (Ascii.eqb c sep); [done|].
  pose proof (split_not_nil sep s). by destruct (split sep s).
Qed.

Lemma split_length_pos sep s : (0 < length (split sep s))%nat.
Proof.
  pose proof (split_not_nil sep s). destruct (split sep s); [done|simpl; lia].
Qed.

Lemma split_rstrip_length sep s :
  (length (split sep (rstrip s)) <= length (split sep s))%nat.
Proof.
  induction s as [|c s IH]; [done|]. cbn [rstrip].
  destruct (is_space c && is_empty (rstrip s)).
  - apply (split_length_pos sep (String c s)).
  - rewrite !split_length_cons. destruct (Ascii.eqb c sep); lia.
Qed.

(** X13: [_load_report] strips every line on the right before it splits
    it, so that a data line whose last cell is empty or white space has
    lost that cell, and the tab before it, when its columns are counted: a
    line of as many cells as the report has columns, two at least, is then
    rejected for its number of columns, with the [NameError] of that
    branch. *)
Theorem line_with_an_empty_last_cell_is_rejected
    first before init cell after m :
  rstrip first = expected_first_line ->
  load_lines before false ∅ = Ok m ->
  init <> [] -> Forall (fun x => no_char tab x = true) init ->
  length (init ++ [cell]) = length (columns report) ->
  rstrip cell = EmptyString ->
  _report_line_to_dict (rstrip (join tab (init ++ [cell]))) = Ok None
  /\ _load_report (first :: before ++ join tab (init ++ [cell]) :: after)
     = Raise (NameError "data").
Proof.
  intros Hfirst Hbefore Hinit Htabs Hlen Hcell.
  assert (length (split tab (rstrip (join tab (init ++ [cell]))))
          <> length (columns report)) as Hcount.
  { rewrite join_snoc by done.
    rewrite rstrip_app_empty by (cbn [rstrip]; by rewrite Hcell).
    pose proof (split_rstrip_length tab (join tab init)) as Hle.
    rewrite split_join in Hle by done.
    rewrite length_app in Hlen. simpl in Hlen. lia. }
  split.
  - unfold _report_line_to_dict. apply Nat.eqb_neq in Hcount.
    by rewrite Hcount.
  - unfold _load_report. cbn [load_lines].
    rewrite Hfirst, String.eqb_refl. cbn [negb].
    rewrite load_lines_app, Hbefore, bind_Ok.
    by apply load_lines_wrong_column_count.
Qed.

(** X14: the loader sees a line only up to its trailing white space: two
    files whose lines agree once stripped on the right load alike, to the
    same report or with the same exception. *)
Theorem load_ignores_trailing_white_space infile infile' :
  Forall2 (fun line line' => rstrip line = rstrip line') infile infile' ->
  _load_report infile' = _load_report infile.
Proof.
  unfold _load_report. generalize (∅ : Collection). generalize true.
  intros first_line m Hlines. revert first_line m.
  induction Hlines as [|line line' f f' Hline _ IH]; intros first_line m;
    [done|].
  cbn [load_lines]. rewrite Hline. destruct first_line.
  - destruct (negb _); [done|]. apply IH.
  - destruct (_report_line_to_dict (rstrip line')) as [[d|]|]; simpl;
      [|done|done].
    destruct (getitem d "ref_name") as [v1|]; simpl; [|done].
    destruct (getitem d "ctg") as [v2|]; simpl; [|done].
    destruct (dict_key v1) as [r|]; simpl; [|done].
    destruct (dict_key v2) as [c|]; simpl; [|done].
    apply IH.
Qed.

(** ** The two writers *)

Lemma bind_assoc {A B C} (m : result A) (f : A -> result B) (g : B -> result C) :
  (m ≫= f) ≫= g = m ≫= fun a => f a ≫= g.
Proof. by destruct m. Qed.

Lemma bind_ext {A B} (m : result A) (f g : A -> result B) :
  (forall a, f a = g a) -> m ≫= f = m ≫= g.
Proof. intros H. destruct m; [apply H|done]. Qed.

Lemma result_map_ext {A B} (f g : A -> result B) l :
  (forall x, x ∈ l -> f x = g x) -> result_map f l = result_map g l.
Proof.
  induction l as [|x l IH]; intros H; [done|].
  cbn [result_map]. rewrite (H x) by left.
  rewrite IH; [done|]. intros y Hy. apply H. by right.
Qed.

Lemma result_map_fmap {A B C} (f : B -> result C) (g : A -> B) l :
  result_map f (g <$> l) = result_map (fun x => f (g x)) l.
Proof.
  induction l as [|x l IH]; [done|].
  rewrite fmap_cons. cbn [result_map]. by rewrite IH.
Qed.

Lemma result_map_app {A B} (f : A -> result B) l1 l2 :
  result_map f (l1 ++ l2)
  = ys1 ← result_map f l1; ys2 ← result_map f l2; Ok (ys1 ++ ys2).
Proof.
  induction l1 as [|x l1 IH].
  - simpl. by destruct (result_map f l2).
  - change ((x :: l1) ++ l2) with (x :: (l1 ++ l2)). cbn [result_map].
    rewrite IH. destruct (f x) as [y|]; [|done]. rewrite !bind_Ok.
    destruct (result_map f l1) as [ys1|]; [|done]. rewrite !bind_Ok.
    by destruct (result_map f l2).
Qed.

Lemma result_map_concat {A B} (f : A -> result B) ls :
  result_map f (concat ls)
  = rs ← result_map (result_map f) ls; Ok (concat rs).
Proof.
  induction ls as [|l ls IH]; [done|].
  cbn [concat result_map]. rewrite result_map_app, IH.
  destruct (result_map f l) as [ys|]; [|done]. rewrite !bind_Ok.
  by destruct (result_map (result_map f) ls).
Qed.





(** The three nested loops of the writers visit the rows of the report in
    the order of [report_rows]. *)
Lemma write_loops_rows {B} (f : dict -> result B) (m : Collection) :
  (rows ← result_map
     (fun ref_name =>
        ctgs ← getitem m ref_name;
        lines ← result_map
          (fun item : string * list dict => result_map f item.2)
          (sorted_items ctgs);
        Ok (concat lines))
     (sorted_keys m);
   Ok (concat rows))
  = result_map f (report_rows m).
Proof.
  unfold report_rows. rewrite result_map_concat, result_map_fmap.
  f_equal. apply result_map_ext. intros r [ctgs Hr]%elem_of_sorted_keys.
  unfold getitem. rewrite Hr. simpl.
  by rewrite result_map_concat, result_map_fmap.
Qed.

Lemma _write_report_tsv_eq (m : Collection) :
  _write_report_tsv m
  = lines ← result_map _dict_to_report_line (report_rows m);
    Ok (expected_first_line :: lines).
Proof.
  unfold _write_report_tsv. rewrite <- write_loops_rows, bind_assoc.
  apply bind_ext. intros rows. done.
Qed.











(** ** The order of the written rows *)

Lemma str_le_refl a : str_le a a.
Proof.
  unfold str_le. destruct (String.leb_total a a); done.
Qed.

Lemma str_le_trans a b c : str_le a b -> str_le b c -> str_le a c.
Proof.
  unfold str_le, String.leb.
  revert b c. induction a as [|x a IH]; intros [|y b] [|z c];
    cbn [String.compare]; try done.
  unfold Ascii.compare.
  destruct (N.compare_spec (N_of_ascii x) (N_of_ascii y)),
    (N.compare_spec (N_of_ascii y) (N_of_ascii z)),
    (N.compare_spec (N_of_ascii x) (N_of_ascii z)); try done; try lia.
  apply IH.
Qed.

Lemma StronglySorted_sorted_keys {A} (m : gmap string A) :
  StronglySorted str_le (sorted_keys m).
Proof.
  unfold sorted_keys. apply StronglySorted_merge_sort.
  - intros a b c. apply str_le_trans.
  - intros a b. apply String.leb_total.
Qed.

Lemma StronglySorted_sorted_items {A} (m : gmap string A) :
  StronglySorted key_le (sorted_items m).
Proof.
  unfold sorted_items. apply StronglySorted_merge_sort.
  - intros a b c. apply str_le_trans.
  - intros a b. apply String.leb_total.
Qed.

Lemma StronglySorted_concat {K A} (S : relation K) (R : relation A)
    (f : K -> list A) ks :
  NoDup ks -> StronglySorted S ks ->
  (forall k, k ∈ ks -> StronglySorted R (f k)) ->
  (forall k k' x y, k ∈ ks -> k' ∈ ks -> k <> k' -> S k k' ->
     x ∈ f k -> y ∈ f k' -> R x y) ->
  StronglySorted R (concat (f <$> ks)).
Proof.
  induction ks as [|k ks IH]; intros Hnd Hks Hblocks Hcross; [constructor|].
  apply NoDup_cons in Hnd as [Hk Hnd].
  apply StronglySorted_cons in Hks as [Hhead Hks].
  rewrite fmap_cons. cbn [concat]. apply StronglySorted_app_2.
  - intros x y Hx (l & Hl & Hy)%elem_of_concat.
    apply list_elem_of_fmap in Hl as (k' & -> & Hk').
    apply (Hcross k k'); [left|by right|by intros ->| |done|done].
    by eapply Forall_forall in Hhead.
  - apply Hblocks. left.
  - apply IH; [done|done| |].
    + intros k' Hk'. apply Hblocks. by right.
    + intros k1 k2 x y H1 H2. apply Hcross; by right.
Qed.

Lemma filed_by_name_keyed (m : Collection) : filed_by_name m <-> keyed m.
Proof.
  unfold filed_by_name, keyed. split.
  - intros H r c l (ctgs & Hr & Hc)%group_Some. exact (H r ctgs Hr c l Hc).
  - intros H r ctgs Hr c l Hc. apply (H r c l). apply group_Some. eauto.
Qed.

Lemma StronglySorted_report_rows (m : Collection) :
  keyed m -> StronglySorted written_before (report_rows m).
Proof.
  intros Hkeyed. unfold report_rows.
  assert (forall r c l d, group m r c = Some l -> d ∈ l ->
            ref_of d = r /\ ctg_of d = c) as Hnames.
  { intros r c l d Hl Hd. pose proof (Hkeyed r c l Hl) as Hall.
    eapply Forall_forall in Hall as [Hr Hc]; [|exact Hd].
    unfold ref_of, ctg_of. by rewrite Hr, Hc. }
  apply (StronglySorted_concat str_le).
  - apply NoDup_sorted_keys.
  - apply StronglySorted_sorted_keys.
  - intros r [ctgs Hr]%elem_of_sorted_keys. rewrite Hr. simpl.
    apply (StronglySorted_concat key_le).
    + apply NoDup_sorted_items.
    + apply StronglySorted_sorted_items.
    + intros [c l] Hc%elem_of_sorted_items. simpl.
      assert (group m r c = Some l) as Hl by (apply group_Some; eauto).
      assert (Forall (fun d => ref_of d = r /\ ctg_of d = c) l) as Hall.
      { apply Forall_forall. intros d Hd. by eapply Hnames. }
      clear -Hall. induction Hall as [|d l [Hd1 Hd2] Hall IH]; constructor.
      * done.
      * eapply Forall_impl; [exact Hall|]. intros d' [Hd1' Hd2'].
        unfold written_before. rewrite Hd1, Hd2, Hd1', Hd2'.
        split; [apply str_le_refl|]. intros _. apply str_le_refl.
    + intros [c l] [c' l'] d d' Hc%elem_of_sorted_items Hc'%elem_of_sorted_items
        _ Hle Hd Hd'. simpl in *.
      destruct (Hnames r c l d) as [E1 E2]; [apply group_Some; eauto|done|].
      destruct (Hnames r c' l' d') as [E3 E4]; [apply group_Some; eauto|done|].
      unfold written_before. rewrite E1, E2, E3, E4.
      split; [apply str_le_refl|]. intros _. exact Hle.
  - intros r r' d d' [ctgs Hr]%elem_of_sorted_keys
      [ctgs' Hr']%elem_of_sorted_keys Hne Hle.
    rewrite Hr, Hr'. simpl.
    intros (l & Hl & Hd)%elem_of_concat (l' & Hl' & Hd')%elem_of_concat.
    apply list_elem_of_fmap in Hl as ([c l0] & -> & Hc%elem_of_sorted_items).
    apply list_elem_of_fmap in Hl' as ([c' l0'] & -> & Hc'%elem_of_sorted_items).
    simpl in *.
    destruct (Hnames r c l0 d) as [E1 E2]; [apply group_Some; eauto|done|].
    destruct (Hnames r' c' l0' d') as [E3 E4]; [apply group_Some; eauto|done|].
    unfold written_before. rewrite E1, E3.
    split; [done|]. intros Heq. by destruct Hne.
Qed.

(** X17: the lines that [_write_report_tsv] writes after the header are
    the lines of the rows of the report sorted by reference name, then by
    contig name, in the order of [str]; the sort is stable: the rows of a
    group are written in their order in the group.  (Every row is filed
    under its own reference name and contig name, as in a loaded
    report.) *)
Theorem tsv_rows_are_sorted_by_reference_then_contig
    (self_report : Collection) outfile :
  filed_by_name self_report ->
  _write_report_tsv self_report = Ok outfile ->
  exists rows,
    Forall2 (fun d line => _dict_to_report_line d = Ok line) rows (tail outfile)
    /\ StronglySorted written_before rows
    /\ (forall d, d ∈ rows <->
          exists ref_name ctg_name l,
            group self_report ref_name ctg_name = Some l /\ d ∈ l)
    /\ (forall ref_name ctg_name l,
          group self_report ref_name ctg_name = Some l ->
          filter (fun d => ref_of d = ref_name /\ ctg_of d = ctg_name) rows = l).
Proof.
  intros Hfiled%filed_by_name_keyed Hwrite.
  exists (report_rows self_report). split_and!.
  - rewrite _write_report_tsv_eq in Hwrite.
    destruct (result_map _ (report_rows self_report)) as [lines|] eqn:Hlines;
      [|done].
    rewrite bind_Ok in Hwrite. injection Hwrite as <-. simpl.
    clear -Hlines. revert lines Hlines.
    induction (report_rows self_report) as [|d l IH]; intros lines.
    + intros [= <-]. constructor.
    + cbn [result_map].
      destruct (_dict_to_report_line d) as [line|] eqn:Hline; [|done].
      rewrite bind_Ok.
      destruct (result_map _ l) as [ls|]; [|done]. rewrite bind_Ok.
      intros [= <-]. constructor; [done|]. by apply IH.
  - by apply StronglySorted_report_rows.
  - intros d. apply elem_of_report_rows.
  - intros r c l Hl. rewrite filter_report_rows by done. by rewrite Hl.
Qed.

(** ** A row, printed and parsed *)

(** X18: a row that [_report_line_to_dict] has parsed is printed by
    [_dict_to_report_line] as a line that [rstrip] leaves alone and that
    is parsed back into the same row.  (For tables of [ariba.report] that
    satisfy [schema_ok]; the line is one that [rstrip] has returned; [str]
    and [float] are such that every float of the row is printed without
    white space and read back as itself, and [float] rejects ["."].) *)
Theorem parsed_row_is_printed_and_parsed_back line d :
  schema_ok ->
  float_of_str "." = None ->
  rstrip line = line ->
  _report_line_to_dict line = Ok (Some d) ->
  map_Forall (fun _ => float_ok) d ->
  exists line',
    _dict_to_report_line d = Ok line'
    /\ rstrip line' = line'
    /\ _report_line_to_dict line' = Ok (Some d).
Proof.
  intros Hs Hfdot Hfix Hparse Hfloats.
  pose proof (loaded_row_shape _ _ Hs Hfix Hparse) as Hshape.
  exists (row_line d). split_and!.
  - by apply _dict_to_report_line_row.
  - by apply row_line_rstrip.
  - by apply row_round_trip.
Qed.

(** ** [run] *)




(** X20: running again changes nothing: after a [run] that returns, a
    second [run] with the same prefix returns the same report and leaves
    every file as the first left it.  (The columns read by the essential
    predicate are not variant columns.) *)
Theorem running_again_changes_nothing self
    (self_report report' : Collection) outprefix
    (files files' : gmap string file) :
  Forall (fun key => key ∉ var_columns report) essential_columns ->
  run self self_report outprefix files = Ok (report', files') ->
  run self report' outprefix files' = Ok (report', files').
Proof.
  intros Hcols. unfold run.
  destruct (_filter_dicts self self_report) as [report1|] eqn:Hf; [|done].
  rewrite bind_Ok.
  destruct (_write_report_xls report1) as [sheet|] eqn:Hxls; [|done].
  rewrite bind_Ok. cbv zeta.
  destruct (_write_report_tsv report1) as [outfile|] eqn:Htsv; [|done].
  rewrite bind_Ok. intros [= <- <-].
  apply _filter_dicts_Ok in Hf as [Hev ->].
  rewrite _filter_dicts_spec by (by apply all_rows_filtered).
  rewrite filtered_idemp by done. rewrite bind_Ok, Hxls, bind_Ok. cbv zeta.
  rewrite Htsv, bind_Ok. do 2 f_equal.
  assert (outprefix +:+ ".tsv" <> outprefix +:+ ".xls") as Hne.
  { intros H%string_app_inv_head. discriminate. }
  apply map_eq. intros path.
  destruct (decide (path = outprefix +:+ ".tsv")) as [->|H1].
  { by rewrite !lookup_insert_eq. }
  rewrite (lookup_insert_ne _ (outprefix +:+ ".tsv")) by done.
  destruct (decide (path = outprefix +:+ ".xls")) as [->|H2].
  { rewrite lookup_insert_eq. rewrite lookup_insert_ne by done.
    by rewrite lookup_insert_eq. }
  by rewrite !lookup_insert_ne.
Qed.

(** X21: a row whose flag passes the exclusion test and whose ['pc_ident']
    cell is a string, as the ["."] that the loader keeps there, makes
    [_filter_dicts], and [run] with it, raise before anything is
    written, whatever the other rows of the report are. *)
Theorem undetermined_identity_aborts_run self
    (self_report : Collection) outprefix (files : gmap string file)
    ref_name ctg_name l d fl s :
  group self_report ref_name ctg_name = Some l -> d ∈ l ->
  d !! "flag" = Some fl ->
  _flag_passes_filter fl (exclude_flags self) = Ok true ->
  d !! "pc_ident" = Some (VStr s) ->
  (forall y, min_pc_ident self <> VStr y) ->
  _report_dict_passes_essential_filters self d = Raise TypeError
  /\ exists e,
       _filter_dicts self self_report = Raise e
       /\ run self self_report outprefix files = Raise e.
Proof.
  intros Hl Hd Hfl Hpass Hpc Hmin.
  assert (_report_dict_passes_essential_filters self d = Raise TypeError) as He.
  { unfold _report_dict_passes_essential_filters, getitem.
    rewrite Hfl. simpl. rewrite Hpass. simpl. rewrite Hpc. simpl.
    destruct (min_pc_ident self) as [y| | |] eqn:Hm;
      [by destruct (Hmin y)|done|done|done]. }
  split; [done|].
  destruct (_filter_dicts self self_report) as [report'|e] eqn:Hf.
  - exfalso. apply _filter_dicts_Ok in Hf as [Hev _].
    pose proof (proj1 (all_rows_group _ _) Hev _ _ _ Hl) as Hall.
    eapply Forall_forall in Hall; [|exact Hd].
    unfold evaluates, _report_dict_passes_filters in Hall.
    by rewrite He in Hall.
  - exists e. split; [done|]. unfold run. by rewrite Hf.
Qed.

(** ** From a file to the files *)

Lemma good_report_is_read_back (m : Collection) :
  schema_ok ->
  float_of_str "." = None ->
  all_groups row_good m ->
  (forall r, m !! r <> Some ∅) -> (forall r c, group m r c <> Some []) ->
  _write_report_tsv m = Ok (expected_first_line :: (row_line <$> report_rows m))
  /\ _load_report (expected_first_line :: (row_line <$> report_rows m)) = Ok m.
Proof.
  intros Hs Hfdot Hgood Hrefs Hgroups. split.
  - apply _write_report_tsv_rows. apply all_rows_group. intros r c l Hl.
    eapply Forall_impl; [exact (Hgood r c l Hl)|]. by intros d [? _].
  - unfold _load_report. cbn [load_lines].
    destruct Hs as (? & ? & ? & ? & Hhead). rewrite Hhead, String.eqb_refl.
    cbn [negb]. rewrite load_lines_rows.
    + f_equal. apply load_report_rows; [|done|done].
      intros r c l Hl. eapply Forall_impl; [exact (Hgood r c l Hl)|].
      by intros d (_ & _ & ? & ?).
    + done.
    + done.
    + apply Forall_forall.
      intros d (r & c & l & Hl & Hd)%elem_of_report_rows. exists r, c.
      pose proof (Hgood r c l Hl) as Hall. by eapply Forall_forall in Hall.
Qed.

Lemma loaded_rows_good infile (m : Collection) :
  schema_ok ->
  _load_report infile = Ok m ->
  all_rows (map_Forall (fun _ => float_ok)) m ->
  all_groups row_good m.
Proof.
  intros Hs Hload Hfloats r c l Hl.
  pose proof (_load_report_rows _ _ Hs Hload r c l Hl) as H1.
  pose proof (proj1 (all_rows_group _ _) Hfloats r c l Hl) as H2.
  apply Forall_forall. intros d Hd.
  eapply Forall_forall in H1 as (? & ? & ?); [|exact Hd].
  eapply Forall_forall in H2; [|exact Hd]. by split_and!.
Qed.

Lemma written_filtered_report_is_read_back self infile (m : Collection) :
  schema_ok ->
  float_of_str "." = None ->
  _load_report infile = Ok m ->
  all_rows (map_Forall (fun _ => float_ok)) m ->
  exists outfile,
    _write_report_tsv (filtered self m) = Ok outfile
    /\ _load_report outfile = Ok (filtered self m).
Proof.
  intros Hs Hfdot Hload Hfloats.
  exists (expected_first_line :: (row_line <$> report_rows (filtered self m))).
  destruct (_load_report_shape _ _ Hload) as [Hrefs _].
  destruct (filtered_shape self m) as [Hf1 Hf2].
  apply good_report_is_read_back; [done|done| | |done].
  - apply all_groups_filtered; [|by eapply loaded_rows_good].
    intros r c d. by apply blank_row_good.
  - intros r Hr. by apply (Hrefs r), Hf1.
Qed.

(** X22: a loaded report is written and read back: the lines that
    [_write_report_tsv] writes for a report that [_load_report] has
    returned load to the same report.  (For tables of [ariba.report] that
    satisfy [schema_ok]; [str] and [float] are such that every float of
    the report is printed without white space and read back as itself,
    and [float] rejects ["."].) *)
Theorem loaded_report_is_written_and_read_back infile
    (self_report : Collection) :
  schema_ok ->
  float_of_str "." = None ->
  _load_report infile = Ok self_report ->
  all_rows (map_Forall (fun _ => float_ok)) self_report ->
  exists outfile,
    _write_report_tsv self_report = Ok outfile
    /\ _load_report outfile = Ok self_report.
Proof.
  intros Hs Hfdot Hload Hfloats.
  exists (expected_first_line :: (row_line <$> report_rows self_report)).
  destruct (_load_report_shape _ _ Hload) as [Hrefs Hgroups].
  apply good_report_is_read_back; [done|done| |done|done].
  by eapply loaded_rows_good.
Qed.

(** X23: the text file that [run] writes is a report file for the same
    filter: a [ReportFilter] built with the same arguments from that file
    holds the report that [run] left, and its own [run] writes the same
    lines again, under any prefix.  (For tables of [ariba.report] that
    satisfy [schema_ok]; [str] and [float] are such that every float of
    the report is printed without white space and read back as itself,
    and [float] rejects ["."]; the columns read by the essential predicate
    are not variant columns.) *)
Theorem written_tsv_is_filtered_to_itself infile a b ignore exclude self
    (self_report report' : Collection) outprefix
    (files files' : gmap string file) :
  schema_ok ->
  float_of_str "." = None ->
  Forall (fun key => key ∉ var_columns report) essential_columns ->
  __init__ (Some infile) a b ignore exclude = Ok (self, self_report) ->
  all_rows (map_Forall (fun _ => float_ok)) self_report ->
  run self self_report outprefix files = Ok (report', files') ->
  exists outfile,
    files' !! (outprefix +:+ ".tsv") = Some (TextFile outfile)
    /\ __init__ (Some outfile) a b ignore exclude = Ok (self, report')
    /\ forall outprefix' (files0 : gmap string file),
         exists files1,
           run self report' outprefix' files0 = Ok (report', files1)
           /\ files1 !! (outprefix' +:+ ".tsv") = Some (TextFile outfile).
Proof.
  intros Hs Hfdot Hcols Hinit Hfloats Hrun.
  unfold __init__ in Hinit.
  destruct (_load_report infile) as [m|] eqn:Hload; [|done].
  rewrite bind_Ok in Hinit. injection Hinit as Hself <-.
  unfold run in Hrun.
  destruct (_filter_dicts self m) as [report1|] eqn:Hf; [|done].
  rewrite bind_Ok in Hrun.
  destruct (_write_report_xls report1) as [sheet|] eqn:Hxls; [|done].
  rewrite bind_Ok in Hrun. cbv zeta in Hrun.
  destruct (_write_report_tsv report1) as [outfile|] eqn:Htsv; [|done].
  rewrite bind_Ok in Hrun. injection Hrun as <- <-.
  apply _filter_dicts_Ok in Hf as [Hev ->].
  destruct (written_filtered_report_is_read_back self infile m)
    as (outfile' & Htsv' & Hback); [done|done|done|done|].
  rewrite Htsv in Htsv'. injection Htsv' as <-.
  exists outfile. split_and!.
  - by rewrite lookup_insert_eq.
  - unfold __init__. rewrite Hback, bind_Ok. by rewrite Hself.
  - intros outprefix' files0. unfold run.
    rewrite _filter_dicts_spec by (by apply all_rows_filtered).
    rewrite filtered_idemp by done. rewrite bind_Ok, Hxls, bind_Ok. cbv zeta.
    rewrite Htsv, bind_Ok. eexists. split; [done|].
    by rewrite lookup_insert_eq.
Qed.

(** ** A report without any row to keep *)



(** ** The rows by reference *)

Lemma classify_refs_classify self (h : store) dicts_list : forall b,
  classify self (rows_of h dicts_list)
    {| pass_dicts := rows_of h (pass_refs b);
       essential_dicts := rows_of h (essential_refs b);
       fail_dicts := rows_of h (fail_refs b) |}
  = b' ← classify_refs self h dicts_list b;
    Ok {| pass_dicts := rows_of h (pass_refs b');
          essential_dicts := rows_of h (essential_refs b');
          fail_dicts := rows_of h (fail_refs b') |}.
Proof.
  unfold rows_of.
  induction dicts_list as [|d l IH]; intros b; [done|].
  rewrite fmap_cons. cbn [classify classify_refs].
  destruct (_report_dict_passes_essential_filters self (h !!! d)) as [[]|];
    [|rewrite !bind_Ok; cbv iota|done].
  - rewrite !bind_Ok. cbv iota.
    destruct (_report_dict_passes_non_essential_filters self (h !!! d))
      as [[]|]; [| |done]; rewrite !bind_Ok; cbv iota; rewrite <- IH;
      cbn [pass_refs essential_refs fail_refs pass_dicts essential_dicts
             fail_dicts];
      by rewrite fmap_app.
  - rewrite <- IH.
    cbn [pass_refs essential_refs fail_refs pass_dicts essential_dicts
           fail_dicts].
    by rewrite fmap_app.
Qed.

Lemma blank_var_columns_at_lookup (h : store) new_d :
  (var_columns report = [] -> blank_var_columns_at h new_d = h)
  /\ blank_var_columns_at h new_d !!! new_d = blank_var_columns (h !!! new_d)
  /\ forall q, q <> new_d -> blank_var_columns_at h new_d !! q = h !! q.
Proof.
  unfold blank_var_columns_at, blank_var_columns. split_and!.
  - by intros ->.
  - revert h. induction (var_columns report) as [|key ks IH]; intros h; [done|].
    cbn [foldl]. rewrite IH. by rewrite lookup_total_insert_eq.
  - intros q Hq. revert h.
    induction (var_columns report) as [|key ks IH]; intros h; [done|].
    cbn [foldl]. rewrite IH. by rewrite lookup_insert_ne.
Qed.

Lemma length_rows_of (h : store) l : length (rows_of h l) = length l.
Proof. unfold rows_of. by rewrite length_fmap. Qed.

(** X25: filtering by reference and filtering by value agree: the rows
    that the list returned by [_filter_list_of_dicts] refers to, read in
    the store that the function leaves, are the rows that the function
    returns on the rows of its argument, and the exceptions are the
    same. *)
Theorem filtering_the_objects_returns_the_filtered_rows self
    (h : store) dicts_list :
  (r ← _filter_list_of_dicts_refs self h dicts_list; Ok (rows_of r.1 r.2))
  = _filter_list_of_dicts self (rows_of h dicts_list).
Proof.
  unfold _filter_list_of_dicts_refs, _filter_list_of_dicts.
  rewrite length_rows_of.
  destruct (length dicts_list =? 0)%nat; [done|].
  pose proof (classify_refs_classify self h dicts_list
                {| pass_refs := []; essential_refs := []; fail_refs := [] |})
    as Hc.
  cbn [pass_refs essential_refs fail_refs] in Hc.
  change (rows_of h []) with (@nil (gmap string value)) in Hc.
  rewrite Hc. clear Hc.
  destruct (classify_refs self h dicts_list _) as [b|]; [|done].
  rewrite !bind_Ok. cbn [pass_dicts essential_dicts fail_dicts].
  rewrite !length_rows_of.
  destruct (length (pass_refs b) =? 0)%nat eqn:Hpass; [|done].
  destruct (negb _); [done|].
  destruct (essential_refs b) as [|new_d es]; [done|].
  rewrite bind_Ok. cbn [fst snd].
  apply Nat.eqb_eq in Hpass. apply length_zero_iff_nil in Hpass.
  rewrite Hpass. unfold rows_of. cbn [app fmap list_fmap]. do 3 f_equal.
  apply blank_var_columns_at_lookup.
Qed.

Lemma classify_refs_spec self (h : store) dicts_list : forall b b',
  classify_refs self h dicts_list b = Ok b' ->
  pass_refs b'
  = pass_refs b ++ filter (fun p => passes self (h !!! p)) dicts_list
  /\ essential_refs b'
     = essential_refs b
       ++ filter (fun p => essential self (h !!! p) /\ ~ passes self (h !!! p))
            dicts_list.
Proof.
  induction dicts_list as [|d l IH]; intros b b'.
  - simpl. intros [= <-]. by rewrite !filter_nil, !app_nil_r.
  - cbn [classify_refs]. rewrite !filter_cons.
    destruct (_report_dict_passes_essential_filters self (h !!! d))
      as [[]|] eqn:He; [| |done]; rewrite bind_Ok; cbv iota.
    + destruct (_report_dict_passes_non_essential_filters self (h !!! d))
        as [[]|] eqn:Hn; [| |done]; rewrite bind_Ok; cbv iota;
        intros [-> ->]%IH;
        cbn [pass_refs essential_refs fail_refs].
      * assert (passes self (h !!! d)) as Hp by (by apply passes_iff).
        rewrite decide_True by done.
        rewrite decide_False by (by intros [_ ?]).
        by rewrite <- app_assoc.
      * assert (~ passes self (h !!! d)) as Hp.
        { intros ?%passes_non_essential. unfold non_essential in *. congruence. }
        rewrite decide_False by done.
        rewrite decide_True by done.
        by rewrite <- app_assoc.
    + intros [-> ->]%IH. cbn [pass_refs essential_refs fail_refs].
      assert (~ essential self (h !!! d)) as Hne
        by (unfold essential; congruence).
      rewrite decide_False by (intros ?%passes_essential; done).
      by rewrite decide_False by (by intros [? _]).
Qed.

(** X26: [_filter_list_of_dicts] copies no row and changes at most one:
    the list that it returns holds addresses of its argument; when it
    returns the rows that satisfy both predicates, or none, the store is
    as it was; in the fallback case the first row that satisfies the
    essential predicate is blanked where it is, so that the list of the
    caller, which still refers to it, shows the blanked row, and no other
    object has changed. *)
Theorem fallback_blanks_the_row_of_the_caller self
    (h h' : store) dicts_list l' :
  _filter_list_of_dicts_refs self h dicts_list = Ok (h', l') ->
  (forall p, p ∈ l' -> p ∈ dicts_list)
  /\ ((l' = filter (fun p => passes self (h !!! p)) dicts_list /\ h' = h)
      \/ exists before new_d after,
           dicts_list = before ++ new_d :: after
           /\ Forall (fun p => ~ essential self (h !!! p)) before
           /\ essential self (h !!! new_d)
           /\ Forall (fun p => ~ passes self (h !!! p)) dicts_list
           /\ l' = [new_d]
           /\ h' !!! new_d = blank_var_columns (h !!! new_d)
           /\ (forall q, q <> new_d -> h' !! q = h !! q)
           /\ rows_of h' dicts_list
              = (fun p => if decide (p = new_d)
                          then blank_var_columns (h !!! p) else h !!! p)
                <$> dicts_list).
Proof.
  unfold _filter_list_of_dicts_refs.
  destruct dicts_list as [|d0 ds0].
  { simpl. intros [= <- <-]. split; [done|]. by left. }
  change (length (d0 :: ds0) =? 0)%nat with false. cbv iota.
  destruct (classify_refs self h (d0 :: ds0) _) as [b|] eqn:Hc; [|done].
  rewrite bind_Ok.
  apply classify_refs_spec in Hc as [Hpass Hess].
  cbn [pass_refs essential_refs app] in Hpass, Hess.
  destruct (length (pass_refs b) =? 0)%nat eqn:Hlen.
  - apply Nat.eqb_eq in Hlen. apply length_zero_iff_nil in Hlen.
    destruct (negb _); [done|].
    destruct (essential_refs b) as [|new_d es] eqn:Hb.
    + rewrite Hlen. intros [= <- <-]. split; [by intros p ?%elem_of_nil|].
      left. split; [|done]. by rewrite <- Hpass.
    + rewrite Hlen. cbn [app]. intros [= <- <-].
      rewrite Hlen in Hpass. symmetry in Hpass, Hess.
      assert (Forall (fun p => ~ passes self (h !!! p)) (d0 :: ds0)) as Hnone.
      { apply Forall_forall. intros p Hp Hpasses.
        assert (p ∈ filter (fun p => passes self (h !!! p)) (d0 :: ds0)) as Hin
          by (by apply list_elem_of_filter).
        rewrite Hpass in Hin. by apply elem_of_nil in Hin. }
      destruct (filter_head_split _ _ _ _ Hess)
        as (before & after & Hsplit & Hbefore & [He _]).
      destruct (blank_var_columns_at_lookup h new_d) as (_ & Hat & Hother).
      split.
      * intros p ->%list_elem_of_singleton. rewrite Hsplit.
        apply elem_of_app. right. left.
      * right. exists before, new_d, after. split_and!; try done.
        -- apply Forall_forall. intros p Hp Hessp.
           eapply Forall_forall in Hbefore; [|exact Hp]. apply Hbefore.
           split; [done|]. eapply Forall_forall in Hnone; [exact Hnone|].
           rewrite Hsplit. apply elem_of_app. by left.
        -- unfold rows_of. apply list_fmap_ext. intros i p _.
           destruct (decide (p = new_d)) as [->|Hne]; [done|].
           by rewrite !lookup_total_alt, Hother.
  - intros [= <- <-]. split.
    + intros p Hp. rewrite Hpass in Hp. by apply list_elem_of_filter in Hp as [_ ?].
    + left. by split.
Qed.

End ReportFilter.

(** ** The theorems on the sample data *)

Lemma fallback_keeps_first_essential_blanked_witness :
  exists before new_d after,
    [ex_R3; ex_R1; ex_R1] = before ++ new_d :: after
    /\ Forall (fun d => ~ essential ex_flags_in_order ex_self d) before
    /\ essential ex_flags_in_order ex_self new_d
    /\ _filter_list_of_dicts ex_report ex_flags_in_order ex_self
         [ex_R3; ex_R1; ex_R1]
       = Ok [blank_var_columns ex_report new_d]
    /\ (forall key, key ∈ var_columns ex_report ->
          blank_var_columns ex_report new_d !! key = Some (VStr "."))
    /\ (forall key, key ∉ var_columns ex_report ->
          blank_var_columns ex_report new_d !! key = new_d !! key).
Proof.
  apply (fallback_keeps_first_essential_blanked ex_report ex_flags_in_order
           ex_self [ex_R3; ex_R1; ex_R1]).
  - apply (bool_decide_unpack _). vm_compute. exact I.
  - apply (bool_decide_unpack _). vm_compute. exact I.
  - apply (bool_decide_unpack _). vm_compute. exact I.
Defined.

Lemma passing_rows_are_kept_unchanged_witness :
  _filter_list_of_dicts ex_report ex_flags_in_order ex_self
    [ex_R1; ex_R2; ex_R3]
  = Ok (filter (passes ex_flags_in_order ex_self) [ex_R1; ex_R2; ex_R3]).
Proof.
  apply (passing_rows_are_kept_unchanged ex_report ex_flags_in_order ex_self).
  - apply (bool_decide_unpack _). vm_compute. exact I.
  - apply (bool_decide_unpack _). vm_compute. exact I.
Defined.

Lemma no_demotion_when_known_variant_not_required_witness :
  (forall d, _report_dict_passes_non_essential_filters ex_lenient d = Ok true)
  /\ _filter_list_of_dicts ex_report ex_flags_in_order ex_lenient
       [ex_R1; ex_R3; ex_R2]
     = Ok (filter (essential ex_flags_in_order ex_lenient) [ex_R1; ex_R3; ex_R2]).
Proof.
  apply (no_demotion_when_known_variant_not_required ex_report
           ex_flags_in_order ex_lenient).
  - reflexivity.
  - apply (bool_decide_unpack _). vm_compute. exact I.
Defined.

Example spec_example_1 :
  _filter_list_of_dicts ex_report ex_flags_in_order ex_self
    [ex_R1; ex_R2; ex_R3] = Ok [ex_R2].
Proof. apply (bool_decide_unpack _). vm_compute. exact I. Qed.

Example spec_example_2 :
  _filter_list_of_dicts ex_report ex_flags_in_order ex_self [ex_R1; ex_R3]
  = Ok [blank_var_columns ex_report ex_R1].
Proof. apply (bool_decide_unpack _). vm_compute. exact I. Qed.

Example spec_example_3 :
  _filter_list_of_dicts ex_report ex_flags_in_order ex_self [ex_R3; ex_R3]
  = Ok [].
Proof. apply (bool_decide_unpack _). vm_compute. exact I. Qed.

Lemma filtered_report_has_no_empty_branch_witness :
  exists report',
    _filter_dicts ex_report ex_flags_in_order ex_self ex_self_report = Ok report'
    /\ (forall ref_name ctg_name,
          group report' ref_name ctg_name = None
          \/ exists l, group report' ref_name ctg_name = Some l
               /\ l <> [] /\ Forall (essential ex_flags_in_order ex_self) l)
    /\ (forall ref_name, report' !! ref_name <> Some ∅)
    /\ (forall ref_name ctg_name, group report' ref_name ctg_name <> Some []).
Proof.
  apply (filtered_report_has_no_empty_branch ex_report ex_flags_in_order
           ex_float_of_str ex_self ex_infile ex_self_report).
  - apply (bool_decide_unpack _). vm_compute. exact I.
  - apply (bool_decide_unpack _). vm_compute. exact I.
  - apply (bool_decide_unpack _). vm_compute. exact I.
Defined.

Lemma group_without_essential_row_is_removed_witness :
  exists report',
    _filter_dicts ex_report ex_flags_in_order ex_self ex_self_report = Ok report'
    /\ group report' "ref2" "ctg2" = None
    /\ (forall ctgs, report' !! "ref2" = Some ctgs -> ctgs !! "ctg2" = None)
    /\ ((forall c, c <> "ctg2" -> group ex_self_report "ref2" c = None) ->
        report' !! "ref2" = None).
Proof.
  apply (group_without_essential_row_is_removed ex_report ex_flags_in_order
           ex_self ex_self_report "ref2" "ctg2" [ex_R4]).
  - apply (bool_decide_unpack _). vm_compute. exact I.
  - apply (bool_decide_unpack _). vm_compute. exact I.
  - apply (bool_decide_unpack _). vm_compute. exact I.
Defined.

Lemma wrong_column_count_raises_NameError_witness :
  _load_report ex_report ex_float_of_str
    (String "#" (ex_line (columns ex_report))
     :: [ex_line ["ref1"; "1"; "120"; "99.5"; "ctg1"; "1"; "0"; "A42T"; "some text"]]
     ++ ex_line ["ref1"; "1"; "120"] :: [])
  = Raise (NameError "data").
Proof.
  apply (wrong_column_count_raises_NameError ex_report ex_float_of_str _ _ _ _
           {[ "ref1" := {[ "ctg1" := [ex_R1] ]} ]}).
  - apply (bool_decide_unpack _). vm_compute. exact I.
  - apply (bool_decide_unpack _). vm_compute. exact I.
  - vm_compute. discriminate.
Defined.

Lemma filtering_twice_is_filtering_once_witness :
  exists report',
    _filter_dicts ex_report ex_flags_in_order ex_self ex_self_report = Ok report'
    /\ _filter_dicts ex_report ex_flags_in_order ex_self report' = Ok report'.
Proof.
  apply (filtering_twice_is_filtering_once ex_report ex_flags_in_order ex_self
           ex_self_report).
  - apply (bool_decide_unpack _). vm_compute. exact I.
  - apply (bool_decide_unpack _). vm_compute. exact I.
Defined.


Lemma numeric_cell_dot_kept_else_assertion_witness :
  (forall d, _report_line_to_dict ex_report ex_float_of_str ex_dot_line
             = Ok (Some d) ->
             d !! "pc_ident" = Some (VStr "."))
  /\ (_report_line_to_dict ex_report ex_float_of_str ex_bad_line
      = Raise AssertionError
      /\ forall f m, load_lines ex_report ex_float_of_str (ex_bad_line :: f)
                       false m = Raise AssertionError).
Proof.
  split.
  - apply (numeric_cell_dot_kept_else_assertion ex_report ex_float_of_str
             ex_dot_line "pc_ident" ".").
    + reflexivity.
    + apply (bool_decide_unpack _). vm_compute. exact I.
    + reflexivity.
    + apply (bool_decide_unpack _). vm_compute. exact I.
    + reflexivity.
    + apply (bool_decide_unpack _). vm_compute. exact I.
    + discriminate.
  - apply (numeric_cell_dot_kept_else_assertion ex_report ex_float_of_str
             ex_bad_line "ref_base_assembled" "12x").
    + reflexivity.
    + apply (bool_decide_unpack _). vm_compute. exact I.
    + reflexivity.
    + apply (bool_decide_unpack _). vm_compute. exact I.
    + discriminate.
    + left. split; [|reflexivity]. apply (bool_decide_unpack _). vm_compute. exact I.
Defined.

(** [int] skips the white space of C, not the separators 28 to 31 that
    [str.rstrip] takes off the end of a line. *)
Example int_of_str_white_space :
  int_of_str (String "009" "120 ") = Some 120
  /\ int_of_str (String "031" "120") = None
  /\ int_of_str (String "028" "120") = None
  /\ int_of_str ("120" +:+ String "030" "") = None.
Proof. split; [|split; [|split]]; vm_compute; reflexivity. Qed.

(** An integer cell that starts with such a separator is not a number. *)
Example ex_separator_cell_is_rejected :
  _report_line_to_dict ex_report ex_float_of_str
    (ex_line ["ref1"; "1"; String "031" "120"; "99.5"; "ctg1"; "1"; "0";
              "A42T"; "some text"])
  = Raise AssertionError.
Proof. apply (bool_decide_unpack _). vm_compute. exact I. Qed.

Example dot_line_is_parsed :
  _report_line_to_dict ex_report ex_float_of_str ex_dot_line = Ok (Some ex_R3).
Proof. apply (bool_decide_unpack _). vm_compute. exact I. Qed.

Example ex_infile_is_loaded :
  _load_report ex_report ex_float_of_str ex_infile = Ok ex_self_report.
Proof. apply (bool_decide_unpack _). vm_compute. exact I. Qed.

Lemma written_report_is_read_back_witness :
  exists report' outfile,
    _filter_dicts ex_report ex_flags_in_order ex_self ex_self_report = Ok report'
    /\ _write_report_tsv ex_report ex_str_of_float report' = Ok outfile
    /\ _load_report ex_report ex_float_of_str outfile = Ok report'.
Proof.
  apply (written_report_is_read_back ex_report ex_flags_in_order
           ex_float_of_str ex_str_of_float ex_self ex_infile ex_self_report).
  - apply (bool_decide_unpack _). vm_compute. exact I.
  - reflexivity.
  - apply (bool_decide_unpack _). vm_compute. exact I.
  - apply (bool_decide_unpack _). vm_compute. exact I.
  - apply (bool_decide_unpack _). vm_compute. exact I.
Defined.

Example ex_round_trip :
  (report' ← _filter_dicts ex_report ex_flags_in_order ex_self ex_self_report;
   outfile ← _write_report_tsv ex_report ex_str_of_float report';
   reloaded ← _load_report ex_report ex_float_of_str outfile;
   Ok (outfile, bool_decide (reloaded = report')))
  = Ok ([String "#" (ex_line (columns ex_report));
         ex_line ["ref1"; "1"; "120"; "99.5"; "ctg1"; "."; "0"; "."; "some text"]],
        true).
Proof. apply (bool_decide_unpack _). vm_compute. exact I. Qed.

Lemma string_identity_raises_TypeError_witness :
  _report_dict_passes_essential_filters ex_flags_in_order ex_self
    ex_undetermined = Raise TypeError
  /\ _filter_list_of_dicts ex_report ex_flags_in_order ex_self
       ([ex_R2] ++ ex_undetermined :: [ex_R1]) = Raise TypeError.
Proof.
  apply (string_identity_raises_TypeError ex_report ex_flags_in_order ex_self
           ex_undetermined (VFlag (mkFlag 1)) ".").
  - apply (bool_decide_unpack _). vm_compute. exact I.
  - reflexivity.
  - apply (bool_decide_unpack _). vm_compute. exact I.
  - discriminate.
  - apply (bool_decide_unpack _). vm_compute. exact I.
Defined.

Lemma wrong_header_raises_Error_witness :
  _load_report ex_report ex_float_of_str ["ref_name"; ex_dot_line]
  = Raise (Error ("Error reading report file. Expected first line of file is"
                  +:+ newline +:+ expected_first_line ex_report +:+ newline
                  +:+ "but got:" +:+ newline +:+ rstrip "ref_name")).
Proof.
  apply (wrong_header_raises_Error ex_report ex_float_of_str).
  vm_compute. discriminate.
Defined.

Lemma reference_without_contig_is_kept_witness :
  exists report',
    _filter_dicts ex_report ex_flags_in_order ex_self
      (<["ref3" := ∅]> ex_self_report) = Ok report'
    /\ report' !! "ref3" = Some ∅.
Proof.
  apply (reference_without_contig_is_kept ex_report ex_flags_in_order ex_self).
  - apply (bool_decide_unpack _). vm_compute. exact I.
  - apply (bool_decide_unpack _). vm_compute. exact I.
Defined.

Lemma filter_list_raises_what_a_row_raises_witness :
  (exists before d after,
     [ex_R2; ex_undetermined; ex_R1] = before ++ d :: after
     /\ Forall (evaluates ex_flags_in_order ex_self) before
     /\ _report_dict_passes_filters ex_flags_in_order ex_self d = Raise TypeError
     /\ (TypeError = TypeError \/ TypeError = AttributeError
         \/ exists key, d !! key = None /\ TypeError = KeyError key))
  /\ TypeError <> AssertionError.
Proof.
  apply (filter_list_raises_what_a_row_raises ex_report ex_flags_in_order
           ex_self [ex_R2; ex_undetermined; ex_R1] TypeError).
  apply (bool_decide_unpack _). vm_compute. exact I.
Defined.

Lemma rows_with_an_excluded_flag_are_dropped_unread_witness :
  Forall (fun d => _report_dict_passes_essential_filters ex_flags_in_order
                     ex_self d = Ok false
                   /\ _report_dict_passes_filters ex_flags_in_order ex_self d
                      = Ok false)
    [ex_R3; ex_R4]
  /\ _filter_list_of_dicts ex_report ex_flags_in_order ex_self [ex_R3; ex_R4]
     = Ok [].
Proof.
  apply (rows_with_an_excluded_flag_are_dropped_unread ex_report
           ex_flags_in_order ex_self).
  repeat constructor; exists (mkFlag 2), "assembly_fail"; split_and!;
    apply (bool_decide_unpack _); vm_compute; exact I.
Defined.

Lemma exclude_flags_matter_as_a_set_witness :
  _filter_list_of_dicts ex_report ex_flags_in_order ex_reordered
    [ex_R1; ex_R2; ex_R3]
  = _filter_list_of_dicts ex_report ex_flags_in_order ex_self
      [ex_R1; ex_R2; ex_R3].
Proof.
  apply (exclude_flags_matter_as_a_set ex_report ex_flags_in_order ex_self
           ex_reordered).
  - reflexivity.
  - reflexivity.
  - reflexivity.
  - intros name. simpl. rewrite !elem_of_cons, !elem_of_nil.
    split; intros H; repeat destruct H as [H|H]; auto.
Defined.

Lemma lower_integer_thresholds_keep_more_witness :
  (forall d, essential ex_flags_in_order ex_strict d ->
             essential ex_flags_in_order ex_self d)
  /\ (forall d, passes ex_flags_in_order ex_strict d ->
                passes ex_flags_in_order ex_self d)
  /\ (forall dicts_list x xs,
        _filter_list_of_dicts ex_report ex_flags_in_order ex_strict dicts_list
        = Ok (x :: xs) ->
        Forall (evaluates ex_flags_in_order ex_self) dicts_list ->
        exists y ys,
          _filter_list_of_dicts ex_report ex_flags_in_order ex_self dicts_list
          = Ok (y :: ys)).
Proof.
  apply (lower_integer_thresholds_keep_more ex_report ex_flags_in_order
           ex_strict ex_self 95 90 100 1).
  - reflexivity.
  - reflexivity.
  - reflexivity.
  - reflexivity.
  - lia.
  - reflexivity.
  - reflexivity.
  - lia.
Defined.

Lemma filter_dicts_filters_each_group_on_its_own_witness :
  (forall ref_name ctg_name,
     group ex_filtered_report ref_name ctg_name
     = match group ex_self_report ref_name ctg_name with
       | Some l =>
           match _filter_list_of_dicts ex_report ex_flags_in_order ex_self l
           with
           | Ok (d :: rest) => Some (d :: rest)
           | _ => None
           end
       | None => None
       end)
  /\ (forall ref_name,
        is_Some (ex_filtered_report !! ref_name)
        <-> ex_self_report !! ref_name = Some ∅
            \/ exists ctg_name,
                 is_Some (group ex_filtered_report ref_name ctg_name)).
Proof.
  apply (filter_dicts_filters_each_group_on_its_own ex_report
           ex_flags_in_order ex_self).
  apply (bool_decide_unpack _). vm_compute. exact I.
Defined.

Lemma loaded_groups_are_the_rows_in_file_order_witness :
  rstrip (String "#" (ex_line (columns ex_report)))
  = expected_first_line ex_report
  /\ exists rows,
       Forall2 (fun line d =>
                  _report_line_to_dict ex_report ex_float_of_str (rstrip line)
                  = Ok (Some d))
         (tail ex_infile) rows
       /\ (forall ref_name ctg_name,
             group ex_self_report ref_name ctg_name
             = match filter (fun d => d !! "ref_name" = Some (VStr ref_name)
                                      /\ d !! "ctg" = Some (VStr ctg_name)) rows
               with
               | [] => None
               | l => Some l
               end)
       /\ (forall ref_name,
             is_Some (ex_self_report !! ref_name)
             <-> Exists (fun d => d !! "ref_name" = Some (VStr ref_name)) rows).
Proof.
  apply (loaded_groups_are_the_rows_in_file_order ex_report ex_float_of_str
           (String "#" (ex_line (columns ex_report))) (tail ex_infile)
           ex_self_report).
  apply (bool_decide_unpack _). vm_compute. exact I.
Defined.

Lemma flag_cell_must_be_a_number_witness :
  exists e,
    (e = ValueError \/ e = AssertionError)
    /\ _report_line_to_dict ex_report ex_float_of_str (rstrip ex_dot_flag_line)
       = Raise e
    /\ forall f m,
         load_lines ex_report ex_float_of_str (ex_dot_flag_line :: f) false m
         = Raise e.
Proof.
  apply (flag_cell_must_be_a_number ex_report ex_float_of_str
           ex_dot_flag_line ".").
  - reflexivity.
  - apply (bool_decide_unpack _). vm_compute. exact I.
  - apply (bool_decide_unpack _). vm_compute. exact I.
  - reflexivity.
  - reflexivity.
Defined.

Lemma line_with_an_empty_last_cell_is_rejected_witness :
  _report_line_to_dict ex_report ex_float_of_str
    (rstrip (join tab (ex_init_cells ++ [""]))) = Ok None
  /\ _load_report ex_report ex_float_of_str
       (String "#" (ex_line (columns ex_report))
        :: [ex_line (ex_init_cells ++ ["some text"])]
           ++ join tab (ex_init_cells ++ [""]) :: [])
     = Raise (NameError "data").
Proof.
  apply (line_with_an_empty_last_cell_is_rejected ex_report ex_float_of_str
           _ _ _ _ _ {[ "ref1" := {[ "ctg1" := [ex_R1] ]} ]}).
  - apply (bool_decide_unpack _). vm_compute. exact I.
  - apply (bool_decide_unpack _). vm_compute. exact I.
  - discriminate.
  - apply (bool_decide_unpack _). vm_compute. exact I.
  - reflexivity.
  - reflexivity.
Defined.

Lemma load_ignores_trailing_white_space_witness :
  _load_report ex_report ex_float_of_str
    ((fun line => line +:+ String "013"%char " ") <$> ex_infile)
  = _load_report ex_report ex_float_of_str ex_infile.
Proof.
  apply (load_ignores_trailing_white_space ex_report ex_float_of_str).
  apply (bool_decide_unpack _). vm_compute. exact I.
Defined.

Lemma tsv_rows_are_sorted_by_reference_then_contig_witness :
  exists rows,
    Forall2 (fun d line =>
               _dict_to_report_line ex_report ex_str_of_float d = Ok line)
      rows (tail ex_outfile)
    /\ StronglySorted written_before rows
    /\ (forall d, d ∈ rows <->
          exists ref_name ctg_name l,
            group ex_self_report ref_name ctg_name = Some l /\ d ∈ l)
    /\ (forall ref_name ctg_name l,
          group ex_self_report ref_name ctg_name = Some l ->
          filter (fun d => ref_of d = ref_name /\ ctg_of d = ctg_name) rows = l).
Proof.
  apply (tsv_rows_are_sorted_by_reference_then_contig ex_report
           ex_str_of_float ex_self_report ex_outfile).
  - apply (bool_decide_unpack _). vm_compute. exact I.
  - apply (bool_decide_unpack _). vm_compute. exact I.
Defined.

Lemma running_again_changes_nothing_witness :
  run ex_report ex_flags_in_order ex_str_of_float ex_openpyxl ex_self
    ex_filtered_report "out" ex_files
  = Ok (ex_filtered_report, ex_files).
Proof.
  apply (running_again_changes_nothing ex_report ex_flags_in_order
           ex_str_of_float ex_openpyxl ex_self ex_self_report
           ex_filtered_report "out" ∅).
  - apply (bool_decide_unpack _). vm_compute. exact I.
  - apply (bool_decide_unpack _). vm_compute. exact I.
Defined.

Lemma loaded_report_is_written_and_read_back_witness :
  exists outfile,
    _write_report_tsv ex_report ex_str_of_float ex_self_report = Ok outfile
    /\ _load_report ex_report ex_float_of_str outfile = Ok ex_self_report.
Proof.
  apply (loaded_report_is_written_and_read_back ex_report ex_float_of_str
           ex_str_of_float ex_infile ex_self_report).
  - apply (bool_decide_unpack _). vm_compute. exact I.
  - reflexivity.
  - apply (bool_decide_unpack _). vm_compute. exact I.
  - apply (bool_decide_unpack _). vm_compute. exact I.
Defined.

Lemma written_tsv_is_filtered_to_itself_witness :
  exists outfile,
    ex_files !! ("out" +:+ ".tsv") = Some (TextFile outfile)
    /\ __init__ ex_report ex_float_of_str (Some outfile) (VInt 90) (VInt 1)
         true None
       = Ok (ex_self, ex_filtered_report)
    /\ forall outprefix' (files0 : gmap string file),
         exists files1,
           run ex_report ex_flags_in_order ex_str_of_float ex_openpyxl ex_self
             ex_filtered_report outprefix' files0
           = Ok (ex_filtered_report, files1)
           /\ files1 !! (outprefix' +:+ ".tsv") = Some (TextFile outfile).
Proof.
  apply (written_tsv_is_filtered_to_itself ex_report ex_flags_in_order
           ex_float_of_str ex_str_of_float ex_openpyxl ex_infile (VInt 90)
           (VInt 1) true None ex_self ex_self_report ex_filtered_report "out" ∅ ex_files).
  - apply (bool_decide_unpack _). vm_compute. exact I.
  - reflexivity.
  - apply (bool_decide_unpack _). vm_compute. exact I.
  - apply (bool_decide_unpack _). vm_compute. exact I.
  - apply (bool_decide_unpack _). vm_compute. exact I.
  - apply (bool_decide_unpack _). vm_compute. exact I.
Defined.


(** The sheet of the sample holds the column names as they are. *)
Example ex_failed_report_is_written_as_headers :
  run ex_report ex_flags_in_order ex_str_of_float ex_openpyxl ex_self
    ex_failed_report "out" ∅
  = Ok (∅,
        {[ "out.xls" :=
             Workbook {| title := "ARIBA_report";
                         sheet_rows := [columns ex_report] |};
           "out.tsv" :=
             TextFile [String "#" (ex_line (columns ex_report))] ]}).
Proof. apply (bool_decide_unpack _). vm_compute. exact I. Qed.

Lemma fallback_blanks_the_row_of_the_caller_witness :
  (forall p, p ∈ [1%nat] -> p ∈ [0%nat; 1%nat; 1%nat])
  /\ (([1%nat] = filter (fun p => passes ex_flags_in_order ex_self
                                    (ex_store !!! p))
                   [0%nat; 1%nat; 1%nat]
       /\ <[1%nat := blank_var_columns ex_report ex_R1]> ex_store = ex_store)
      \/ exists before new_d after,
           [0%nat; 1%nat; 1%nat] = before ++ new_d :: after
           /\ Forall (fun p => ~ essential ex_flags_in_order ex_self
                                  (ex_store !!! p)) before
           /\ essential ex_flags_in_order ex_self (ex_store !!! new_d)
           /\ Forall (fun p => ~ passes ex_flags_in_order ex_self
                                  (ex_store !!! p)) [0%nat; 1%nat; 1%nat]
           /\ [1%nat] = [new_d]
           /\ <[1%nat := blank_var_columns ex_report ex_R1]> ex_store !!! new_d
              = blank_var_columns ex_report (ex_store !!! new_d)
           /\ (forall q, q <> new_d ->
                 <[1%nat := blank_var_columns ex_report ex_R1]> ex_store !! q
                 = ex_store !! q)
           /\ rows_of (<[1%nat := blank_var_columns ex_report ex_R1]> ex_store)
                [0%nat; 1%nat; 1%nat]
              = (fun p => if decide (p = new_d)
                          then blank_var_columns ex_report (ex_store !!! p)
                          else ex_store !!! p)
                <$> [0%nat; 1%nat; 1%nat]).
Proof.
  apply (fallback_blanks_the_row_of_the_caller ex_report ex_flags_in_order
           ex_self ex_store
           (<[1%nat := blank_var_columns ex_report ex_R1]> ex_store)
           [0%nat; 1%nat; 1%nat] [1%nat]).
  apply (bool_decide_unpack _). vm_compute. exact I.
Defined.

(** The objects of the sample store after the fallback: the caller's list
    [[0; 1; 1]] shows the blanked row twice. *)
Example ex_store_after_fallback :
  (r ← _filter_list_of_dicts_refs ex_report ex_flags_in_order ex_self ex_store
         [0%nat; 1%nat; 1%nat];
   Ok (r.2, rows_of r.1 [0%nat; 1%nat; 1%nat]))
  = Ok ([1%nat],
        [ex_R3; blank_var_columns ex_report ex_R1;
         blank_var_columns ex_report ex_R1]).
Proof. apply (bool_decide_unpack _). vm_compute. exact I. Qed.

(** What [run] writes of the sample report. *)
Example ex_run :
  run ex_report ex_flags_in_order ex_str_of_float ex_openpyxl ex_self
    ex_self_report "out" ∅
  = Ok (ex_filtered_report, ex_files).
Proof. apply (bool_decide_unpack _). vm_compute. exact I. Qed.

(** A cell with a control character is printed as a line and refused by
    the sheet: [run], which writes the sheet first, raises and writes no
    file. *)
Example ex_control_character_is_refused_by_the_sheet :
  _filter_dicts ex_report ex_flags_in_order ex_self ex_control_report
  = Ok ex_control_report
  /\ is_Ok (_write_report_tsv ex_report ex_str_of_float ex_control_report)
  /\ _write_report_xls ex_report ex_str_of_float ex_openpyxl
       ex_control_report = Raise IllegalCharacterError
  /\ run ex_report ex_flags_in_order ex_str_of_float ex_openpyxl ex_self
       ex_control_report "out" ∅ = Raise IllegalCharacterError.
Proof.
  split; [|split; [|split]]; apply (bool_decide_unpack _); vm_compute;
    exact I.
Qed.

Lemma parsed_row_is_printed_and_parsed_back_witness :
  exists line',
    _dict_to_report_line ex_report ex_str_of_float ex_R1 = Ok line'
    /\ rstrip line' = line'
    /\ _report_line_to_dict ex_report ex_float_of_str line' = Ok (Some ex_R1).
Proof.
  apply (parsed_row_is_printed_and_parsed_back ex_report ex_float_of_str
           ex_str_of_float ex_padded_line ex_R1).
  - apply (bool_decide_unpack _). vm_compute. exact I.
  - reflexivity.
  - apply (bool_decide_unpack _). vm_compute. exact I.
  - apply (bool_decide_unpack _). vm_compute. exact I.
  - apply (bool_decide_unpack _). vm_compute. exact I.
Defined.

(** The line that is printed need not be the line that was parsed: [int]
    accepts ["0120"], and [str] prints ["120"]. *)
Example ex_padded_line_is_normalised :
  _report_line_to_dict ex_report ex_float_of_str ex_padded_line
  = Ok (Some ex_R1)
  /\ _dict_to_report_line ex_report ex_str_of_float ex_R1
     = Ok (ex_line ["ref1"; "1"; "120"; "99.5"; "ctg1"; "1"; "0"; "A42T";
                    "some text"]).
Proof. split; apply (bool_decide_unpack _); vm_compute; exact I. Qed.

Lemma undetermined_identity_aborts_run_witness :
  _report_dict_passes_essential_filters ex_flags_in_order ex_self
    ex_undetermined = Raise TypeError
  /\ exists e,
       _filter_dicts ex_report ex_flags_in_order ex_self ex_undetermined_report
       = Raise e
       /\ run ex_report ex_flags_in_order ex_str_of_float ex_openpyxl ex_self
            ex_undetermined_report "out" ∅ = Raise e.
Proof.
  apply (undetermined_identity_aborts_run ex_report ex_flags_in_order
           ex_str_of_float ex_openpyxl ex_self ex_undetermined_report "out" ∅
           "ref1" "ctg1" [ex_R2; ex_undetermined] ex_undetermined
           (VFlag (mkFlag 1)) ".").
  - apply (bool_decide_unpack _). vm_compute. exact I.
  - apply (bool_decide_unpack _). vm_compute. exact I.
  - apply (bool_decide_unpack _). vm_compute. exact I.
  - reflexivity.
  - apply (bool_decide_unpack _). vm_compute. exact I.
  - discriminate.
Defined.
